(** * IR CRM: the spreadsheet import and export pipelines

    A shallow embedding of [src/lib/import.ts] (the revision with sheet
    support), of the sheet handling of [components/ExcelImport.tsx] and of
    [src/lib/export.ts], followed by the properties of the pipelines.
    The components around the pipelines come after them: the rest of the
    import dialog, the dashboard page that starts an export, and the file
    list of a contact.

    Conventions of the embedding.
    - A JavaScript string is a [string]: a sequence of code units below 256
      (the Latin-1 range), on which [trim], [toLowerCase] and the regular
      expression class [\s] are modelled exactly.
    - A JavaScript number is a binary64 [float]; the kernel's primitive
      floats compute with the same IEEE 754 operations.
    - [async] code is sequential: each [await] is a call into the
      collaborator (authentication, storage, object store) whose answer is
      part of the environment. *)

From Stdlib Require Import ZArith List Ascii String Floats Lia DecimalString.
From stdpp Require Import gmap strings list.

Set Warnings "-inexact-float".
Local Open Scope string_scope.
Local Open Scope Z_scope.

(** ** The host language *)

Module Js.

(** *** Strings *)

Definition code (c : ascii) : N := N_of_ascii c.

(** WhiteSpace and LineTerminator code points below 256: TAB, LF, VT, FF,
    CR, SP and NBSP.  [String.prototype.trim] and the class [\s] use the
    same set. *)
Definition isWhiteSpace (c : ascii) : bool :=
  let n := code c in
  ((9 <=? n) && (n <=? 13) || (n =? 32) || (n =? 160))%N.

Definition isEmpty (s : string) : bool :=
  match s with EmptyString => true | String _ _ => false end.

Fixpoint trimStart (s : string) : string :=
  match s with
  | String c s' => if isWhiteSpace c then trimStart s' else s
  | EmptyString => EmptyString
  end.

Fixpoint trimEnd (s : string) : string :=
  match s with
  | String c s' =>
      let r := trimEnd s' in
      if isWhiteSpace c && isEmpty r then EmptyString else String c r
  | EmptyString => EmptyString
  end.

Definition trim (s : string) : string := trimEnd (trimStart s).

(** Upper-case letters below 256: A-Z, and the Latin-1 letters U+00C0 to
    U+00DE without the multiplication sign U+00D7. *)
Definition isUpper (c : ascii) : bool :=
  let n := code c in
  ((65 <=? n) && (n <=? 90)
   || (192 <=? n) && (n <=? 222) && negb (n =? 215))%N.

Definition lowerChar (c : ascii) : ascii :=
  if isUpper c then ascii_of_N (code c + 32) else c.

Fixpoint toLowerCase (s : string) : string :=
  match s with
  | String c s' => String (lowerChar c) (toLowerCase s')
  | EmptyString => EmptyString
  end.

(** [s.replace(/[cs]/g, r)] for a class given as a predicate and a one
    character replacement, and [s.replace(/[cs]+/g, '')], which deletes
    every character of the class. *)
Fixpoint replaceClass (p : ascii -> bool) (r : ascii) (s : string) : string :=
  match s with
  | String c s' => String (if p c then r else c) (replaceClass p r s')
  | EmptyString => EmptyString
  end.

Fixpoint deleteClass (p : ascii -> bool) (s : string) : string :=
  match s with
  | String c s' => if p c then deleteClass p s' else String c (deleteClass p s')
  | EmptyString => EmptyString
  end.

Fixpoint repeatChar (c : ascii) (n : nat) : string :=
  match n with O => EmptyString | S n' => String c (repeatChar c n') end.

Definition padStart (n : nat) (c : ascii) (s : string) : string :=
  repeatChar c (n - String.length s) +:+ s.

(** [parts.join(sep)] *)
Fixpoint join (sep : string) (parts : list string) : string :=
  match parts with
  | [] => EmptyString
  | [p] => p
  | p :: rest => p +:+ sep +:+ join sep rest
  end.

Definition startsWith (p s : string) : bool := String.prefix p s.

Fixpoint endsWith (p s : string) : bool :=
  String.eqb p s ||
  match s with String _ s' => endsWith p s' | EmptyString => false end.

(** Decimal rendering of an integral number (template literals and
    [String(n)] on integers). *)
Definition showNat (n : nat) : string := NilZero.string_of_uint (Nat.to_uint n).
Definition showZ (z : Z) : string := NilZero.string_of_int (Z.to_int z).

(** *** Numbers *)

Definition Number_of_Z (z : Z) : float :=
  SF2Prim (binary_normalize 53 1024 z 0 false).
Definition Number_of_nat (n : nat) : float := Number_of_Z (Z.of_nat n).

Definition isNaN (x : float) : bool := PrimFloat.is_nan x.

(** The exact value of a finite number is [m * 2^e]; [Math.floor] and
    [Math.round] are computed on it.  [Math.round] rounds halves up. *)
Definition floorZ (x : float) : option Z :=
  match Prim2SF x with
  | S754_zero _ => Some 0
  | S754_finite s m e =>
      let n := if s then Z.neg m else Z.pos m in
      Some (if 0 <=? e then n * 2 ^ e else n / 2 ^ (- e))
  | _ => None
  end.

Definition roundZ (x : float) : option Z :=
  match Prim2SF x with
  | S754_zero _ => Some 0
  | S754_finite s m e =>
      let n := if s then Z.neg m else Z.pos m in
      Some (if 0 <=? e then n * 2 ^ e else (2 * n + 2 ^ (- e)) / 2 ^ (- e + 1))
  | _ => None
  end.

Definition signBit (x : float) : bool :=
  match Prim2SF x with
  | S754_zero s | S754_infinity s | S754_finite s _ _ => s
  | S754_nan => false
  end.

(** An integral result as a number; a zero keeps the sign of the
    argument. *)
Definition integral (x : float) (z : option Z) : float :=
  match z with
  | Some Z0 => if signBit x then (- 0)%float else 0%float
  | Some z => Number_of_Z z
  | None => x
  end.

Definition Math_floor (x : float) : float := integral x (floorZ x).
Definition Math_round (x : float) : float := integral x (roundZ x).

(** *** parseInt and parseFloat *)

Definition digitVal (radix : Z) (c : ascii) : option Z :=
  let n := Z.of_N (code c) in
  let d := if (48 <=? n) && (n <=? 57) then n - 48
           else if (97 <=? n) && (n <=? 122) then n - 87
           else if (65 <=? n) && (n <=? 90) then n - 55
           else 36 in
  if d <? radix then Some d else None.

(** The longest prefix of digits: their value (when there is one digit at
    least), how many they are, and the rest of the string. *)
Fixpoint digits (radix : Z) (s : string) (acc : option Z) (n : nat)
  : option Z * nat * string :=
  match s with
  | String c s' =>
      match digitVal radix c with
      | Some d =>
          digits radix s' (Some (radix * default 0 acc + d)) (S n)
      | None => (acc, n, s)
      end
  | EmptyString => (acc, n, s)
  end.

Definition signOf (s : string) : bool * string :=
  match s with
  | String "-" s' => (true, s')
  | String "+" s' => (false, s')
  | _ => (false, s)
  end.

Definition withSign (neg : bool) (x : float) : float :=
  if neg then PrimFloat.opp x else x.

(** [parseInt(s)] without a radix: leading white space is skipped, then a
    sign, then [0x] selects radix 16; the longest prefix of digits is the
    value, [NaN] when there is none. *)
Definition parseInt (s : string) : float :=
  let '(neg, s1) := signOf (trimStart s) in
  let '(radix, s2) :=
    match s1 with
    | String "0" (String "x" r) | String "0" (String "X" r) => (16, r)
    | _ => (10, s1)
    end in
  match digits radix s2 None 0 with
  | (Some z, _, _) => withSign neg (Number_of_Z z)
  | (None, _, _) => PrimFloat.nan
  end.

(** The number nearest to [m * 10^e]. *)
Definition Number_of_decimal (m e : Z) : float :=
  if 0 <=? e then Number_of_Z (m * 10 ^ e)
  else
    match m with
    | Z0 => PrimFloat.zero
    | Zpos p =>
        SF2Prim (SFdiv 53 1024 (S754_finite false p 0)
                   (S754_finite false (Z.to_pos (10 ^ (- e))) 0))
    | Zneg p =>
        SF2Prim (SFdiv 53 1024 (S754_finite true p 0)
                   (S754_finite false (Z.to_pos (10 ^ (- e))) 0))
    end.

(** [parseFloat(s)]: the longest prefix that is a decimal literal
    ([Infinity], or digits with an optional fraction and an optional
    exponent), after leading white space and a sign; whatever follows the
    prefix is ignored. *)
Definition parseFloat (s : string) : float :=
  let '(neg, s1) := signOf (trimStart s) in
  if startsWith "Infinity" s1 then withSign neg PrimFloat.infinity
  else
    let '(int, _, s2) := digits 10 s1 None 0 in
    let '(frac, k, s3) :=
      match s2 with
      | String "." r => digits 10 r int 0
      | _ => (int, O, s2)
      end in
    match frac with
    | None => PrimFloat.nan
    | Some m =>
        let ex :=
          match s3 with
          | String "e" r | String "E" r =>
              let '(eneg, r') := signOf r in
              match digits 10 r' None 0 with
              | (Some x, _, _) => if eneg then - x else x
              | (None, _, _) => 0
              end
          | _ => 0
          end in
        withSign neg (Number_of_decimal m (ex - Z.of_nat k))
    end.

(** *** Values

    The values a spreadsheet cell or an untyped argument holds: [undefined],
    [null], booleans, numbers, strings and [Date] objects.  The time value
    of a [Date] is a number of milliseconds since the epoch, or [NaN]
    ([None], an invalid date). *)
Inductive value : Type :=
  | VUndefined
  | VNull
  | VBool (b : bool)
  | VNumber (x : float)
  | VString (s : string)
  | VDate (t : option Z).

(** [!!v] *)
Definition truthy (v : value) : bool :=
  match v with
  | VUndefined | VNull => false
  | VBool b => b
  | VNumber x => negb (PrimFloat.is_zero x || PrimFloat.is_nan x)
  | VString s => negb (isEmpty s)
  | VDate _ => true
  end.

(** What the language leaves to the engine and to the machine it runs on:
    the rendering of numbers and dates, the date parser behind
    [new Date(string)], and the local time zone. *)
Class Host : Type := {
  Number_toString : float -> string;
  Date_toString : option Z -> string;
  (** the time value of [new Date(s)]; [None] is [NaN] *)
  Date_parse : string -> option Z;
  (** the offset of local time from UTC, in milliseconds, at a UTC time *)
  LocalTZA : Z -> Z;
  (** [d.toLocaleDateString('en-US', opts)], without and with the hour and
      minute fields *)
  Date_toLocaleDateString : bool -> option Z -> string
}.

(** [String(v)] *)
Definition String_ `{Host} (v : value) : string :=
  match v with
  | VUndefined => "undefined"
  | VNull => "null"
  | VBool true => "true"
  | VBool false => "false"
  | VNumber x => Number_toString x
  | VString s => s
  | VDate t => Date_toString t
  end.

(** *** Promises

    A settled promise: fulfilled, or rejected with an [Error] message. *)
Inductive Settled (A : Type) : Type :=
  | Fulfilled (a : A)
  | Rejected (message : string).
Arguments Fulfilled {A} a.
Arguments Rejected {A} message.

(** *** Calendar dates *)

Definition msPerDay : Z := 86400000.

(** The proleptic Gregorian date of a day number counted from 1970-01-01,
    and back. *)
Definition civil_from_days (z : Z) : Z * Z * Z :=
  let z := z + 719468 in
  let era := z / 146097 in
  let doe := z - era * 146097 in
  let yoe := (doe - doe / 1460 + doe / 36524 - doe / 146096) / 365 in
  let doy := doe - (365 * yoe + yoe / 4 - yoe / 100) in
  let mp := (5 * doy + 2) / 153 in
  let d := doy - (153 * mp + 2) / 5 + 1 in
  let m := if mp <? 10 then mp + 3 else mp - 9 in
  let y := yoe + era * 400 + (if m <=? 2 then 1 else 0) in
  (y, m, d).

Definition days_from_civil (y m d : Z) : Z :=
  let y := if m <=? 2 then y - 1 else y in
  let era := y / 400 in
  let yoe := y - era * 400 in
  let doy := (153 * (if 2 <? m then m - 3 else m + 9) + 2) / 5 + d - 1 in
  let doe := yoe * 365 + yoe / 4 - yoe / 100 + doy in
  era * 146097 + doe - 719468.

(** [getFullYear()], [getMonth() + 1] and [getDate()] of a valid date: the
    fields of its local time. *)
Definition localYMD `{Host} (t : Z) : Z * Z * Z :=
  civil_from_days ((t + LocalTZA t) / msPerDay).

End Js.

(** ** The spreadsheet library

    SheetJS is an external dependency.  Its date decoder
    [XLSX.SSF.parse_date_code] is transcribed here; of a workbook only the
    sheet names and the rows [XLSX.utils.sheet_to_json] returns matter. *)

Module XLSX.
Import Js.

(** [v | 0] on a number between 0 and 2958465: the integral part. *)
Definition truncZ (v : float) : Z :=
  match floorZ v with Some z => z | None => 0 end.

(** [SSF.parse_date_code(v)] without options: the [y], [m], [d] fields of
    the result.  Serial 60 is the 29th of February 1900, which never
    existed; serial 0 is the 0th of January 1900; a time of day within
    1e-4 s of midnight moves to the next day.  The library counts the days
    from the 1st of January 1900 with the local-time operations of [Date];
    the calendar arithmetic below gives the same date on a host whose
    local time skips no calendar day. *)
Definition parse_date_code (v : float) : option (Z * Z * Z) :=
  if ((2958465 <? v) || (v <? 0))%float then None
  else
    let date := truncZ v in
    let secs := (86400 * (v - Number_of_Z date))%float in
    let time := Math_floor secs in
    let u := (secs - time)%float in
    let u := if (PrimFloat.abs u <? 1e-6)%float then 0%float else u in
    let date :=
      if ((0.9999 <? u) && (time + 1 =? 86400))%float then date + 1 else date in
    if date =? 60 then Some (1900, 2, 29)
    else if date =? 0 then Some (1900, 1, 0)
    else
      let date := if 60 <? date then date - 1 else date in
      Some (civil_from_days (days_from_civil 1900 1 1 + date - 1)).

End XLSX.

(** ** The import pipeline: [src/lib/import.ts] *)

Module ImportLib.
Import Js.

Record ImportedContact : Type := {
  name : string;
  email : option string;
  phone : option string;
  location : option string;
  details : option string;
  institution : option string;
  last_interaction_date : option string;
  priority : option float
}.

Record ImportResult : Type := {
  success : bool;
  imported : nat;
  skipped : nat;
  errors : list string
}.

Record SheetInfo : Type := { sheetName : string; rowCount : nat }.

(** The keys of [ImportedContact]. *)
Inductive field : Type :=
  | Fname | Femail | Fphone | Flocation | Fdetails | Finstitution
  | Flast_interaction_date | Fpriority.

(** [`${year}-${month}-${day}`] with month and day padded to two digits *)
Definition formatYMD (ymd : Z * Z * Z) : string :=
  let '(y, m, d) := ymd in
  showZ y +:+ "-" +:+ padStart 2 "0" (showZ m) +:+ "-" +:+ padStart 2 "0" (showZ d).

(** Parse Excel date to YYYY-MM-DD format.  The three [if] blocks of the
    source are tried in turn: a number that the decoder rejects, and a
    string that is neither a plausible serial nor a date, fall through to
    the final [return null]. *)
Definition parseExcelDate `{Host} (value : value) : option string :=
  if negb (truthy value) then None
  else
    match value with
    | VNumber x =>
        match XLSX.parse_date_code x with
        | Some date => Some (formatYMD date)
        | None => None
        end
    | VString s =>
        let trimmed := trim s in
        if isEmpty trimmed then None
        else
          let numValue := parseFloat trimmed in
          let serial :=
            if (negb (isNaN numValue) && (40000 <? numValue) && (numValue <? 60000))%float
            then XLSX.parse_date_code numValue
            else None in
          match serial with
          | Some date => Some (formatYMD date)
          | None =>
              match Date_parse trimmed with
              | Some t => Some (formatYMD (localYMD t))
              | None => None
              end
          end
    | VDate (Some t) => Some (formatYMD (localYMD t))
    | _ => None
    end.

Definition isSentinel (value : value) : bool :=
  match value with
  | VString s => String.eqb s "N/A" || String.eqb s "n/a" || String.eqb s "-"
  | _ => false
  end.

(** Parse priority value *)
Definition parsePriority `{Host} (value : value) : option float :=
  if negb (truthy value) then None
  else if isSentinel value then None
  else
    let num :=
      match value with
      | VNumber x => x
      | _ => parseInt (trim (String_ value))
      end in
    if (isNaN num || (num <? 1) || (5 <? num))%float then None
    else Some num.

(** [/[_\s]+/g] *)
Definition isUnderscoreOrSpace (c : ascii) : bool :=
  Ascii.eqb c "_" || isWhiteSpace c.

(** Normalize column names (case-insensitive, trim spaces) *)
Definition normalizeColumnName (name : string) : string :=
  deleteClass isUnderscoreOrSpace (trim (toLowerCase name)).

(** Map of possible column names to our field names.  (It is a plain
    object, so the key [constructor] finds an inherited property; a header
    that normalizes to it is then stored under a property outside the
    eight fields, which [importContacts] never reads: for the fields
    modelled here it is an unmapped header.) *)
Definition columnMappings : gmap string field :=
  list_to_map [
    ("name", Fname);
    ("fullname", Fname);
    ("contactname", Fname);
    ("email", Femail);
    ("emailaddress", Femail);
    ("mail", Femail);
    ("phone", Fphone);
    ("phonenumber", Fphone);
    ("telephone", Fphone);
    ("tel", Fphone);
    ("mobile", Fphone);
    ("location", Flocation);
    ("city", Flocation);
    ("address", Flocation);
    ("country", Flocation);
    ("notes", Fdetails);
    ("details", Fdetails);
    ("note", Fdetails);
    ("description", Fdetails);
    ("comments", Fdetails);
    ("institution", Finstitution);
    ("company", Finstitution);
    ("organization", Finstitution);
    ("org", Finstitution);
    ("firm", Finstitution);
    ("fund", Finstitution);
    ("dateoflastinteraction", Flast_interaction_date);
    ("date", Flast_interaction_date);
    ("lastinteractiondate", Flast_interaction_date);
    ("lastcontactdate", Flast_interaction_date);
    ("interactiondate", Flast_interaction_date);
    ("priority", Fpriority);
    ("priorty", Fpriority);
    ("rank", Fpriority);
    ("importance", Fpriority)
  ].

(** Extra columns that should be appended to notes/details *)
Definition extraNotesColumns : list string :=
  ["lastinteraction"; "documentsprovided"; "documents"].

Definition includes (l : list string) (s : string) : bool :=
  existsb (String.eqb s) l.

(** A raw row: the entries of the row object, in [Object.entries] order. *)
Definition RawRow : Type := list (string * value).

Definition emptyContact : ImportedContact :=
  {| name := ""; email := None; phone := None; location := None;
     details := None; institution := None; last_interaction_date := None;
     priority := None |}.

(** [contact[fieldName] = v] *)
Definition setText (f : field) (v : option string) (c : ImportedContact)
  : ImportedContact :=
  match f with
  | Femail =>
      {| name := name c; email := v; phone := phone c; location := location c;
         details := details c; institution := institution c;
         last_interaction_date := last_interaction_date c; priority := priority c |}
  | Fphone =>
      {| name := name c; email := email c; phone := v; location := location c;
         details := details c; institution := institution c;
         last_interaction_date := last_interaction_date c; priority := priority c |}
  | Flocation =>
      {| name := name c; email := email c; phone := phone c; location := v;
         details := details c; institution := institution c;
         last_interaction_date := last_interaction_date c; priority := priority c |}
  | Fdetails =>
      {| name := name c; email := email c; phone := phone c; location := location c;
         details := v; institution := institution c;
         last_interaction_date := last_interaction_date c; priority := priority c |}
  | Finstitution =>
      {| name := name c; email := email c; phone := phone c; location := location c;
         details := details c; institution := v;
         last_interaction_date := last_interaction_date c; priority := priority c |}
  | Flast_interaction_date =>
      {| name := name c; email := email c; phone := phone c; location := location c;
         details := details c; institution := institution c;
         last_interaction_date := v; priority := priority c |}
  | Fname | Fpriority => c
  end.

Definition setName (v : string) (c : ImportedContact) : ImportedContact :=
  {| name := v; email := email c; phone := phone c; location := location c;
     details := details c; institution := institution c;
     last_interaction_date := last_interaction_date c; priority := priority c |}.

Definition setPriority (v : option float) (c : ImportedContact) : ImportedContact :=
  {| name := name c; email := email c; phone := phone c; location := location c;
     details := details c; institution := institution c;
     last_interaction_date := last_interaction_date c; priority := v |}.

(** One turn of the loop over [Object.entries(row)]: the state is the
    contact under construction and the [extraNotes] array. *)
Definition mapEntry `{Host} (st : ImportedContact * list string)
    (entry : string * value) : ImportedContact * list string :=
  let '(contact, extraNotes) := st in
  let '(key, value) := entry in
  if negb (truthy value) then st
  else
    let normalizedKey := normalizeColumnName key in
    match columnMappings !! normalizedKey with
    | Some Fname => (setName (trim (String_ value)) contact, extraNotes)
    | Some Flast_interaction_date =>
        (setText Flast_interaction_date (parseExcelDate value) contact, extraNotes)
    | Some Fpriority => (setPriority (parsePriority value) contact, extraNotes)
    | Some Fdetails =>
        let textValue := trim (String_ value) in
        if isEmpty textValue then st else (contact, (extraNotes ++ [textValue])%list)
    | Some fieldName =>
        let stringValue := trim (String_ value) in
        (setText fieldName (if isEmpty stringValue then None else Some stringValue)
           contact, extraNotes)
    | None =>
        if includes extraNotesColumns normalizedKey then
          let textValue := trim (String_ value) in
          if isEmpty textValue then st
          else
            let label := trim key in
            (contact, (extraNotes ++ [label +:+ ": " +:+ textValue])%list)
        else st
    end.

(** The body of the [rawData.map] callback.  [sourceSheet] is [None] when
    the argument is left out; the empty string is falsy as well. *)
Definition mapRow `{Host} (sourceSheet : option string) (row : RawRow)
  : ImportedContact :=
  let '(contact, extraNotes) := fold_left mapEntry row (emptyContact, []) in
  let extraNotes :=
    match sourceSheet with
    | Some sheet =>
        if isEmpty sheet then extraNotes
        else ("[" +:+ sheet +:+ "]") :: extraNotes
    | None => extraNotes
    end in
  match extraNotes with
  | [] => contact
  | _ :: _ => setText Fdetails (Some (join (String "010" "") extraNotes)) contact
  end.

(** Map raw data to our contact format *)
Definition mapToContacts `{Host} (rawData : list RawRow)
    (sourceSheet : option string) : list ImportedContact :=
  map (mapRow sourceSheet) rawData.

(** *** Workbooks and sheet discovery *)

(** A sheet, as far as this program reads it: the rows of
    [sheet_to_json(sheet)] and of
    [sheet_to_json(sheet, { raw: true, defval: null })]. *)
Record Sheet : Type := { rowsDefault : list RawRow; rowsRaw : list RawRow }.

Record Workbook : Type := {
  SheetNames : list string;
  Sheets : gmap string Sheet
}.

(** [XLSX.utils.sheet_to_json]; of an undefined sheet it is the empty
    array. *)
Definition sheet_to_json (sheet : option Sheet) (raw : bool) : list RawRow :=
  match sheet with
  | Some sh => if raw then rowsRaw sh else rowsDefault sh
  | None => []
  end.

(** An uploaded file: its name, its declared MIME type, and what reading
    and parsing it gives. *)
Inductive FileContent : Type :=
  | Unreadable
  | Malformed
  | Parsed (workbook : Workbook).

Record File : Type := {
  fileName : string;
  fileType : string;
  content : FileContent
}.

Definition readWorkbook {A : Type} (file : File) (k : Workbook -> A) : Settled A :=
  match content file with
  | Unreadable => Rejected "Failed to read file"
  | Malformed => Rejected "Failed to parse Excel file"
  | Parsed workbook => Fulfilled (k workbook)
  end.

Definition notDefinitions (name : string) : bool :=
  negb (String.eqb (toLowerCase name) "definitions").

Definition sheetInfos (workbook : Workbook) : list SheetInfo :=
  List.filter (fun sheet => (0 <? rowCount sheet)%nat)
    (map (fun name =>
            let sheet := Sheets workbook !! name in
            let jsonData := sheet_to_json sheet false in
            {| sheetName := name; rowCount := length jsonData |})
       (List.filter notDefinitions (SheetNames workbook))).

(** Get list of sheets from Excel file *)
Definition getExcelSheets (file : File) : Settled (list SheetInfo) :=
  readWorkbook file sheetInfos.

(** Parse uploaded Excel file with sheet selection *)
Definition parseExcelFile (file : File) (sheetName : option string)
  : Settled (list RawRow) :=
  readWorkbook file (fun workbook =>
    let targetSheet :=
      match sheetName with
      | Some n => if isEmpty n then None else Some n
      | None => None
      end in
    let targetSheet :=
      match targetSheet with
      | Some n => Some n
      | None =>
          match List.find notDefinitions (SheetNames workbook) with
          | Some n => if isEmpty n then head (SheetNames workbook) else Some n
          | None => head (SheetNames workbook)
          end
      end in
    let sheet := Sheets workbook !! default "undefined" targetSheet in
    sheet_to_json sheet true).

(** Parse all sheets at once *)
Definition parseAllSheets (file : File) : Settled (list (string * list RawRow)) :=
  readWorkbook file (fun workbook =>
    List.filter (fun sheet => (0 <? length (snd sheet))%nat)
      (map (fun sheetName =>
              let sheet := Sheets workbook !! sheetName in
              (sheetName, sheet_to_json sheet true))
         (List.filter notDefinitions (SheetNames workbook)))).

(** *** Writing the contacts *)

(** The collaborator: the authenticated user, if any, and the [contacts]
    table.  An insert request carries a whole batch and either succeeds or
    fails with a message; what it does to the stored state is the
    collaborator's business. *)
Record User : Type := { id : string }.

Record NewContact : Type := {
  nc_user_id : string;
  nc_name : string;
  nc_email : option string;
  nc_phone : option string;
  nc_location : option string;
  nc_details : option string;
  nc_institution : option string;
  nc_last_interaction_date : option string;
  nc_priority : option float
}.

Record Supabase (Store : Type) : Type := {
  auth_getUser : option User;
  contacts_insert : Store -> list NewContact -> Store * option string
}.
Arguments auth_getUser {Store} _.
Arguments contacts_insert {Store} _ _ _.

(** What a run does besides returning: the calls of [onProgress] and the
    insert requests with their outcome ([Some message] is a failure). *)
Inductive Event : Type :=
  | Progress (message : string) (percent : float)
  | Insert (rows : list NewContact) (error : option string).

Definition toInsert (user : User) (contact : ImportedContact) : NewContact :=
  {| nc_user_id := id user;
     nc_name := name contact;
     nc_email := email contact;
     nc_phone := phone contact;
     nc_location := location contact;
     nc_details := details contact;
     nc_institution := institution contact;
     nc_last_interaction_date := last_interaction_date contact;
     nc_priority := priority contact |}.

(** [a.slice(i, j)] *)
Definition slice {A : Type} (i j : nat) (a : list A) : list A :=
  firstn (j - i) (skipn i a).

Definition batchSize : nat := 50.

Definition initialResult : ImportResult :=
  {| success := true; imported := 0; skipped := 0; errors := [] |}.

Section importContacts.
Context {Store : Type} (supabase : Supabase Store).

(** The [for] loop over the batches, from index [i] on.  [fuel] bounds
    the number of turns. *)
Fixpoint importLoop (user : User) (validContacts : list ImportedContact)
    (fuel i : nat) (store : Store) (trace : list Event) (result : ImportResult)
  : Store * list Event * ImportResult :=
  match fuel with
  | O => (store, trace, result)
  | S fuel' =>
      if (i <? length validContacts)%nat then
        let totalContacts := length validContacts in
        let batch := slice i (i + batchSize) validContacts in
        let percent :=
          Math_round
            (Number_of_nat (i + length batch) / Number_of_nat totalContacts * 100)%float in
        let message :=
          "Importing contacts " +:+ showNat (i + 1) +:+ " - "
            +:+ showNat (Nat.min (i + batchSize) totalContacts)
            +:+ " of " +:+ showNat totalContacts +:+ "..." in
        let contactsToInsert := map (toInsert user) batch in
        let '(store', error) := contacts_insert supabase store contactsToInsert in
        let result' :=
          match error with
          | Some error_message =>
              {| success := success result;
                 imported := imported result;
                 skipped := skipped result + length batch;
                 errors :=
                   (errors result ++
                      ["Batch " +:+ showNat (i / batchSize + 1) +:+ " failed: "
                         +:+ error_message])%list |}
          | None =>
              {| success := success result;
                 imported := imported result + length batch;
                 skipped := skipped result;
                 errors := errors result |}
          end in
        importLoop user validContacts fuel' (i + batchSize) store'
          (trace ++ [Progress message percent; Insert contactsToInsert error])%list
          result'
      else (store, trace, result)
  end.

Definition hasName (c : ImportedContact) : bool := negb (isEmpty (trim (name c))).

(** Import contacts to Supabase.  The loop adds [batchSize] to [i] each
    turn, so [length validContacts] turns are enough. *)
Definition importContacts (contacts : list ImportedContact) (store : Store)
  : Store * list Event * ImportResult :=
  let result := initialResult in
  match auth_getUser supabase with
  | None =>
      (store, [],
       {| success := false; imported := imported result;
          skipped := skipped result; errors := ["Not authenticated"] |})
  | Some user =>
      let validContacts := List.filter hasName contacts in
      let totalContacts := length validContacts in
      if (totalContacts =? 0)%nat then
        (store, [],
         {| success := false; imported := imported result;
            skipped := skipped result;
            errors := ["No valid contacts found (name is required)"] |})
      else
        let '(store', trace, result) :=
          importLoop user validContacts (length validContacts) 0 store [] result in
        let result :=
          {| success := success result;
             imported := imported result;
             skipped := skipped result + (length contacts - length validContacts);
             errors := errors result |} in
        let result :=
          if (0 <? length (errors result))%nat then
            {| success := false; imported := imported result;
               skipped := skipped result; errors := errors result |}
          else result in
        (store', trace, result)
  end.
End importContacts.

End ImportLib.

(** ** The import dialog: [components/ExcelImport.tsx]

    The state of the component that the sheet handling reads and writes,
    and its handlers; each handler is run to the end of its promise. *)

Module ExcelImport.
Import Js ImportLib.

Inductive ImportStep : Type :=
  | upload | select_sheets | preview | importing | complete.

Record State : Type := {
  step : ImportStep;
  file : option File;
  sheets : list SheetInfo;
  selectedSheets : list string;
  previewData : list ImportedContact;
  error : option string
}.

Definition initialState : State :=
  {| step := upload; file := None; sheets := []; selectedSheets := [];
     previewData := []; error := None |}.

Definition setError (e : option string) (st : State) : State :=
  {| step := step st; file := file st; sheets := sheets st;
     selectedSheets := selectedSheets st; previewData := previewData st;
     error := e |}.

Definition setFile (f : option File) (st : State) : State :=
  {| step := step st; file := f; sheets := sheets st;
     selectedSheets := selectedSheets st; previewData := previewData st;
     error := error st |}.

Definition setStep (s : ImportStep) (st : State) : State :=
  {| step := s; file := file st; sheets := sheets st;
     selectedSheets := selectedSheets st; previewData := previewData st;
     error := error st |}.

Definition setSheets (l : list SheetInfo) (st : State) : State :=
  {| step := step st; file := file st; sheets := l;
     selectedSheets := selectedSheets st; previewData := previewData st;
     error := error st |}.

Definition setSelectedSheets (l : list string) (st : State) : State :=
  {| step := step st; file := file st; sheets := sheets st;
     selectedSheets := l; previewData := previewData st; error := error st |}.

Definition setPreviewData (l : list ImportedContact) (st : State) : State :=
  {| step := step st; file := file st; sheets := sheets st;
     selectedSheets := selectedSheets st; previewData := l; error := error st |}.

Definition validTypes : list string :=
  [ "application/vnd.openxmlformats-officedocument.spreadsheetml.sheet";
    "application/vnd.ms-excel";
    "text/csv" ].

Definition isExcel (selectedFile : File) : bool :=
  endsWith ".xlsx" (fileName selectedFile)
  || endsWith ".xls" (fileName selectedFile)
  || endsWith ".csv" (fileName selectedFile)
  || includes validTypes (fileType selectedFile).

Definition handleFileSelect `{Host} (selected : option File) (st : State) : State :=
  match selected with
  | None => st
  | Some selectedFile =>
      if negb (isExcel selectedFile) then
        setError (Some "Please upload an Excel file (.xlsx, .xls) or CSV file") st
      else
        let st := setFile (Some selectedFile) (setError None st) in
        match getExcelSheets selectedFile with
        | Rejected message => setError (Some message) st
        | Fulfilled sheetList =>
            match sheetList with
            | [] => setError (Some "No data sheets found in the file") st
            | [only] =>
                match parseExcelFile selectedFile (Some (sheetName only)) with
                | Rejected message => setError (Some message) st
                | Fulfilled rawData =>
                    let contacts := mapToContacts rawData None in
                    setStep preview (setPreviewData contacts st)
                end
            | _ =>
                setStep select_sheets
                  (setSelectedSheets (map sheetName sheetList)
                     (setSheets sheetList st))
            end
        end
  end.

Definition handleSheetToggle (name : string) (st : State) : State :=
  let prev := selectedSheets st in
  setSelectedSheets
    (if includes prev name
     then List.filter (fun s => negb (String.eqb s name)) prev
     else (prev ++ [name])%list)
    st.

Definition handleSheetsConfirm `{Host} (st : State) : State :=
  match file st with
  | None => st
  | Some file =>
      match selectedSheets st with
      | [] => st
      | _ :: _ =>
          let st := setError None st in
          match parseAllSheets file with
          | Rejected message => setError (Some message) st
          | Fulfilled allSheetsData =>
              let filteredData :=
                List.filter (fun s => includes (selectedSheets st) (fst s))
                  allSheetsData in
              let allContacts :=
                fold_left
                  (fun allContacts s =>
                     let contacts := mapToContacts (snd s) (Some (fst s)) in
                     (allContacts ++ contacts)%list)
                  filteredData [] in
              setStep preview (setPreviewData allContacts st)
          end
      end
  end.

End ExcelImport.

(** ** The export pipeline: [src/lib/export.ts] *)

Module ExportLib.
Import Js.

Record Contact : Type := {
  id : string;
  user_id : string;
  name : string;
  email : option string;
  phone : option string;
  location : option string;
  details : option string;
  institution : option string;
  last_interaction_date : option string;
  priority : option float;
  created_at : string;
  updated_at : string
}.

Record Attachment : Type := {
  att_id : string;
  contact_id : string;
  att_user_id : string;
  file_name : string;
  file_path : string;
  file_type : option string;
  file_size : option float;
  att_created_at : string
}.

(** [ContactWithAttachments]: a contact and its [attachments] array. *)
Definition ContactWithAttachments : Type := (Contact * list Attachment)%type.

(** One row of the sheet, column by column. *)
Record ExcelRow : Type := {
  col_number : nat;
  col_Name : string;
  col_Institution : string;
  col_Email : string;
  col_Phone : string;
  col_Location : string;
  col_Priority : value;
  col_LastInteraction : string;
  col_Notes : string;
  col_FilesCount : nat;
  col_FileNames : string;
  col_Created : string;
  col_Updated : string
}.

(** A [Blob]: the bytes of a stored file, or the workbook written by
    [generateExcel] (its sheet name and rows). *)
Inductive Blob : Type :=
  | Bytes (data : string)
  | Xlsx (sheet : string) (rows : list ExcelRow).

(** The archive: entries by name, a name being the list of the segments
    between its slashes (no name of this program holds a slash of its own,
    [sanitizeName] replaces them).  The name of a folder ends with a
    slash, so its last segment is empty: [Attachments/Ann/] is the list of
    [Attachments], [Ann] and the empty string, and the file [deck.pdf] of
    that folder is the list of [Attachments], [Ann] and [deck.pdf].  A
    folder object is the archive with a [root], the segments before the
    last slash of the folder's name. *)
Inductive ZipEntry : Type :=
  | Dir
  | FileEntry (data : Blob).

Abbreviation JSZip := (gmap (list string) ZipEntry).

(** [folder(name)]: with an empty name the folder itself, and nothing is
    added; otherwise a directory entry is added unless the name exists,
    and the result is the folder of that name. *)
Definition zip_folder (root : list string) (name : string) (zip : JSZip)
  : JSZip * list string :=
  if isEmpty name then (zip, root)
  else
    let path := (root ++ [name])%list in
    match zip !! (path ++ [""])%list with
    | Some _ => (zip, path)
    | None => (<[(path ++ [""])%list := Dir]> zip, path)
    end.

(** [file(name, data)] sets the entry of the name [root + name]; with an
    empty name that is the name of the folder itself, whose directory
    entry it replaces. *)
Definition zip_file (root : list string) (name : string) (data : Blob)
    (zip : JSZip) : JSZip :=
  <[(root ++ [name])%list := FileEntry data]> zip.

(** The class of [sanitizeName]: less-than, greater-than, colon, double
    quote, slash, backslash, vertical bar, question mark and asterisk. *)
Definition isIllegal (c : ascii) : bool :=
  let n := code c in
  ((n =? 60) || (n =? 62) || (n =? 58) || (n =? 34) || (n =? 47)
   || (n =? 92) || (n =? 124) || (n =? 63) || (n =? 42))%N.

(** Sanitize folder/file names to remove invalid characters *)
Definition sanitizeName (name : string) : string :=
  trim (replaceClass isIllegal "_" name).

(** Format date for Excel *)
Definition formatDate `{Host} (dateString : string) : string :=
  Date_toLocaleDateString true (Date_parse dateString).

(** Format interaction date for Excel *)
Definition formatInteractionDate `{Host} (dateString : option string) : string :=
  match dateString with
  | None => ""
  | Some s => if isEmpty s then "" else Date_toLocaleDateString false (Date_parse s)
  end.

(** [x || ''] on an optional string *)
Definition orEmpty (x : option string) : string := default "" x.

Definition excelRow `{Host} (index : nat) (c : ContactWithAttachments) : ExcelRow :=
  let '(contact, attachments) := c in
  {| col_number := index + 1;
     col_Name := name contact;
     col_Institution := orEmpty (institution contact);
     col_Email := orEmpty (email contact);
     col_Phone := orEmpty (phone contact);
     col_Location := orEmpty (location contact);
     col_Priority :=
       match priority contact with
       | Some p => if truthy (VNumber p) then VNumber p else VString ""
       | None => VString ""
       end;
     col_LastInteraction := formatInteractionDate (last_interaction_date contact);
     col_Notes := orEmpty (details contact);
     col_FilesCount := length attachments;
     col_FileNames := join ", " (map file_name attachments);
     col_Created := formatDate (created_at contact);
     col_Updated := formatDate (updated_at contact) |}.

(** [XLSX.write] throws when the text of a cell is longer than 32767 code
    units; the message is the one of SheetJS.  The texts that come from
    the table are checked: the name, the institution, the address, the
    phone number, the location, the notes and the joined file names.  The
    three date cells hold what the host's formatter prints, a short text
    on every engine, and the other cells are numbers or the empty text. *)
Definition maxCellText : Z := 32767.

Definition fits (text : string) : bool :=
  Z.of_nat (String.length text) <=? maxCellText.

Definition tableTexts (row : ExcelRow) : list string :=
  [col_Name row; col_Institution row; col_Email row; col_Phone row;
   col_Location row; col_Notes row; col_FileNames row].

Definition writable (rows : list ExcelRow) : bool :=
  forallb (fun row => forallb fits (tableTexts row)) rows.

Definition XLSX_write (sheet : string) (rows : list ExcelRow) : Settled Blob :=
  if writable rows then Fulfilled (Xlsx sheet rows)
  else Rejected "Text length must not exceed 32767 characters".

(** Generate Excel file with contacts data: the blob returned, or the
    message of the error thrown by [XLSX.write]. *)
Definition generateExcel `{Host} (contacts : list ContactWithAttachments)
  : Settled Blob :=
  XLSX_write "Contacts" (imap excelRow contacts).

(** The collaborator: the answers to the two queries, the object store,
    and the clock ([new Date().toISOString()]). *)
Record Response (A : Type) : Type := { data : option A; error : option string }.
Arguments data {A} _.
Arguments error {A} _.

Inductive Download : Type :=
  | Downloaded (fileData : Blob)
  | DownloadError (message : string)
  | DownloadThrows.

Record Supabase : Type := {
  contacts_select : Response (list Contact);
  attachments_select : Response (list Attachment);
  storage_download : string -> Download;
  now_toISOString : string
}.

(** The calls of [onProgress]. *)
Inductive Event : Type := Progress (message : string) (percent : float).

Definition percentOf (e : Event) : float :=
  match e with Progress _ p => p end.

(** Group attachments by contact *)
Definition groupAttachments (attachments : list Attachment)
  : gmap string (list Attachment) :=
  fold_left
    (fun m attachment =>
       let existing := default [] (m !! contact_id attachment) in
       <[contact_id attachment := (existing ++ [attachment])%list]> m)
    attachments ∅.

Section exportAllData.
Context `{Host} (supabase : Supabase).

(** The inner loop, over the attachments of one contact from index [j]
    on; [n] is [contact.attachments.length]. *)
Fixpoint downloadLoop (totalAttachments i : nat) (contact : Contact) (n : nat)
    (contactFolder : list string) (j : nat) (rest : list Attachment)
    (zip : JSZip) (trace : list Event) : JSZip * list Event :=
  match rest with
  | [] => (zip, trace)
  | attachment :: rest' =>
      let progressPercent :=
        (30 + Number_of_nat (i * n + j) / Number_of_nat totalAttachments * 60)%float in
      let trace :=
        (trace ++
           [Progress
              ("Downloading: " +:+ file_name attachment +:+ " (" +:+ name contact +:+ ")")
              (Math_round progressPercent)])%list in
      let zip :=
        match storage_download supabase (file_path attachment) with
        | Downloaded fileData =>
            let fileName := sanitizeName (file_name attachment) in
            zip_file contactFolder fileName fileData zip
        | DownloadError _ | DownloadThrows => zip
        end in
      downloadLoop totalAttachments i contact n contactFolder (S j) rest' zip trace
  end.

(** The outer loop, over the contacts from index [i] on. *)
Fixpoint contactsLoop (totalAttachments : nat) (attachmentsFolder : list string)
    (i : nat) (rest : list ContactWithAttachments)
    (zip : JSZip) (trace : list Event) : JSZip * list Event :=
  match rest with
  | [] => (zip, trace)
  | (contact, attachments) :: rest' =>
      let '(zip, trace) :=
        if (0 <? length attachments)%nat then
          let contactFolderName := sanitizeName (name contact) in
          let '(zip, contactFolder) :=
            zip_folder attachmentsFolder contactFolderName zip in
          downloadLoop totalAttachments i contact (length attachments)
            contactFolder 0 attachments zip trace
        else (zip, trace) in
      contactsLoop totalAttachments attachmentsFolder (S i) rest' zip trace
  end.

(** [s.split('T')[0]] *)
Fixpoint beforeT (s : string) : string :=
  match s with
  | String c s' => if Ascii.eqb c "T" then "" else String c (beforeT s')
  | EmptyString => ""
  end.

Definition withAttachments (attachments : list Attachment) (contacts : list Contact)
  : list ContactWithAttachments :=
  let attachmentsByContact := groupAttachments attachments in
  map (fun contact => (contact, default [] (attachmentsByContact !! id contact)))
    contacts.

(** Export all data function: the progress calls, and the archive handed
    to [saveAs] with its file name, or the error thrown.  Whatever is
    thrown inside the [try], by the function itself or by [generateExcel],
    is thrown again by the [catch]. *)
Definition exportAllData : list Event * Settled (string * JSZip) :=
  let trace := [Progress "Fetching contacts..." 5] in
  match error (contacts_select supabase) with
  | Some message => (trace, Rejected ("Failed to fetch contacts: " +:+ message))
  | None =>
      match data (contacts_select supabase) with
      | None | Some [] => (trace, Rejected "No contacts to export")
      | Some contacts =>
          let trace := (trace ++ [Progress "Fetching attachments info..." 15])%list in
          match error (attachments_select supabase) with
          | Some message =>
              (trace, Rejected ("Failed to fetch attachments: " +:+ message))
          | None =>
              let attachments := default [] (data (attachments_select supabase)) in
              let contactsWithAttachments := withAttachments attachments contacts in
              let trace := (trace ++ [Progress "Generating Excel file..." 25])%list in
              match generateExcel contactsWithAttachments with
              | Rejected message => (trace, Rejected message)
              | Fulfilled excelBlob =>
                  let zip := zip_file [] "Contacts.xlsx" excelBlob ∅ in
                  let totalAttachments := length attachments in
                  let '(zip, trace) :=
                    if (0 <? totalAttachments)%nat then
                      let '(zip, attachmentsFolder) := zip_folder [] "Attachments" zip in
                      contactsLoop totalAttachments attachmentsFolder 0
                        contactsWithAttachments zip trace
                    else (zip, trace) in
                  let trace := (trace ++ [Progress "Creating zip file..." 95])%list in
                  let dateStr := beforeT (now_toISOString supabase) in
                  let filename := "IR_CRM_Backup_" +:+ dateStr +:+ ".zip" in
                  let trace := (trace ++ [Progress "Download starting..." 100])%list in
                  (trace, Fulfilled (filename, zip))
              end
          end
      end
  end.
End exportAllData.

End ExportLib.

(** ** A reference host

    One concrete engine, for running the pipelines on sample inputs: its
    clock is at a fixed offset from UTC, its date parser accepts the ISO
    date-only form [YYYY-MM-DD] (read as UTC midnight, as ECMAScript
    prescribes) and nothing else, and it prints a finite number by its
    exact decimal expansion, which is what ECMAScript prints for integers
    below 1e21 and for short binary fractions such as 2.5. *)

Module Reference.
Import Js.

Definition digitChar (d : Z) : ascii := ascii_of_N (Z.to_N (48 + d)).

Fixpoint fractionDigits (fuel : nat) (num den : Z) : string :=
  match fuel with
  | O => ""
  | S fuel' =>
      if num =? 0 then ""
      else String (digitChar (10 * num / den))
             (fractionDigits fuel' (10 * num mod den) den)
  end.

Definition showNumber (x : float) : string :=
  match Prim2SF x with
  | S754_zero _ => "0"
  | S754_infinity s => if s then "-Infinity" else "Infinity"
  | S754_nan => "NaN"
  | S754_finite s m e =>
      (if s then "-" else "") +:+
      (if 0 <=? e then showZ (Z.pos m * 2 ^ e)
       else
         let den := 2 ^ (- e) in
         let whole := Z.pos m / den in
         let part := Z.pos m mod den in
         if part =? 0 then showZ whole
         else showZ whole +:+ "." +:+ fractionDigits (Z.to_nat (- e)) part den)
  end.

Definition isDigit (c : ascii) : bool :=
  let n := code c in ((48 <=? n) && (n <=? 57))%N.

Definition digitOf (c : ascii) : Z := Z.of_N (code c) - 48.

Definition parseIsoDate (s : string) : option Z :=
  match s with
  | String y1 (String y2 (String y3 (String y4 (String "-"
      (String m1 (String m2 (String "-" (String d1 (String d2 ""))))))))) =>
      if forallb isDigit [y1; y2; y3; y4; m1; m2; d1; d2] then
        let y := 1000 * digitOf y1 + 100 * digitOf y2 + 10 * digitOf y3 + digitOf y4 in
        let m := 10 * digitOf m1 + digitOf m2 in
        let d := 10 * digitOf d1 + digitOf d2 in
        if (1 <=? m) && (m <=? 12) && (1 <=? d) && (d <=? 31)
        then Some (days_from_civil y m d * msPerDay)
        else None
      else None
  | _ => None
  end.

Definition monthName (m : Z) : string :=
  nth (Z.to_nat (m - 1))
    ["Jan"; "Feb"; "Mar"; "Apr"; "May"; "Jun"; "Jul"; "Aug"; "Sep"; "Oct"; "Nov"; "Dec"]
    "".

Definition showLocalDate (offset : Z) (withTime : bool) (t : option Z) : string :=
  match t with
  | None => "Invalid Date"
  | Some t =>
      let local := t + offset in
      let '(y, m, d) := civil_from_days (local / msPerDay) in
      let date := monthName m +:+ " " +:+ showZ d +:+ ", " +:+ showZ y in
      if withTime then
        let minutes := local mod msPerDay / 60000 in
        let h := minutes / 60 in
        let h12 := if h mod 12 =? 0 then 12 else h mod 12 in
        date +:+ ", " +:+ padStart 2 "0" (showZ h12) +:+ ":"
          +:+ padStart 2 "0" (showZ (minutes mod 60))
          +:+ (if h <? 12 then " AM" else " PM")
      else date
  end.

(** The host whose local time is [offset] milliseconds ahead of UTC. *)
Definition hostAt (offset : Z) : Host :=
  {| Number_toString := showNumber;
     Date_toString := showLocalDate offset true;
     Date_parse := parseIsoDate;
     LocalTZA := fun _ => offset;
     Date_toLocaleDateString := showLocalDate offset |}.

Definition utc : Host := hostAt 0.

(** Five hours behind UTC. *)
Definition utcMinus5 : Host := hostAt (- 5 * 3600000).

End Reference.

(** ** Sample inputs *)

Module Samples.
Import Js.

Definition contact (key : string) : ExportLib.Contact :=
  {| ExportLib.id := key; ExportLib.user_id := "u1"; ExportLib.name := key;
     ExportLib.email := None; ExportLib.phone := None;
     ExportLib.location := None; ExportLib.details := None;
     ExportLib.institution := None; ExportLib.last_interaction_date := None;
     ExportLib.priority := None;
     ExportLib.created_at := "2024-01-01"; ExportLib.updated_at := "2024-01-01" |}.

Definition attachment (owner fileName path : string) : ExportLib.Attachment :=
  {| ExportLib.att_id := path; ExportLib.contact_id := owner;
     ExportLib.att_user_id := "u1"; ExportLib.file_name := fileName;
     ExportLib.file_path := path; ExportLib.file_type := None;
     ExportLib.file_size := None; ExportLib.att_created_at := "2024-01-01" |}.

Definition answer {A : Type} (rows : list A) : ExportLib.Response (list A) :=
  {| ExportLib.data := Some rows; ExportLib.error := None |}.

(** Three contacts, the last of which has one attachment. *)
Definition thirdHasOneFile : ExportLib.Supabase :=
  {| ExportLib.contacts_select := answer [contact "Ann"; contact "Bob"; contact "Cyd"];
     ExportLib.attachments_select := answer [attachment "Cyd" "deck.pdf" "u1/1-deck.pdf"];
     ExportLib.storage_download := fun _ => ExportLib.Downloaded (ExportLib.Bytes "%PDF");
     ExportLib.now_toISOString := "2024-03-15T10:00:00.000Z" |}.

Definition janeRow : ImportLib.RawRow :=
  [("Name", VString "Jane Doe"); ("Company", VString "Acme"); ("Priorty", VString "2")].

Definition jane : ImportLib.ImportedContact :=
  {| ImportLib.name := "Jane Doe"; ImportLib.email := None; ImportLib.phone := None;
     ImportLib.location := None; ImportLib.details := None;
     ImportLib.institution := Some "Acme";
     ImportLib.last_interaction_date := None;
     ImportLib.priority := Some 2%float |}.

Definition named (n : string) : ImportLib.ImportedContact :=
  {| ImportLib.name := n; ImportLib.email := None; ImportLib.phone := None;
     ImportLib.location := None; ImportLib.details := None;
     ImportLib.institution := None; ImportLib.last_interaction_date := None;
     ImportLib.priority := None |}.

(** 120 rows with a name, and one whose name is blank. *)
Definition rows120 : list ImportLib.ImportedContact :=
  (repeat (named "Jane Doe") 120 ++ [named "   "])%list.

(** A [contacts] table reduced to two counters, the requests received and
    the rows stored.  The second request fails. *)
Definition insertUnlessSecond (store : nat * nat) (batch : list ImportLib.NewContact)
  : nat * nat * option string :=
  let '(received, stored) := store in
  if (received =? 1)%nat then ((S received, stored), Some "connection reset")
  else ((S received, (stored + length batch)%nat), None).

Definition secondRequestFails : ImportLib.Supabase (nat * nat) :=
  {| ImportLib.auth_getUser := Some {| ImportLib.id := "u1" |};
     ImportLib.contacts_insert := insertUnlessSecond |}.

Definition signedOut : ImportLib.Supabase (nat * nat) :=
  {| ImportLib.auth_getUser := None;
     ImportLib.contacts_insert := insertUnlessSecond |}.

(** A workbook of a documentation sheet, three data sheets and an empty
    one; the raw rows hold numbers where the default rows hold text. *)
Definition fundsSheet : ImportLib.Sheet :=
  {| ImportLib.rowsDefault :=
       [[("Name", VString "Jane Doe"); ("Rank", VString "2")];
        [("Name", VString "John Roe"); ("Notes", VString "met in May")]];
     ImportLib.rowsRaw :=
       [[("Name", VString "Jane Doe"); ("Rank", VNumber 2)];
        [("Name", VString "John Roe"); ("Notes", VString "met in May")]] |}.

Definition banksSheet : ImportLib.Sheet :=
  {| ImportLib.rowsDefault := [[("Full Name", VString "Ada Poe")]];
     ImportLib.rowsRaw := [[("Full Name", VString "Ada Poe")]] |}.

Definition legendSheet : ImportLib.Sheet :=
  {| ImportLib.rowsDefault := [[("Rank", VString "1 is highest")]];
     ImportLib.rowsRaw := [[("Rank", VString "1 is highest")]] |}.

Definition emptySheet : ImportLib.Sheet :=
  {| ImportLib.rowsDefault := []; ImportLib.rowsRaw := [] |}.

Definition book : ImportLib.Workbook :=
  {| ImportLib.SheetNames := ["Definitions"; "Funds"; "Banks"; "Family"; "Spare"];
     ImportLib.Sheets :=
       list_to_map
         [("Definitions", legendSheet); ("Funds", fundsSheet);
          ("Banks", banksSheet); ("Family", banksSheet); ("Spare", emptySheet)] |}.

Definition upload (workbook : ImportLib.Workbook) : ImportLib.File :=
  {| ImportLib.fileName := "contacts.xlsx";
     ImportLib.fileType := "";
     ImportLib.content := ImportLib.Parsed workbook |}.

Definition singleBook : ImportLib.Workbook :=
  {| ImportLib.SheetNames := ["DEFINITIONS"; "Funds"; "Spare"];
     ImportLib.Sheets :=
       list_to_map
         [("DEFINITIONS", legendSheet); ("Funds", fundsSheet); ("Spare", emptySheet)] |}.

(** Ann has two files and the download of the second one fails; Bob has
    none. *)
Definition failsOn (path : string) (p : string) : ExportLib.Download :=
  if String.eqb p path then ExportLib.DownloadError "Object not found"
  else ExportLib.Downloaded (ExportLib.Bytes p).

Definition oneDownloadFails : ExportLib.Supabase :=
  {| ExportLib.contacts_select := answer [contact "Ann"; contact "Bob"];
     ExportLib.attachments_select :=
       answer [attachment "Ann" "deck.pdf" "u1/1-deck.pdf";
               attachment "Ann" "memo?.txt" "u1/2-memo.txt"];
     ExportLib.storage_download := failsOn "u1/2-memo.txt";
     ExportLib.now_toISOString := "2024-03-15T10:00:00.000Z" |}.


(** A store in which every download succeeds, with the given rows. *)
Definition stored (contacts : list ExportLib.Contact)
    (attachments : list ExportLib.Attachment) : ExportLib.Supabase :=
  {| ExportLib.contacts_select := answer contacts;
     ExportLib.attachments_select := answer attachments;
     ExportLib.storage_download := failsOn "";
     ExportLib.now_toISOString := "2024-03-15T10:00:00.000Z" |}.





End Samples.

(** ** The specification's vocabulary

    Definitions that follow the wording of the specification; the
    properties below compare the code with them. *)

Module Spec.
Import Js ImportLib.

(** Every character of [s] satisfies [p]. *)
Fixpoint allChars (p : ascii -> bool) (s : string) : bool :=
  match s with
  | String c s' => p c && allChars p s'
  | EmptyString => true
  end.

(** The note fragment a row entry contributes: the trimmed text of a
    column that resolves to [details], the labelled text of an extra-note
    column, nothing otherwise (and nothing for a falsy or blank value). *)
Definition noteFragment `{Host} (entry : string * value) : list string :=
  let '(header, value) := entry in
  let text := trim (String_ value) in
  if truthy value && negb (isEmpty text) then
    match columnMappings !! normalizeColumnName header with
    | Some Fdetails => [text]
    | Some _ => []
    | None =>
        if includes extraNotesColumns (normalizeColumnName header)
        then [trim header +:+ ": " +:+ text]
        else []
    end
  else [].

(** The fragments of a row, in column order. *)
Definition noteFragments `{Host} (row : RawRow) : list string :=
  flat_map noteFragment row.

(** The fragments joined by a newline, or nothing if there are none. *)
Definition joined (fragments : list string) : option string :=
  match fragments with
  | [] => None
  | _ :: _ => Some (join (String "010" "") fragments)
  end.

(** The insert requests of a run, in order, each with its outcome. *)
Definition requests (trace : list Event) : list (list NewContact * option string) :=
  flat_map
    (fun e => match e with Insert rows error => [(rows, error)] | Progress _ _ => [] end)
    trace.

(** The rows of the requests that succeeded, and of those that failed. *)
Fixpoint rowsWritten (reqs : list (list NewContact * option string)) : nat :=
  match reqs with
  | [] => 0
  | (rows, None) :: rest => length rows + rowsWritten rest
  | (_, Some _) :: rest => rowsWritten rest
  end.

Fixpoint rowsRejected (reqs : list (list NewContact * option string)) : nat :=
  match reqs with
  | [] => 0
  | (rows, Some _) :: rest => length rows + rowsRejected rest
  | (_, None) :: rest => rowsRejected rest
  end.

(** One message per failed request, carrying the number of its batch;
    [k] batches came before the first request of the list. *)
Fixpoint batchErrors (k : nat) (reqs : list (list NewContact * option string))
  : list string :=
  match reqs with
  | [] => []
  | (_, Some message) :: rest =>
      ("Batch " +:+ showNat (k + 1) +:+ " failed: " +:+ message)
        :: batchErrors (S k) rest
  | (_, None) :: rest => batchErrors (S k) rest
  end.

(** A list cut into consecutive pieces of [n] elements, the last one
    possibly shorter, and the sizes of the pieces. *)
Fixpoint chunksOf {A : Type} (fuel n : nat) (l : list A) : list (list A) :=
  match fuel with
  | O => []
  | S fuel' =>
      match l with
      | [] => []
      | _ :: _ => firstn n l :: chunksOf fuel' n (skipn n l)
      end
  end.

Fixpoint chunkSizes (fuel n len : nat) : list nat :=
  match fuel with
  | O => []
  | S fuel' =>
      match len with
      | O => []
      | S _ => Nat.min n len :: chunkSizes fuel' n (len - n)
      end
  end.

(** A data sheet: it is not the documentation sheet and it has a row. *)
Definition qualifies (workbook : Workbook) (name : string) : bool :=
  notDefinitions name
  && (0 <? length (sheet_to_json (Sheets workbook !! name) false))%nat.

End Spec.

(** ** The vocabulary of the archive *)

Module ArchiveSpec.
Import Js ExportLib.

(** The attachment metadata rows of a contact. *)
Definition attachmentsOf (attachments : list Attachment) (contact : Contact)
  : list Attachment :=
  List.filter (fun a => String.eqb (contact_id a) (id contact)) attachments.

(** The attachments whose download succeeds, each under its sanitized
    file name and with the data received. *)
Definition downloaded (supabase : Supabase) (attachments : list Attachment)
  : list (string * Blob) :=
  flat_map
    (fun a =>
       match storage_download supabase (file_path a) with
       | Downloaded fileData => [(sanitizeName (file_name a), fileData)]
       | DownloadError _ | DownloadThrows => []
       end)
    attachments.




(** The subfolder of a contact, [Attachments/<sanitized name>], as the root
    of a folder object, and the name of the directory entry of a folder:
    the root and a last, empty segment. *)
Definition folderOf (contact : Contact) : list string :=
  ["Attachments"; sanitizeName (name contact)].

Definition dirName (folder : list string) : list string := (folder ++ [""])%list.

(** Setting one entry of the archive. *)
Definition put (zip : JSZip) (entry : list string * ZipEntry) : JSZip :=
  <[entry.1 := entry.2]> zip.

(** The entries the inner loop writes into a folder, in order: one file
    per successful download. *)
Definition fileEntries (supabase : Supabase) (folder : list string)
    (attachments : list Attachment) : list (list string * ZipEntry) :=
  map (fun f => ((folder ++ [f.1])%list, FileEntry f.2))
    (downloaded supabase attachments).

(** A contact with its attachment rows. *)
Definition paired (attachments : list Attachment) (contact : Contact)
  : ContactWithAttachments :=
  (contact, attachmentsOf attachments contact).

(** The rows of the sheet. *)
Definition sheetRows `{Host} (attachments : list Attachment) (contacts : list Contact)
  : list ExcelRow :=
  imap excelRow (map (paired attachments) contacts).




(** What a folder holds under the name [child] once [files] have been
    written to it in turn: the last file written under that name, and
    under the empty name the directory entry of the folder unless a file
    was written there. *)
Definition written (files : list (string * Blob)) (child : string) : option ZipEntry :=
  match (list_to_map (rev files) : gmap string Blob) !! child with
  | Some fileData => Some (FileEntry fileData)
  | None => if isEmpty child then Some Dir else None
  end.




(** The archive a run saves; the empty archive when the run throws. *)
Definition archiveOf (run : list Event * Settled (string * JSZip)) : JSZip :=
  match run.2 with
  | Fulfilled saved => saved.2
  | Rejected _ => ∅
  end.

End ArchiveSpec.

(** ** The vocabulary of the column mapper *)

Module MapperSpec.
Import Js ImportLib.

#[global] Instance field_eq_dec : EqDecision field.
Proof. solve_decision. Defined.

(** The entry has a value and its header resolves to the field. *)
Definition resolvesTo (f : field) (entry : string * value) : bool :=
  truthy entry.2
  && bool_decide (columnMappings !! normalizeColumnName entry.1 = Some f).

(** The value of the last column of the row that resolves to the field. *)
Definition lastValue (f : field) (row : RawRow) : option value :=
  option_map snd (List.find (resolvesTo f) (rev row)).

(** [s || null] *)
Definition nonBlank (s : string) : option string :=
  if isEmpty s then None else Some s.

(** The text fields of a contact. *)
Definition textField (f : field) (c : ImportedContact) : option string :=
  match f with
  | Femail => email c
  | Fphone => phone c
  | Flocation => location c
  | Finstitution => institution c
  | Flast_interaction_date => last_interaction_date c
  | Fdetails => details c
  | Fname | Fpriority => None
  end.

Definition isText (f : field) : bool :=
  match f with
  | Femail | Fphone | Flocation | Finstitution | Flast_interaction_date => true
  | _ => false
  end.

(** What a cell means for a text field. *)
Definition textValue `{Host} (f : field) (value : value) : option string :=
  match f with
  | Flast_interaction_date => parseExcelDate value
  | _ => nonBlank (trim (String_ value))
  end.

(** An entry the mapper reads: it has a value, and its header resolves to
    a field or is one of the extra note columns. *)
Definition isRead (entry : string * value) : bool :=
  truthy entry.2
  && (bool_decide (is_Some (columnMappings !! normalizeColumnName entry.1))
      || includes extraNotesColumns (normalizeColumnName entry.1)).

End MapperSpec.

(** ** The vocabulary of the writer *)

Module WriterSpec.
Import Js ImportLib.

Section serve.
Context {Store : Type} (supabase : Supabase Store).

(** The batches sent one after the other, each to the store the previous
    one left: before batch [k] (counted from 0) a progress call announces
    its rows, then the request is made. *)
Fixpoint serve (user : User) (total k : nat) (batches : list (list ImportedContact))
    (store : Store) : Store * list Event :=
  match batches with
  | [] => (store, [])
  | batch :: rest =>
      let first := (k * batchSize)%nat in
      let message :=
        "Importing contacts " +:+ showNat (first + 1) +:+ " - "
          +:+ showNat (Nat.min (first + batchSize) total)
          +:+ " of " +:+ showNat total +:+ "..." in
      let percent :=
        Math_round
          (Number_of_nat (first + length batch) / Number_of_nat total * 100)%float in
      let rows := map (toInsert user) batch in
      let '(store', error) := contacts_insert supabase store rows in
      let '(store'', trace) := serve user total (S k) rest store' in
      (store'', Progress message percent :: Insert rows error :: trace)
  end.

End serve.

(** The rows of the requests that succeeded. *)
Definition written (reqs : list (list NewContact * option string)) : list NewContact :=
  flat_map (fun req => match req.2 with None => req.1 | Some _ => [] end) reqs.

End WriterSpec.

(** ** The import dialog, continued: running the import

    The rest of the state of [components/ExcelImport.tsx] and the handlers
    that start and leave an import. *)

Module ImportDialog.
Import Js ImportLib.

Record Dialog : Type := {
  view : ExcelImport.State;
  importing : bool;
  progress : string * float;
  result : option (nat * nat * list string)
}.

Definition resetState (d : Dialog) : Dialog :=
  {| view := ExcelImport.initialState; importing := false;
     progress := ("", 0%float); result := None |}.

(** The dialog after the click, and whether [onClose] was called. *)
Definition handleClose (d : Dialog) : Dialog * bool :=
  if negb (importing d) then (resetState d, true) else (d, false).

(** [previewData.filter(c => c.name.trim())] and the rows left out *)
Definition validContacts (d : Dialog) : list ImportedContact :=
  List.filter (fun c => negb (isEmpty (trim (name c))))
    (ExcelImport.previewData (view d)).

Definition invalidContacts (d : Dialog) : nat :=
  (length (ExcelImport.previewData (view d)) - length (validContacts d))%nat.

(** The [progress] state after the calls of the callback. *)
Definition setProgress (p : string * float) (e : Event) : string * float :=
  match e with
  | Progress message percent => (message, percent)
  | Insert _ _ => p
  end.

Section handleImport.
Context {Store : Type} (supabase : Supabase Store).

(** The dialog and the store after the run, and the number of calls of
    [onImportComplete].  [importContacts] reports every failure in its
    result, so the [catch] block has nothing to catch. *)
Definition handleImport (d : Dialog) (store : Store) : Dialog * Store * nat :=
  match ExcelImport.previewData (view d) with
  | [] => (d, store, 0%nat)
  | _ :: _ =>
      let view1 :=
        ExcelImport.setError None (ExcelImport.setStep ExcelImport.importing (view d)) in
      let '(store', trace, importResult) :=
        importContacts supabase (ExcelImport.previewData (view d)) store in
      ({| view := ExcelImport.setStep ExcelImport.complete view1;
          importing := false;
          progress := fold_left setProgress trace (progress d);
          result :=
            Some (imported importResult, skipped importResult, errors importResult) |},
       store', 1%nat)
  end.

End handleImport.

End ImportDialog.

(** ** A sample table *)

Module MoreSamples.
Import Js ImportLib.

(** A [contacts] table that is a list of rows and takes no row once it
    holds fifty. *)
Definition insertUpToFifty (table : list NewContact) (batch : list NewContact)
  : list NewContact * option string :=
  if (length table =? 50)%nat then (table, Some "quota exceeded")
  else ((table ++ batch)%list, None).

Definition fullAtFifty : Supabase (list NewContact) :=
  {| auth_getUser := Some {| id := "u1" |};
     contacts_insert := insertUpToFifty |}.

End MoreSamples.

(** ** The vocabulary of the export run *)

Module ExportSpec.
Import Js ExportLib ArchiveSpec.

Definition messageOf (e : Event) : string :=
  match e with Progress message _ => message end.

(** The progress call made before file [j] of contact [i] is fetched;
    [n] is the number of files of that contact. *)
Definition downloading (totalAttachments i : nat) (contact : Contact) (n j : nat)
    (attachment : Attachment) : Event :=
  Progress
    ("Downloading: " +:+ file_name attachment +:+ " (" +:+ name contact +:+ ")")
    (Math_round
       (30 + Number_of_nat (i * n + j) / Number_of_nat totalAttachments * 60)%float).

(** The progress calls of the sweep over the contacts. *)
Definition sweep (totalAttachments : nat) (contacts : list ContactWithAttachments)
  : list Event :=
  concat
    (imap (fun i c => imap (downloading totalAttachments i c.1 (length c.2)) c.2)
       contacts).

(** The folder the files of a contact are written to: its subfolder, or
    the [Attachments] folder itself when its sanitized name is empty. *)
Definition targetOf (contact : Contact) : list string :=
  if isEmpty (sanitizeName (name contact)) then ["Attachments"]
  else folderOf contact.

(** What an entry of the archive can be: the spreadsheet; the directory
    entry of the [Attachments] folder; the directory entry of the
    subfolder of a contact that has attachment rows and a sanitized name
    that is not empty; or, for a contact that has attachment rows, the
    data of one of its rows, as downloaded, under the sanitized file name
    in the folder its files are written to. *)
Definition expected `{Host} (supabase : Supabase) (contacts : list Contact)
    (path : list string) (entry : ZipEntry) : Prop :=
  let attachments := default [] (data (attachments_select supabase)) in
  (path = ["Contacts.xlsx"]
   /\ entry = FileEntry (Xlsx "Contacts" (sheetRows attachments contacts)))
  \/ (path = ["Attachments"; ""] /\ entry = Dir)
  \/ exists contact,
       In contact contacts
       /\ attachmentsOf attachments contact <> []
       /\ ((path = dirName (folderOf contact)
            /\ entry = Dir
            /\ isEmpty (sanitizeName (name contact)) = false)
           \/ exists attachment fileData,
                In attachment (attachmentsOf attachments contact)
                /\ storage_download supabase (file_path attachment) = Downloaded fileData
                /\ entry = FileEntry fileData
                /\ path = (targetOf contact ++ [sanitizeName (file_name attachment)])%list).

End ExportSpec.

(** ** Arrays, sets and maps of the host language *)

Module JsData.
Import Js.

(** [s.includes(sub)] on strings *)
Fixpoint String_includes (sub s : string) : bool :=
  String.prefix sub s
  || match s with String _ s' => String_includes sub s' | EmptyString => false end.

(** [a.sort(cmp)]: the sort is stable.  It is modelled by insertion from
    the right; for a consistent comparator this is the order ECMAScript
    prescribes, for another one it is one of the orders it allows. *)
Fixpoint insertSorted {A : Type} (cmp : A -> A -> Z) (x : A) (sorted : list A)
  : list A :=
  match sorted with
  | [] => [x]
  | y :: rest => if cmp x y <=? 0 then x :: sorted else y :: insertSorted cmp x rest
  end.

Definition Array_sort {A : Type} (cmp : A -> A -> Z) (a : list A) : list A :=
  fold_right (insertSorted cmp) [] a.

(** The default comparator of [sort()] on strings: code unit order. *)
Definition codeUnitOrder (a b : string) : Z :=
  match String.compare a b with Lt => -1 | Eq => 0 | Gt => 1 end.

(** [new Set<string>()] in insertion order, and [set.add(x)] *)
Definition Set_add (x : string) (set : list string) : list string :=
  if existsb (String.eqb x) set then set else (set ++ [x])%list.

(** [new Map<string, V>()] in insertion order: [map.get(k)] and
    [map.set(k, v)], which keeps the place of a key that is present. *)
Fixpoint Map_get {V : Type} (k : string) (m : list (string * V)) : option V :=
  match m with
  | [] => None
  | (k', v) :: rest => if String.eqb k' k then Some v else Map_get k rest
  end.

Fixpoint Map_set {V : Type} (k : string) (v : V) (m : list (string * V))
  : list (string * V) :=
  match m with
  | [] => [(k, v)]
  | (k', v') :: rest =>
      if String.eqb k' k then (k', v) :: rest else (k', v') :: Map_set k v rest
  end.

(** What depends on the locale of the engine: [a.localeCompare(b)]. *)
Class Locale : Type := { localeCompare : string -> string -> Z }.

End JsData.

(** ** The dashboard: [app/dashboard/page.tsx]

    The filters of the page, the list they leave, the figures of the
    cards, and the state of the export dialog.  A contact is the [Contact]
    of [types/index.ts]; a count is a natural number. *)

Module Dashboard.
Import Js JsData ExportLib.

Inductive ViewMode : Type := view_contacts | view_locations | view_institutions.

Inductive DateFilterType : Type := before | after.

Record Page : Type := {
  searchQuery : string;
  locationFilter : string;
  priorityFilter : string;
  dateFilter : string;
  dateFilterType : DateFilterType;
  viewMode : ViewMode;
  selectedLocation : option string;
  selectedInstitution : option string
}.

(** [x?.toLowerCase().includes(query)] and [x?.includes(query)] *)
Definition lowerIncludes (query : string) (x : option string) : bool :=
  match x with
  | Some s => String_includes query (toLowerCase s)
  | None => false
  end.

Definition plainIncludes (query : string) (x : option string) : bool :=
  match x with
  | Some s => String_includes query s
  | None => false
  end.

(** [x === s] for an optional string [x] *)
Definition equals (x : option string) (s : string) : bool :=
  match x with
  | Some x => String.eqb x s
  | None => false
  end.

(** [!!x] for an optional string *)
Definition present (x : option string) : bool :=
  match x with
  | Some s => negb (isEmpty s)
  | None => false
  end.

Definition isHigh (c : Contact) : bool :=
  match priority c with
  | Some p => truthy (VNumber p) && (p <=? 2)%float
  | None => false
  end.

Definition isLow (c : Contact) : bool :=
  match priority c with
  | Some p => truthy (VNumber p) && (4 <=? p)%float
  | None => false
  end.

Definition hasPriority (n : float) (c : Contact) : bool :=
  match priority c with
  | Some p => (p =? n)%float
  | None => false
  end.

(** [a < b] on two dates: their time values are compared, and nothing is
    below or above an invalid date. *)
Definition dateLt (a b : option Z) : bool :=
  match a, b with
  | Some x, Some y => x <? y
  | _, _ => false
  end.

(** Filter contacts based on all criteria: the body of the effect, which
    ends in [setFilteredContacts(filtered)]. *)
Definition filteredContacts `{Host} (page : Page) (contacts : list Contact)
  : list Contact :=
  let filtered := contacts in
  let filtered :=
    if negb (isEmpty (searchQuery page)) then
      let query := toLowerCase (searchQuery page) in
      List.filter
        (fun contact =>
           String_includes query (toLowerCase (name contact))
           || lowerIncludes query (email contact)
           || lowerIncludes query (details contact)
           || plainIncludes query (phone contact)
           || lowerIncludes query (institution contact))
        filtered
    else filtered in
  let filtered :=
    if negb (isEmpty (locationFilter page)) then
      List.filter (fun contact => equals (location contact) (locationFilter page)) filtered
    else filtered in
  let filtered :=
    match selectedLocation page with
    | Some selected =>
        if negb (isEmpty selected) then
          List.filter (fun contact => equals (location contact) selected) filtered
        else filtered
    | None => filtered
    end in
  let filtered :=
    match selectedInstitution page with
    | Some selected =>
        if negb (isEmpty selected) then
          List.filter (fun contact => equals (institution contact) selected) filtered
        else filtered
    | None => filtered
    end in
  let filtered :=
    if negb (isEmpty (priorityFilter page)) then
      if String.eqb (priorityFilter page) "high" then List.filter isHigh filtered
      else if String.eqb (priorityFilter page) "medium" then
        List.filter (hasPriority 3) filtered
      else if String.eqb (priorityFilter page) "low" then List.filter isLow filtered
      else
        let priorityNum := parseInt (priorityFilter page) in
        if negb (isNaN priorityNum) then List.filter (hasPriority priorityNum) filtered
        else filtered
    else filtered in
  let filtered :=
    if negb (isEmpty (dateFilter page)) then
      let filterDate := Date_parse (dateFilter page) in
      List.filter
        (fun contact =>
           match last_interaction_date contact with
           | Some s =>
               if isEmpty s then false
               else
                 let contactDate := Date_parse s in
                 match dateFilterType page with
                 | before => dateLt contactDate filterDate
                 | after => dateLt filterDate contactDate
                 end
           | None => false
           end)
        filtered
    else filtered in
  filtered.

(** The counts of the values of one field, as the two memos compute
    them. *)
Definition count (counts : list (string * nat)) (x : option string)
  : list (string * nat) :=
  match x with
  | Some key =>
      if negb (isEmpty key)
      then Map_set key (default 0 (Map_get key counts) + 1)%nat counts
      else counts
  | None => counts
  end.

Definition withCounts `{Locale} (field : Contact -> option string)
    (contacts : list Contact) : list (string * nat) :=
  let counts := fold_left (fun counts c => count counts (field c)) contacts [] in
  Array_sort (fun a b => localeCompare a.1 b.1) counts.

(** Get unique institutions with counts *)
Definition institutionsWithCounts `{Locale} (contacts : list Contact)
  : list (string * nat) :=
  withCounts institution contacts.

(** Get locations with counts *)
Definition locationsWithCounts `{Locale} (contacts : list Contact)
  : list (string * nat) :=
  withCounts location contacts.

(** [uniqueLocations] of [fetchContacts], kept in the [locations] state *)
Definition uniqueLocations (contacts : list Contact) : list string :=
  Array_sort codeUnitOrder
    (fold_left (fun set loc => Set_add loc set)
       (omap (fun c => if present (location c) then location c else None) contacts)
       []).

(** Calculate stats *)
Definition highPriorityCount (contacts : list Contact) : nat :=
  length (List.filter isHigh contacts).

Definition uniqueInstitutions `{Locale} (contacts : list Contact) : nat :=
  length (institutionsWithCounts contacts).

Definition clearFilters (page : Page) : Page :=
  {| searchQuery := ""; locationFilter := ""; priorityFilter := "";
     dateFilter := ""; dateFilterType := before; viewMode := view_contacts;
     selectedLocation := None; selectedInstitution := None |}.

Definition hasActiveFilters (page : Page) : bool :=
  negb (isEmpty (searchQuery page)) || negb (isEmpty (locationFilter page))
  || negb (isEmpty (priorityFilter page)) || negb (isEmpty (dateFilter page))
  || present (selectedLocation page) || present (selectedInstitution page).

Definition setViewMode (mode : ViewMode) (page : Page) : Page :=
  {| searchQuery := searchQuery page; locationFilter := locationFilter page;
     priorityFilter := priorityFilter page; dateFilter := dateFilter page;
     dateFilterType := dateFilterType page; viewMode := mode;
     selectedLocation := selectedLocation page;
     selectedInstitution := selectedInstitution page |}.

Definition setPriorityFilter (value : string) (page : Page) : Page :=
  {| searchQuery := searchQuery page; locationFilter := locationFilter page;
     priorityFilter := value; dateFilter := dateFilter page;
     dateFilterType := dateFilterType page; viewMode := viewMode page;
     selectedLocation := selectedLocation page;
     selectedInstitution := selectedInstitution page |}.

Definition setSelectedLocation (value : option string) (page : Page) : Page :=
  {| searchQuery := searchQuery page; locationFilter := locationFilter page;
     priorityFilter := priorityFilter page; dateFilter := dateFilter page;
     dateFilterType := dateFilterType page; viewMode := viewMode page;
     selectedLocation := value;
     selectedInstitution := selectedInstitution page |}.

Definition setSelectedInstitution (value : option string) (page : Page) : Page :=
  {| searchQuery := searchQuery page; locationFilter := locationFilter page;
     priorityFilter := priorityFilter page; dateFilter := dateFilter page;
     dateFilterType := dateFilterType page; viewMode := viewMode page;
     selectedLocation := selectedLocation page;
     selectedInstitution := value |}.

(** Stats card click handlers *)
Definition handleTotalContactsClick (page : Page) : Page :=
  setViewMode view_contacts (clearFilters page).

Definition handleHighPriorityClick (page : Page) : Page :=
  setViewMode view_contacts (setPriorityFilter "high" (clearFilters page)).

Definition handleInstitutionsClick (page : Page) : Page :=
  setViewMode view_institutions (clearFilters page).

Definition handleLocationsClick (page : Page) : Page :=
  setViewMode view_locations (clearFilters page).

Definition handleLocationSelect (location : string) (page : Page) : Page :=
  setViewMode view_contacts (setSelectedLocation (Some location) page).

Definition handleInstitutionSelect (institution : string) (page : Page) : Page :=
  setViewMode view_contacts (setSelectedInstitution (Some institution) page).

Definition handleBackToList (page : Page) : Page :=
  if present (selectedLocation page) then
    setViewMode view_locations (setSelectedLocation None page)
  else if present (selectedInstitution page) then
    setViewMode view_institutions (setSelectedInstitution None page)
  else setViewMode view_contacts page.

(** The condition under which the page renders the [Back] button, whose
    handler is [handleBackToList]. *)
Definition backShown (page : Page) : bool :=
  negb match viewMode page with view_contacts => true | _ => false end
  || present (selectedLocation page) || present (selectedInstitution page)
  || negb (isEmpty (priorityFilter page)).

(** *** The export dialog *)

Record ExportState : Type := {
  isExporting : bool;
  exportProgress : string * float;
  exportError : option string;
  exportSuccess : bool
}.

Definition setExportProgress (p : string * float) (e : Event) : string * float :=
  match e with Progress message percent => (message, percent) end.

(** The state when the promise of [exportAllData] has settled; the timer
    set on success has not fired yet. *)
Definition handleExport `{Host} (supabase : Supabase) (s : ExportState) : ExportState :=
  let '(trace, outcome) := exportAllData supabase in
  let progress := fold_left setExportProgress trace ("Starting export...", 0%float) in
  match outcome with
  | Fulfilled _ =>
      {| isExporting := true; exportProgress := progress; exportError := None;
         exportSuccess := true |}
  | Rejected message =>
      {| isExporting := true; exportProgress := progress;
         exportError := Some message; exportSuccess := false |}
  end.

(** The callback of [setTimeout], two seconds after a success *)
Definition exportTimeout (s : ExportState) : ExportState :=
  {| isExporting := false; exportProgress := exportProgress s;
     exportError := exportError s; exportSuccess := false |}.

Definition closeExportModal (s : ExportState) : ExportState :=
  if negb (isExporting s) || present (exportError s) then
    {| isExporting := false; exportProgress := exportProgress s;
       exportError := None; exportSuccess := false |}
  else s.

End Dashboard.

(** ** The vocabulary of the dashboard *)

Module DashboardSpec.
Import Js JsData ExportLib Dashboard.

(** The contacts whose field holds the given value. *)
Definition holding (field : Contact -> option string) (value : string)
    (contacts : list Contact) : list Contact :=
  List.filter (fun c => equals (field c) value) contacts.

(** The counts of a field before they are sorted. *)
Definition counted (field : Contact -> option string) (contacts : list Contact)
  : list (string * nat) :=
  fold_left (fun counts c => count counts (field c)) contacts [].

End DashboardSpec.

(** ** The attachments of a contact: [components/FileUpload.tsx] *)

Module FileUpload.
Import Js JsData ExportLib.

Inductive LucideIcon : Type := FileText | Image | FileSpreadsheet | Mail | File.

Definition FILE_ICONS : list (string * LucideIcon) :=
  [ ("application/pdf", FileText);
    ("image/", Image);
    ("application/vnd.openxmlformats-officedocument.spreadsheetml.sheet", FileSpreadsheet);
    ("application/vnd.ms-excel", FileSpreadsheet);
    ("text/csv", FileSpreadsheet);
    ("message/rfc822", Mail);
    ("application/vnd.ms-outlook", Mail) ].

Record Category : Type := { label : string; types : list string; icon : LucideIcon }.

(** File type categories for filtering *)
Definition FILE_CATEGORIES : list (string * Category) :=
  [ ("pdf", {| label := "PDF"; types := ["application/pdf"]; icon := FileText |});
    ("excel",
     {| label := "Excel/CSV";
        types :=
          [ "application/vnd.openxmlformats-officedocument.spreadsheetml.sheet";
            "application/vnd.ms-excel"; "text/csv" ];
        icon := FileSpreadsheet |});
    ("image",
     {| label := "Images";
        types := ["image/png"; "image/jpeg"; "image/jpg"; "image/gif"; "image/webp"];
        icon := Image |});
    ("email",
     {| label := "Email";
        types := ["message/rfc822"; "application/vnd.ms-outlook"];
        icon := Mail |});
    ("other", {| label := "Other"; types := []; icon := File |}) ].

(** [fileType.startsWith(t) || fileType === t] *)
Definition matches (fileType t : string) : bool :=
  startsWith t fileType || String.eqb fileType t.

(** The loop of [getFileCategory] over [Object.entries(FILE_CATEGORIES)]. *)
Fixpoint categoryLoop (entries : list (string * Category)) (fileType : string)
  : string :=
  match entries with
  | [] => "other"
  | (category, config) :: rest =>
      if String.eqb category "other" then categoryLoop rest fileType
      else if existsb (matches fileType) (types config) then category
      else if String.eqb category "image" && startsWith "image/" fileType then "image"
      else categoryLoop rest fileType
  end.

Definition getFileCategory (fileType : option string) : string :=
  match fileType with
  | Some t => if isEmpty t then "other" else categoryLoop FILE_CATEGORIES t
  | None => "other"
  end.

Fixpoint iconLoop (entries : list (string * LucideIcon)) (fileType : string)
  : LucideIcon :=
  match entries with
  | [] => File
  | (key, Icon) :: rest =>
      if matches fileType key then Icon else iconLoop rest fileType
  end.

Definition getFileIcon (fileType : option string) : LucideIcon :=
  match fileType with
  | Some t => if isEmpty t then File else iconLoop FILE_ICONS t
  | None => File
  end.

Definition formatDate `{Host} (dateString : string) : string :=
  Date_toLocaleDateString false (Date_parse dateString).

(** [date.toISOString().split('T')[0]] of a valid date: the UTC calendar
    date, the year on four digits, or signed on six outside 0..9999. *)
Definition isoYear (y : Z) : string :=
  if (0 <=? y) && (y <=? 9999) then padStart 4 "0" (showZ y)
  else (if y <? 0 then "-" else "+") +:+ padStart 6 "0" (showZ (Z.abs y)).

Definition isoDate (t : Z) : string :=
  let '(y, m, d) := civil_from_days (t / msPerDay) in
  isoYear y +:+ "-" +:+ padStart 2 "0" (showZ m) +:+ "-" +:+ padStart 2 "0" (showZ d).

(** [new Date(s).toISOString().split('T')[0]]; [toISOString] throws a
    [RangeError] on an invalid date ([None]). *)
Definition dateKey `{Host} (s : string) : option string :=
  option_map isoDate (Date_parse s).

(** Get unique file categories from attachments *)
Definition availableCategories (attachments : list Attachment) : list string :=
  Array_sort codeUnitOrder
    (fold_left (fun categories a => Set_add (getFileCategory (file_type a)) categories)
       attachments []).

(** Get unique dates from attachments; [None] when the callback throws. *)
Fixpoint datesLoop `{Host} (attachments : list Attachment)
    (dates : list (string * string)) : option (list (string * string)) :=
  match attachments with
  | [] => Some dates
  | a :: rest =>
      match dateKey (att_created_at a) with
      | Some key => datesLoop rest (Map_set key (formatDate (att_created_at a)) dates)
      | None => None
      end
  end.

Definition availableDates `{Host} `{Locale} (attachments : list Attachment)
  : option (list (string * string)) :=
  option_map (Array_sort (fun a b => localeCompare b.1 a.1))
    (datesLoop attachments []).

(** [a.filter(p)] for a callback that may throw *)
Fixpoint filterThrowing {A : Type} (p : A -> option bool) (a : list A)
  : option (list A) :=
  match a with
  | [] => Some []
  | x :: rest =>
      match p x with
      | Some keep =>
          match filterThrowing p rest with
          | Some kept => Some (if keep then x :: kept else kept)
          | None => None
          end
      | None => None
      end
  end.

(** Filtered attachments *)
Definition filteredAttachments `{Host} (typeFilter dateFilter : string)
    (attachments : list Attachment) : option (list Attachment) :=
  let filtered := attachments in
  let filtered :=
    if negb (isEmpty typeFilter) then
      List.filter (fun a => String.eqb (getFileCategory (file_type a)) typeFilter)
        filtered
    else filtered in
  if negb (isEmpty dateFilter) then
    filterThrowing
      (fun a =>
         match dateKey (att_created_at a) with
         | Some date => Some (String.eqb date dateFilter)
         | None => None
         end)
      filtered
  else Some filtered.

(** *** Uploading *)

(** A file chosen in the browser. *)
Record LocalFile : Type := { lf_name : string; lf_type : string; lf_size : float }.

(** A value thrown: whether it is an [Error] and its [message]. *)
Record Thrown : Type := { instanceofError : bool; message : string }.

(** The row handed to [insert]. *)
Record NewAttachment : Type := {
  na_contact_id : string;
  na_user_id : string;
  na_file_name : string;
  na_file_path : string;
  na_file_type : string;
  na_file_size : float
}.

(** The collaborator: the signed-in user, the object store and the
    [attachments] table, and the part of an object name the handler draws
    from the clock and the random generator in turn [k] of its loop,
    [`${Date.now()}-${Math.random().toString(36).substring(7)}`]. *)
Record Backend (Store : Type) : Type := {
  auth_getUser : option string;
  storage_upload : Store -> string -> LocalFile -> Store * option Thrown;
  attachments_insert : Store -> NewAttachment -> Store * (Attachment + Thrown);
  stamp : nat -> string
}.
Arguments auth_getUser {Store} _.
Arguments storage_upload {Store} _ _ _ _.
Arguments attachments_insert {Store} _ _ _.
Arguments stamp {Store} _ _.

(** The requests made, with their answers. *)
Inductive Event : Type :=
  | Upload (path : string) (file : LocalFile) (error : option Thrown)
  | Insert (row : NewAttachment) (answer : Attachment + Thrown).

(** [s.split(sep)] for a one character separator *)
Fixpoint split (sep : ascii) (s : string) : list string :=
  match s with
  | EmptyString => [""]
  | String c s' =>
      match split sep s' with
      | head :: tail =>
          if Ascii.eqb c sep then "" :: head :: tail else String c head :: tail
      | [] => [String c ""]
      end
  end.

Definition objectName (userId contactId stamp : string) (file : LocalFile) : string :=
  let fileExt := List.last (split "." (lf_name file)) "" in
  userId +:+ "/" +:+ contactId +:+ "/" +:+ stamp +:+ "." +:+ fileExt.

Definition rowOf (userId contactId fileName : string) (file : LocalFile)
  : NewAttachment :=
  {| na_contact_id := contactId; na_user_id := userId;
     na_file_name := lf_name file; na_file_path := fileName;
     na_file_type := lf_type file; na_file_size := lf_size file |}.

Section handleFileSelect.
Context {Store : Type} (backend : Backend Store).

(** The [for] loop over the files, from turn [k] on: the store and the
    requests made, and the rows received or the value thrown. *)
Fixpoint uploadLoop (userId contactId : string) (k : nat) (files : list LocalFile)
    (store : Store) (newAttachments : list Attachment)
  : Store * list Event * (list Attachment + Thrown) :=
  match files with
  | [] => (store, [], inl newAttachments)
  | file :: rest =>
      let fileName := objectName userId contactId (stamp backend k) file in
      let '(store, uploadError) := storage_upload backend store fileName file in
      match uploadError with
      | Some thrown => (store, [Upload fileName file uploadError], inr thrown)
      | None =>
          let row := rowOf userId contactId fileName file in
          let '(store, answer) := attachments_insert backend store row in
          match answer with
          | inr dbError =>
              (store, [Upload fileName file None; Insert row answer], inr dbError)
          | inl attachment =>
              let '(store, trace, result) :=
                uploadLoop userId contactId (S k) rest store
                  (newAttachments ++ [attachment])%list in
              (store, Upload fileName file None :: Insert row answer :: trace, result)
          end
      end
  end.

(** What the handler leaves: the store, the requests, the argument of
    [onAttachmentsChange] if it was called, and [uploadError]. *)
Record Uploaded : Type := {
  store_after : Store;
  requests : list Event;
  changed : option (list Attachment);
  uploadError : option string
}.

Definition handleFileSelect (contactId : string) (attachments : list Attachment)
    (files : list LocalFile) (store : Store) (previousError : option string)
  : Uploaded :=
  match files with
  | [] =>
      {| store_after := store; requests := []; changed := None;
         uploadError := previousError |}
  | _ :: _ =>
      match auth_getUser backend with
      | None =>
          {| store_after := store; requests := []; changed := None;
             uploadError := Some "Not authenticated" |}
      | Some userId =>
          let '(store, trace, result) := uploadLoop userId contactId 0 files store [] in
          match result with
          | inl newAttachments =>
              {| store_after := store; requests := trace;
                 changed := Some (attachments ++ newAttachments)%list;
                 uploadError := None |}
          | inr thrown =>
              {| store_after := store; requests := trace; changed := None;
                 uploadError :=
                   Some (if instanceofError thrown then message thrown
                         else "Failed to upload") |}
          end
      end
  end.

End handleFileSelect.

End FileUpload.

(** ** The vocabulary of the upload *)

Module UploadSpec.
Import Js JsData ExportLib FileUpload.

Definition failed (e : Event) : bool :=
  match e with
  | Upload _ _ (Some _) | Insert _ (inr _) => true
  | _ => false
  end.

(** The value a failed request makes the handler throw. *)
Definition thrownBy (e : Event) : option Thrown :=
  match e with
  | Upload _ _ (Some thrown) | Insert _ (inr thrown) => Some thrown
  | _ => None
  end.

(** The rows the table returned. *)
Definition stored (trace : list Event) : list Attachment :=
  omap (fun e => match e with Insert _ (inl attachment) => Some attachment | _ => None end)
    trace.

(** A request without its answer. *)
Inductive Request : Type :=
  | UploadRequest (path : string) (file : LocalFile)
  | InsertRequest (row : NewAttachment).

Definition requestOf (e : Event) : Request :=
  match e with
  | Upload path file _ => UploadRequest path file
  | Insert row _ => InsertRequest row
  end.

(** The requests of a run in which nothing fails: for file [k] an upload
    under a name in the folder of the user and the contact, then the row
    that points to it. *)
Fixpoint planned (stamp : nat -> string) (userId contactId : string) (k : nat)
    (files : list LocalFile) : list Request :=
  match files with
  | [] => []
  | file :: rest =>
      let fileName := objectName userId contactId (stamp k) file in
      UploadRequest fileName file
        :: InsertRequest (rowOf userId contactId fileName file)
        :: planned stamp userId contactId (S k) rest
  end.

End UploadSpec.

(** ** Sample collaborators of the upload *)

Module UploadSamples.
Import Js FileUpload.

(** An object store that holds one object at most, and a table that
    returns the row it is given. *)
Definition uploadUnlessFull (objects : list string) (path : string) (file : LocalFile)
  : list string * option Thrown :=
  if (length objects =? 1)%nat
  then (objects, Some {| instanceofError := true; message := "quota exceeded" |})
  else ((objects ++ [path])%list, None).

Definition insertRow (objects : list string) (row : NewAttachment)
  : list string * (ExportLib.Attachment + Thrown) :=
  (objects,
   inl {| ExportLib.att_id := na_file_path row;
          ExportLib.contact_id := na_contact_id row;
          ExportLib.att_user_id := na_user_id row;
          ExportLib.file_name := na_file_name row;
          ExportLib.file_path := na_file_path row;
          ExportLib.file_type := Some (na_file_type row);
          ExportLib.file_size := Some (na_file_size row);
          ExportLib.att_created_at := "2024-03-15T10:00:00.000Z" |}).

Definition oneObjectOnly : Backend (list string) :=
  {| auth_getUser := Some "u1";
     storage_upload := uploadUnlessFull;
     attachments_insert := insertRow;
     stamp := fun k => "1710496800000-" +:+ showNat k |}.

Definition twoFiles : list LocalFile :=
  [ {| lf_name := "deck.pdf"; lf_type := "application/pdf"; lf_size := 1024 |};
    {| lf_name := "memo.v2.txt"; lf_type := "text/plain"; lf_size := 12 |} ].

End UploadSamples.

(** ** Sample attachments *)

Module FileSamples.
Import Js JsData.

(** An engine whose collation is the code unit order. *)
Definition codeUnits : Locale := {| localeCompare := codeUnitOrder |}.

(** Three attachments made on two days. *)
Definition dated (fileName day : string) : ExportLib.Attachment :=
  {| ExportLib.att_id := fileName; ExportLib.contact_id := "c1";
     ExportLib.att_user_id := "u1"; ExportLib.file_name := fileName;
     ExportLib.file_path := "u1/c1/" +:+ fileName;
     ExportLib.file_type := Some "application/pdf";
     ExportLib.file_size := Some 1024%float; ExportLib.att_created_at := day |}.

Definition threeFiles : list ExportLib.Attachment :=
  [dated "deck.pdf" "2024-03-15"; dated "terms.pdf" "2024-01-02";
   dated "memo.pdf" "2024-03-15"].

End FileSamples.

(** ** The vocabulary of the priority filter *)

Module PrioritySpec.
Import Js JsData ExportLib Dashboard.

(** A priority the schema admits: none, or an integer from 1 to 5. *)
Definition inSchema (p : option float) : bool :=
  match p with
  | None => true
  | Some x => existsb (fun n => (x =? n)%float) [1; 2; 3; 4; 5]%float
  end.

(** The contacts listed when only the priority filter is set. *)
Definition listed `{Host} (page : Page) (option : string) (contacts : list Contact)
  : list Contact :=
  filteredContacts (setPriorityFilter option (clearFilters page)) contacts.

End PrioritySpec.

(** ** Sample contacts with priorities *)

Module BandSamples.
Import Js.

Definition ranked (key : string) (p : option float) : ExportLib.Contact :=
  {| ExportLib.id := key; ExportLib.user_id := "u1"; ExportLib.name := key;
     ExportLib.email := None; ExportLib.phone := None;
     ExportLib.location := None; ExportLib.details := None;
     ExportLib.institution := None; ExportLib.last_interaction_date := None;
     ExportLib.priority := p;
     ExportLib.created_at := "2024-01-01"; ExportLib.updated_at := "2024-01-01" |}.

Definition ranks : list ExportLib.Contact :=
  [ranked "Ann" (Some 1%float); ranked "Bob" (Some 4%float); ranked "Cyd" None;
   ranked "Dov" (Some 2%float); ranked "Eve" (Some 3%float)].

End BandSamples.

(** ** The vocabulary of the pipeline from sheet to table *)

Module RowSpec.
Import Js ImportLib MapperSpec.

(** The row has a name: the last of its name columns that holds a value
    holds text that is not blank. *)
Definition named `{Host} (row : RawRow) : bool :=
  match lastValue Fname row with
  | Some v => negb (isEmpty (trim (String_ v)))
  | None => false
  end.

End RowSpec.

(** * Properties *)

(** ** The value normalizers *)

Module NormalizerFacts.
Import Js ImportLib.

Section with_host.
Context `{Host}.

Example parsePriority_sentinels :
  map parsePriority
    [VString "N/A"; VString "n/a"; VString "-"; VString ""; VNumber 0;
     VNull; VUndefined]
  = [None; None; None; None; None; None; None].
Proof. reflexivity. Qed.

Example parsePriority_out_of_range :
  map parsePriority
    [VNumber 6; VString "6"; VString "0"; VString "-1"; VString "abc";
     VNumber 0.5; VString "100"]
  = [None; None; None; None; None; None; None].
Proof. vm_compute. reflexivity. Qed.

Example parsePriority_in_range :
  map parsePriority
    [VNumber 1; VNumber 2; VNumber 3; VNumber 4; VNumber 5;
     VString "1"; VString "2"; VString "3"; VString " 4 "; VString "5"]
  = map Some [1; 2; 3; 4; 5; 1; 2; 3; 4; 5]%float.
Proof. vm_compute. reflexivity. Qed.

(** C3.  [parsePriority] hands a number between 1 and 5 back as it is,
    whole or not: the cell value 2.5 gives the priority 2.5, which is not
    one of 1, 2, 3, 4, 5, while the text "2.5" goes through [parseInt]
    and gives 2. *)
Theorem parsePriority_fractional_number :
  parsePriority (VNumber 2.5) = Some 2.5%float
  /\ parsePriority (VString "2.5") = Some 2%float.
Proof. split; vm_compute; reflexivity. Qed.

Example parseExcelDate_serial :
  map parseExcelDate [VNumber 45000; VString "45000"; VNumber 60; VNumber 61]
  = map Some ["2023-03-15"; "2023-03-15"; "1900-02-29"; "1900-03-01"].
Proof. vm_compute. reflexivity. Qed.

Example parseExcelDate_absent :
  map parseExcelDate
    [VNull; VUndefined; VString ""; VString "   "; VNumber 0; VNumber (-3);
     VBool true; VDate None]
  = [None; None; None; None; None; None; None; None].
Proof. vm_compute. reflexivity. Qed.

(** A string outside the serial range goes to the date parser of the
    host, and what the parser rejects yields nothing. *)
Lemma parseExcelDate_literal (s : string) :
  isEmpty (trim s) = false ->
  (let x := parseFloat (trim s) in
   (negb (isNaN x) && (40000 <? x) && (x <? 60000))%float = false) ->
  parseExcelDate (VString s)
  = match Date_parse (trim s) with
    | Some t => Some (formatYMD (localYMD t))
    | None => None
    end.
Proof.
  intros Hne Hrange. unfold parseExcelDate.
  assert (truthy (VString s) = true) as ->.
  { destruct s; [discriminate | reflexivity]. }
  cbn [negb]. rewrite Hne. cbv zeta in Hrange. cbv zeta. rewrite Hrange.
  reflexivity.
Qed.

(** C4.  The serial test runs on [parseFloat], which reads a numeric
    prefix: "45000abc" is not a number, yet it is decoded as the serial
    45000 and never reaches the date parser. *)
Theorem parseExcelDate_numeric_prefix :
  parseExcelDate (VString "45000abc") = Some "2023-03-15"
  /\ parseExcelDate (VString "45000abc") = parseExcelDate (VNumber 45000).
Proof. split; vm_compute; reflexivity. Qed.
End with_host.

(** The date literal "2024-03-15" is midnight UTC; the fields of the result
    are read in local time, so a host behind UTC answers the day before. *)
Example parseExcelDate_literal_utc :
  @parseExcelDate Reference.utc (VString "2024-03-15") = Some "2024-03-15"
  /\ @parseExcelDate Reference.utc (VString "not a date") = None.
Proof. split; vm_compute; reflexivity. Qed.

Example parseExcelDate_literal_behind_utc :
  @parseExcelDate Reference.utcMinus5 (VString "2024-03-15") = Some "2024-03-14".
Proof. vm_compute. reflexivity. Qed.

End NormalizerFacts.

(** ** The column mapper and the row normalizer *)

Module MapperFacts.
Import Js ImportLib Spec.

Lemma lowerChar_idem (c : ascii) : lowerChar (lowerChar c) = lowerChar c.
Proof. destruct c as [[] [] [] [] [] [] [] []]; reflexivity. Qed.

Lemma toLowerCase_idem (s : string) : toLowerCase (toLowerCase s) = toLowerCase s.
Proof.
  induction s as [|c s IH]; cbn [toLowerCase]; [reflexivity|].
  now rewrite lowerChar_idem, IH.
Qed.

Lemma allChars_trimStart p s : allChars p s = true -> allChars p (trimStart s) = true.
Proof.
  induction s as [|c s IH]; cbn [trimStart allChars]; [easy|].
  intros [Hc Hs]%andb_prop. destruct (isWhiteSpace c); [auto|].
  cbn [allChars]. now rewrite Hc, Hs.
Qed.

Lemma allChars_trimEnd p s : allChars p s = true -> allChars p (trimEnd s) = true.
Proof.
  induction s as [|c s IH]; cbn [trimEnd allChars]; [easy|].
  intros [Hc Hs]%andb_prop.
  destruct (isWhiteSpace c && isEmpty (trimEnd s)); [reflexivity|].
  cbn [allChars]. now rewrite Hc, IH.
Qed.

Lemma allChars_deleteClass p q s :
  allChars p s = true -> allChars p (deleteClass q s) = true.
Proof.
  induction s as [|c s IH]; cbn [deleteClass allChars]; [easy|].
  intros [Hc Hs]%andb_prop. destruct (q c); [auto|].
  cbn [allChars]. now rewrite Hc, IH.
Qed.

Lemma deleteClass_clean q s : allChars (fun c => negb (q c)) (deleteClass q s) = true.
Proof.
  induction s as [|c s IH]; cbn [deleteClass allChars]; [reflexivity|].
  destruct (q c) eqn:Hq; [exact IH|]. cbn [allChars]. now rewrite Hq, IH.
Qed.

Lemma deleteClass_id q s :
  allChars (fun c => negb (q c)) s = true -> deleteClass q s = s.
Proof.
  induction s as [|c s IH]; cbn [deleteClass allChars]; [easy|].
  intros [Hc Hs]%andb_prop. apply negb_true_iff in Hc. now rewrite Hc, IH.
Qed.

Lemma trim_id s :
  allChars (fun c => negb (isWhiteSpace c)) s = true -> trim s = s.
Proof.
  intros Hs. unfold trim.
  assert (trimStart s = s) as ->.
  { destruct s as [|c s]; [reflexivity|]. cbn [allChars] in Hs.
    apply andb_prop in Hs as [Hc _]. apply negb_true_iff in Hc.
    cbn [trimStart]. now rewrite Hc. }
  induction s as [|c s IH]; cbn [trimEnd allChars] in *; [reflexivity|].
  apply andb_prop in Hs as [Hc Hs]. apply negb_true_iff in Hc.
  now rewrite Hc, IH.
Qed.

Lemma allChars_weaken (p q : ascii -> bool) s :
  (forall c, p c = true -> q c = true) ->
  allChars p s = true -> allChars q s = true.
Proof.
  intros Hpq. induction s as [|c s IH]; cbn [allChars]; [easy|].
  intros [Hc Hs]%andb_prop. now rewrite (Hpq _ Hc), IH.
Qed.

Lemma toLowerCase_lowered s :
  allChars (fun c => Ascii.eqb (lowerChar c) c) (toLowerCase s) = true.
Proof.
  induction s as [|c s IH]; cbn [toLowerCase allChars]; [reflexivity|].
  rewrite lowerChar_idem, Ascii.eqb_refl. exact IH.
Qed.

Lemma toLowerCase_id s :
  allChars (fun c => Ascii.eqb (lowerChar c) c) s = true -> toLowerCase s = s.
Proof.
  induction s as [|c s IH]; cbn [toLowerCase allChars]; [easy|].
  intros [Hc Hs]%andb_prop. apply Ascii.eqb_eq in Hc. now rewrite Hc, IH.
Qed.

(** Normalizing a normalized key changes nothing. *)
Lemma normalizeColumnName_idem (header : string) :
  normalizeColumnName (normalizeColumnName header) = normalizeColumnName header.
Proof.
  unfold normalizeColumnName at 1.
  set (key := normalizeColumnName header).
  assert (Hlow : allChars (fun c => Ascii.eqb (lowerChar c) c) key = true).
  { unfold key, normalizeColumnName, trim.
    apply allChars_deleteClass, allChars_trimEnd, allChars_trimStart,
      toLowerCase_lowered. }
  assert (Hclean : allChars (fun c => negb (isUnderscoreOrSpace c)) key = true).
  { apply deleteClass_clean. }
  rewrite (toLowerCase_id _ Hlow), trim_id, deleteClass_id; try assumption;
    try reflexivity.
  revert Hclean. apply allChars_weaken. intros c Hc.
  unfold isUnderscoreOrSpace in Hc. apply negb_true_iff in Hc.
  apply orb_false_elim in Hc as [_ ->]. reflexivity.
Qed.

(** C6.  The field of a header is looked up under its normalized key, and
    normalization is idempotent, so a header and its key resolve alike,
    and the row normalizer treats alike two headers of one key that
    resolve to a field: "  Full_Name " and "fullname" both resolve to
    [name]; and the row with the headers Name, Company and Priorty maps to
    Jane Doe of Acme with priority 2, on every host. *)
Theorem column_mapper_resolves_normalized_key :
  (forall header,
     columnMappings !! normalizeColumnName (normalizeColumnName header)
     = columnMappings !! normalizeColumnName header)
  /\ (forall (host : Host) header header' value st,
        normalizeColumnName header = normalizeColumnName header' ->
        columnMappings !! normalizeColumnName header <> None ->
        mapEntry st (header, value) = mapEntry st (header', value))
  /\ normalizeColumnName "  Full_Name " = "fullname"
  /\ columnMappings !! normalizeColumnName "  Full_Name " = Some Fname
  /\ columnMappings !! normalizeColumnName "fullname" = Some Fname
  /\ (forall host : Host, mapToContacts [Samples.janeRow] None = [Samples.jane]).
Proof.
  split; [intros header; now rewrite normalizeColumnName_idem|].
  split.
  { intros host header header' value [contact notes] Hkey Hfield.
    unfold mapEntry. rewrite <- Hkey.
    destruct (columnMappings !! normalizeColumnName header) as [field|];
      [reflexivity | contradiction]. }
  split; [vm_compute; reflexivity|].
  split; [vm_compute; reflexivity|].
  split; [vm_compute; reflexivity|].
  intros host. vm_compute. reflexivity.
Qed.

Lemma column_mapper_witness :
  normalizeColumnName "  Full_Name " = normalizeColumnName "fullname"
  /\ columnMappings !! normalizeColumnName "  Full_Name " <> None
  /\ @mapEntry Reference.utc (emptyContact, []) ("  Full_Name ", VString "Jane Doe")
     = @mapEntry Reference.utc (emptyContact, []) ("fullname", VString "Jane Doe").
Proof.
  assert (Hkey : normalizeColumnName "  Full_Name " = normalizeColumnName "fullname")
    by (vm_compute; reflexivity).
  assert (Hfield : columnMappings !! normalizeColumnName "  Full_Name " <> None)
    by (vm_compute; discriminate).
  split; [exact Hkey|]. split; [exact Hfield|].
  exact (proj1 (proj2 column_mapper_resolves_normalized_key) Reference.utc
           "  Full_Name " "fullname" (VString "Jane Doe") (emptyContact, [])
           Hkey Hfield).
Defined.

Section with_host.
Context `{Host}.

Lemma mapEntry_details contact notes entry :
  details (fst (mapEntry (contact, notes) entry)) = details contact.
Proof.
  destruct entry as [key value]. unfold mapEntry.
  destruct (truthy value); cbn [negb]; [|reflexivity].
  generalize (columnMappings !! normalizeColumnName key).
  generalize (includes extraNotesColumns (normalizeColumnName key)).
  intros b [f|].
  - destruct f; cbn; try reflexivity;
      destruct (isEmpty (trim (String_ value))); reflexivity.
  - destruct b; [|reflexivity].
    destruct (isEmpty (trim (String_ value))); reflexivity.
Qed.

Lemma mapEntry_notes contact notes entry :
  snd (mapEntry (contact, notes) entry) = (notes ++ noteFragment entry)%list.
Proof.
  destruct entry as [key value]. unfold mapEntry, noteFragment.
  destruct (truthy value); cbn [negb andb]; [|now rewrite app_nil_r].
  generalize (columnMappings !! normalizeColumnName key).
  generalize (includes extraNotesColumns (normalizeColumnName key)).
  intros b [f|].
  - destruct f; destruct (isEmpty (trim (String_ value)));
      cbn; now rewrite ?app_nil_r.
  - destruct b; destruct (isEmpty (trim (String_ value)));
      cbn; now rewrite ?app_nil_r.
Qed.

(** The loop over the entries leaves [details] alone and appends the
    fragments of the entries to [extraNotes], in order. *)
Lemma mapEntries_notes (row : RawRow) contact notes :
  details (fst (fold_left mapEntry row (contact, notes))) = details contact
  /\ snd (fold_left mapEntry row (contact, notes))
     = (notes ++ noteFragments row)%list.
Proof.
  revert contact notes.
  induction row as [|entry row IH]; intros contact notes; cbn [fold_left].
  - now rewrite app_nil_r.
  - destruct (mapEntry (contact, notes) entry) as [contact' notes'] eqn:E.
    destruct (IH contact' notes') as [Hd Hn]. split.
    + rewrite Hd. change contact' with (fst (contact', notes')).
      rewrite <- E. apply mapEntry_details.
    + rewrite Hn. change notes' with (snd (contact', notes')).
      rewrite <- E, mapEntry_notes. unfold noteFragments. cbn [flat_map].
      now rewrite app_assoc.
Qed.

Lemma mapRow_details sourceSheet (row : RawRow) :
  details (mapRow sourceSheet row)
  = joined
      match sourceSheet with
      | Some sheet =>
          if isEmpty sheet then noteFragments row
          else ("[" +:+ sheet +:+ "]") :: noteFragments row
      | None => noteFragments row
      end.
Proof.
  unfold mapRow.
  destruct (fold_left mapEntry row (emptyContact, [])) as [contact notes] eqn:E.
  pose proof (mapEntries_notes row emptyContact []) as [Hd Hn].
  rewrite E in Hd, Hn. cbn [fst snd app] in Hd, Hn. subst notes.
  set (fragments := match sourceSheet with Some _ => _ | None => _ end).
  destruct fragments; [exact Hd | reflexivity].
Qed.

(** C5.  [mapToContacts] turns each row into one contact.  Its [details]
    are the note fragments of the row joined by a newline, or nothing when
    there is no fragment: the fragments are, in column order, the trimmed
    text of every column that resolves to [details] and, for every
    extra-note column, the trimmed original header, a colon and the text;
    with a sheet name the marker "[name]" comes first. *)
Theorem mapToContacts_accumulates_notes (rawData : list RawRow) :
  (forall sourceSheet,
     length (mapToContacts rawData sourceSheet) = length rawData)
  /\ map details (mapToContacts rawData None)
     = map (fun row => joined (noteFragments row)) rawData
  /\ (forall sheet,
        map details (mapToContacts rawData (Some sheet))
        = map (fun row =>
                 if isEmpty sheet then joined (noteFragments row)
                 else Some (join (String "010" "")
                              (("[" +:+ sheet +:+ "]") :: noteFragments row)))
            rawData).
Proof.
  unfold mapToContacts. split; [|split].
  - intros sourceSheet. apply length_map.
  - rewrite map_map. apply map_ext. intros row. apply mapRow_details.
  - intros sheet. rewrite map_map. apply map_ext. intros row.
    rewrite mapRow_details. destruct (isEmpty sheet); reflexivity.
Qed.

Example notes_accumulate :
  map details
    (mapToContacts
       [[("Notes", VString " met at the fair ");
         ("Documents Provided", VString "NDA");
         ("Email", VString "a@b.c");
         ("Comments", VString "call back")]]
       (Some "Funds"))
  = [Some (join (String "010" "")
             ["[Funds]"; "met at the fair"; "Documents Provided: NDA"; "call back"])].
Proof. vm_compute. reflexivity. Qed.
End with_host.

End MapperFacts.

(** ** The batch writer *)

Module WriterFacts.
Import Js ImportLib Spec.

Local Open Scope nat_scope.
Local Open Scope list_scope.

Lemma chunkSizes_of_chunks {A : Type} (fuel n : nat) (l : list A) :
  map length (chunksOf fuel n l) = chunkSizes fuel n (length l).
Proof.
  revert l. induction fuel as [|fuel IH]; intros l; [reflexivity|].
  destruct l as [|a l]; [reflexivity|].
  cbn [chunksOf chunkSizes map]. rewrite IH, length_take, length_drop.
  reflexivity.
Qed.

Lemma chunksOf_concat {A : Type} (fuel n : nat) (l : list A) :
  0 < n -> length l <= fuel -> concat (chunksOf fuel n l) = l.
Proof.
  intros Hn. revert l. induction fuel as [|fuel IH]; intros l Hl.
  - destruct l; [reflexivity | cbn in Hl; lia].
  - destruct l as [|a l]; [reflexivity|].
    cbn [chunksOf concat]. rewrite IH.
    + apply take_drop.
    + rewrite length_drop. cbn [length] in *. lia.
Qed.

Lemma chunkSizes_nth (fuel n len j size : nat) :
  0 < n -> nth_error (chunkSizes fuel n len) j = Some size ->
  size = Nat.min n (len - j * n) /\ 0 < size.
Proof.
  intros Hn. revert len j.
  induction fuel as [|fuel IH]; intros len j; [destruct j; discriminate|].
  destruct len as [|len]; [destruct j; discriminate|].
  cbn [chunkSizes]. destruct j as [|j]; cbn [nth_error].
  - intros [= <-]. rewrite Nat.sub_0_r. lia.
  - intros Hj. apply IH in Hj as [-> Hpos]. split; [|exact Hpos].
    f_equal. cbn [Nat.mul]. lia.
Qed.

Lemma chunkSizes_length (fuel n len : nat) :
  0 < n -> len <= fuel -> length (chunkSizes fuel n len) = (len + n - 1) / n.
Proof.
  intros Hn. revert len.
  induction fuel as [|fuel IH]; intros len Hlen.
  - assert (len = 0) as -> by lia. cbn [chunkSizes length].
    symmetry. apply Nat.div_small. lia.
  - destruct len as [|len].
    + cbn [chunkSizes length]. symmetry. apply Nat.div_small. lia.
    + cbn [chunkSizes length]. rewrite IH by lia.
      destruct (Nat.le_gt_cases n (S len)) as [Hge|Hlt].
      * replace (S len + n - 1) with ((S len - n + n - 1) + 1 * n) by lia.
        rewrite Nat.div_add by lia. lia.
      * replace (S len - n) with 0 by lia.
        replace (0 + n - 1) with (n - 1) by lia.
        rewrite (Nat.div_small (n - 1) n) by lia.
        apply (Nat.div_unique _ _ _ len); lia.
Qed.

Lemma requests_app (t1 t2 : list Event) :
  requests (t1 ++ t2) = requests t1 ++ requests t2.
Proof. unfold requests. apply flat_map_app. Qed.

Lemma rows_total (reqs : list (list NewContact * option string)) :
  rowsWritten reqs + rowsRejected reqs = length (concat (map fst reqs)).
Proof.
  induction reqs as [|[rows [message|]] reqs IH];
    cbn [rowsWritten rowsRejected map fst concat length];
    rewrite ?length_app; lia.
Qed.

Section with_backend.
Context {Store : Type} (supabase : Supabase Store).

(** The loop from index [i] writes the pieces of [skipn i validContacts],
    one request each, and books every piece as imported or skipped. *)
Lemma importLoop_requests user valid fuel :
  forall i store trace result store' trace' result',
    importLoop supabase user valid fuel i store trace result
    = (store', trace', result') ->
    exists new,
      requests trace' = requests trace ++ new
      /\ map fst new
         = map (map (toInsert user)) (chunksOf fuel batchSize (skipn i valid))
      /\ imported result' = imported result + rowsWritten new
      /\ skipped result' = skipped result + rowsRejected new
      /\ errors result' = (errors result ++ batchErrors (i / batchSize) new)%list
      /\ success result' = success result.
Proof.
  induction fuel as [|fuel IH]; intros i store trace result store' trace' result'.
  - cbn [importLoop]. intros [= <- <- <-]. exists [].
    cbn [rowsWritten rowsRejected batchErrors chunksOf map].
    rewrite !app_nil_r, !Nat.add_0_r. repeat split.
  - cbn [importLoop]. destruct (i <? length valid) eqn:Hi.
    + destruct (contacts_insert supabase store
                  (map (toInsert user) (slice i (i + batchSize) valid)))
        as [store1 error] eqn:Hins.
      intros Hrun. apply IH in Hrun as (new & Hreq & Hrows & Himp & Hskip & Herr & Hok).
      apply Nat.ltb_lt in Hi.
      assert (Hslice : slice i (i + batchSize) valid = firstn batchSize (skipn i valid)).
      { unfold slice. f_equal. lia. }
      assert (Hdrop : skipn batchSize (skipn i valid) = skipn (i + batchSize) valid).
      { apply drop_drop. }
      assert (Hcons : exists a rest, skipn i valid = a :: rest).
      { destruct (skipn i valid) as [|a rest] eqn:E; [|eauto].
        apply (f_equal length) in E. rewrite length_drop in E. cbn in E. lia. }
      destruct Hcons as (a & rest & Hcons).
      exists ((map (toInsert user) (slice i (i + batchSize) valid), error) :: new).
      rewrite Hreq, requests_app. cbn [requests flat_map app].
      rewrite <- app_assoc. cbn [app].
      split; [reflexivity|]. split.
      { cbn [map fst]. rewrite Hrows, Hslice, <- Hdrop.
        rewrite Hcons at 3. cbn [chunksOf]. rewrite <- Hcons. reflexivity. }
      assert (Hdiv : (i + batchSize) / batchSize = S (i / batchSize)).
      { replace (i + batchSize) with (i + 1 * batchSize) by lia.
        rewrite Nat.div_add by (unfold batchSize; lia). lia. }
      rewrite Hdiv in Herr.
      destruct error as [message|]; cbn [rowsWritten rowsRejected batchErrors];
        cbn [imported skipped errors success] in *;
        rewrite ?length_map; rewrite Himp, Hskip, Herr, Hok;
        rewrite <- ?app_assoc; cbn [app]; repeat split; lia.
    + intros [= <- <- <-]. exists [].
      apply Nat.ltb_ge in Hi. rewrite (drop_ge valid i) by exact Hi.
      cbn [rowsWritten rowsRejected batchErrors chunksOf map].
      rewrite !app_nil_r, !Nat.add_0_r. repeat split.
Qed.

(** What a run does once the user is known and some row has a name. *)
Lemma importContacts_requests contacts store user :
  auth_getUser supabase = Some user ->
  List.filter hasName contacts <> [] ->
  let valid := List.filter hasName contacts in
  let run := importContacts supabase contacts store in
  let reqs := requests run.1.2 in
  map fst reqs = map (map (toInsert user)) (chunksOf (length valid) batchSize valid)
  /\ imported run.2 = rowsWritten reqs
  /\ skipped run.2 = rowsRejected reqs + (length contacts - length valid)
  /\ errors run.2 = batchErrors 0 reqs
  /\ success run.2 = (if 0 <? length (errors run.2) then false else true).
Proof.
  intros Huser Hvalid. cbv zeta. unfold importContacts. rewrite Huser.
  destruct (length (List.filter hasName contacts) =? 0) eqn:Hlen.
  { apply Nat.eqb_eq in Hlen. destruct (List.filter hasName contacts);
      [contradiction | discriminate]. }
  destruct (importLoop supabase user (List.filter hasName contacts)
              (length (List.filter hasName contacts)) 0 store [] initialResult)
    as [[store' trace] result] eqn:Hrun.
  apply importLoop_requests in Hrun
    as (new & Hreq & Hrows & Himp & Hskip & Herr & Hok).
  cbn [requests flat_map app initialResult imported skipped errors success
       Nat.add Nat.div] in *.
  rewrite skipn_O in Hrows. change (0 / batchSize) with 0 in Herr.
  subst new.
  destruct (0 <? length (errors result)) eqn:Hany;
    cbn [fst snd imported skipped errors success]; rewrite ?Hany;
    repeat split; try assumption; try lia.
Qed.

(** C1.  Under an authenticated user and with at least one named row,
    [importContacts] sends the named rows in consecutive insert requests
    of 50 rows, the last one possibly smaller, and goes on after a failed
    request: the requests put end to end are the named rows, request [j]
    holds [min 50 (n - 50 j)] rows, and there are [ceil (n / 50)] of them
    whatever their outcomes.  [imported] counts the rows of the requests
    that succeeded, [skipped] those of the failed ones and the rows
    without a name, and there is one numbered message per failed request.
    With 120 named rows the requests hold 50, 50 and 20 rows; if the second
    one alone fails, [imported] is 70, [skipped] is 50 plus the rows
    without a name, the only message is the one of batch 2, and [success]
    is false. *)
Theorem importContacts_batches contacts store user :
  auth_getUser supabase = Some user ->
  List.filter hasName contacts <> [] ->
  let valid := List.filter hasName contacts in
  let run := importContacts supabase contacts store in
  let reqs := requests run.1.2 in
  let result := run.2 in
  concat (map fst reqs) = map (toInsert user) valid
  /\ (forall j rows,
        nth_error (map fst reqs) j = Some rows ->
        length rows = Nat.min batchSize (length valid - j * batchSize)
        /\ 0 < length rows)
  /\ length reqs = (length valid + 49) / 50
  /\ imported result = rowsWritten reqs
  /\ skipped result = rowsRejected reqs + (length contacts - length valid)
  /\ errors result = batchErrors 0 reqs
  /\ (length valid = 120 ->
      map (fun r => length r.1) reqs = [50; 50; 20]
      /\ forall message,
           map snd reqs = [None; Some message; None] ->
           imported result = 70
           /\ skipped result = 50 + (length contacts - 120)
           /\ errors result = ["Batch 2 failed: " +:+ message]
           /\ success result = false).
Proof.
  intros Huser Hvalid.
  pose proof (importContacts_requests contacts store user Huser Hvalid)
    as (Hrows & Himp & Hskip & Herr & Hok).
  cbv zeta in *.
  set (valid := List.filter hasName contacts) in *.
  set (run := importContacts supabase contacts store) in *.
  set (reqs := requests run.1.2) in *.
  assert (Hsizes : map length (map fst reqs)
                   = chunkSizes (length valid) batchSize (length valid)).
  { rewrite Hrows, map_map.
    rewrite <- (chunkSizes_of_chunks (length valid) batchSize valid).
    rewrite <- map_map. f_equal.
    rewrite map_map. apply map_ext. intros piece. apply length_map. }
  split.
  { rewrite Hrows, <- concat_map. f_equal.
    apply chunksOf_concat; [unfold batchSize; lia | reflexivity]. }
  split.
  { intros j rows Hj.
    apply (chunkSizes_nth (length valid) batchSize (length valid) j);
      [unfold batchSize; lia|].
    rewrite <- Hsizes, nth_error_map, Hj. reflexivity. }
  split.
  { rewrite <- (length_map fst reqs), <- (length_map length (map fst reqs)), Hsizes.
    rewrite chunkSizes_length by (unfold batchSize; lia).
    unfold batchSize. f_equal. lia. }
  repeat (split; [assumption|]).
  intros H120. rewrite H120 in Hsizes. rewrite map_map in Hsizes.
  split; [exact Hsizes|].
  intros message Hout. rewrite Himp, Hskip, Hok, Herr, H120. clear -Hsizes Hout.
  destruct reqs as [|[r1 o1] [|[r2 o2] [|[r3 o3] [|]]]]; try discriminate.
  cbn in Hsizes, Hout. injection Hsizes as H1 H2 H3.
  injection Hout as -> -> ->.
  cbn [rowsWritten rowsRejected batchErrors length Nat.add].
  rewrite H1, H2, H3. repeat split.
Qed.

(** C10.  Under an authenticated user and with at least one named row,
    every input row is counted once, as imported or as skipped, and
    [success] holds exactly when no error was recorded. *)
Theorem importContacts_accounts_for_every_row contacts store user :
  auth_getUser supabase = Some user ->
  List.filter hasName contacts <> [] ->
  let result := (importContacts supabase contacts store).2 in
  imported result + skipped result = length contacts
  /\ (success result = true <-> errors result = []).
Proof.
  intros Huser Hvalid.
  pose proof (importContacts_requests contacts store user Huser Hvalid)
    as (Hrows & Himp & Hskip & Herr & Hok).
  cbv zeta in *. split.
  - rewrite Himp, Hskip, Nat.add_assoc, rows_total, Hrows, <- concat_map,
      length_map, chunksOf_concat by (unfold batchSize; lia).
    pose proof (filter_length_le hasName contacts). lia.
  - rewrite Hok.
    destruct (errors (importContacts supabase contacts store).2); cbn;
      split; congruence.
Qed.

(** C9.  [importContacts] stops before any write in two cases, and in no
    other: without an authenticated user, and when no row has a name
    after trimming.  In both it returns a failure with [imported = 0] and
    its own message, it sends no insert request, and the store is the one
    it was given.  In every other case it sends a request. *)
Theorem importContacts_terminal_failures contacts store :
  (auth_getUser supabase = None ->
   importContacts supabase contacts store
   = (store, [],
      {| success := false; imported := 0; skipped := 0;
         errors := ["Not authenticated"] |}))
  /\ (forall user,
        auth_getUser supabase = Some user ->
        List.filter hasName contacts = [] ->
        importContacts supabase contacts store
        = (store, [],
           {| success := false; imported := 0; skipped := 0;
              errors := ["No valid contacts found (name is required)"] |}))
  /\ (forall user,
        auth_getUser supabase = Some user ->
        List.filter hasName contacts <> [] ->
        requests (importContacts supabase contacts store).1.2 <> []).
Proof.
  split; [|split].
  - intros Huser. unfold importContacts. now rewrite Huser.
  - intros user Huser Hnone. unfold importContacts. now rewrite Huser, Hnone.
  - intros user Huser Hvalid Hnil.
    pose proof (importContacts_requests contacts store user Huser Hvalid)
      as (Hrows & _).
    cbv zeta in Hrows. rewrite Hnil in Hrows.
    destruct (List.filter hasName contacts) as [|c valid]; [contradiction|].
    discriminate Hrows.
Qed.
End with_backend.

Lemma importContacts_batches_witness :
  auth_getUser Samples.secondRequestFails = Some {| id := "u1" |}
  /\ length (List.filter hasName Samples.rows120) = 120
  /\ (let result :=
        (importContacts Samples.secondRequestFails Samples.rows120 (0, 0)).2 in
      imported result = 70 /\ skipped result = 51
      /\ errors result = ["Batch 2 failed: connection reset"]
      /\ success result = false).
Proof.
  split; [reflexivity|]. split; [vm_compute; reflexivity|].
  pose proof (importContacts_batches Samples.secondRequestFails Samples.rows120
                (0, 0) {| id := "u1" |} eq_refl) as H.
  assert (Hvalid : List.filter hasName Samples.rows120 <> [])
    by (vm_compute; discriminate).
  destruct (H Hvalid) as (_ & _ & _ & _ & _ & _ & H120).
  destruct H120 as [_ Hsecond]; [vm_compute; reflexivity|].
  apply (Hsecond "connection reset"). vm_compute. reflexivity.
Defined.

Lemma importContacts_accounts_witness :
  auth_getUser Samples.secondRequestFails = Some {| id := "u1" |}
  /\ List.filter hasName Samples.rows120 <> []
  /\ (let result :=
        (importContacts Samples.secondRequestFails Samples.rows120 (0, 0)).2 in
      imported result + skipped result = 121
      /\ (success result = true <-> errors result = [])).
Proof.
  split; [reflexivity|].
  assert (Hvalid : List.filter hasName Samples.rows120 <> [])
    by (vm_compute; discriminate).
  split; [exact Hvalid|].
  exact (importContacts_accounts_for_every_row Samples.secondRequestFails
           Samples.rows120 (0, 0) {| id := "u1" |} eq_refl Hvalid).
Defined.

Lemma importContacts_terminal_witness :
  auth_getUser Samples.signedOut = None
  /\ importContacts Samples.signedOut Samples.rows120 (0, 0)
     = ((0, 0), [],
        {| success := false; imported := 0; skipped := 0;
           errors := ["Not authenticated"] |})
  /\ List.filter hasName [Samples.named "   "; Samples.named ""] = []
  /\ importContacts Samples.secondRequestFails
       [Samples.named "   "; Samples.named ""] (0, 0)
     = ((0, 0), [],
        {| success := false; imported := 0; skipped := 0;
           errors := ["No valid contacts found (name is required)"] |}).
Proof.
  split; [reflexivity|]. split.
  - exact (proj1 (importContacts_terminal_failures Samples.signedOut
                    Samples.rows120 (0, 0)) eq_refl).
  - split; [reflexivity|].
    exact (proj1 (proj2 (importContacts_terminal_failures
                           Samples.secondRequestFails
                           [Samples.named "   "; Samples.named ""] (0, 0)))
             {| id := "u1" |} eq_refl eq_refl).
Defined.

(** The progress of the import of 120 named rows: 42, 83 and 100 percent. *)
Example importContacts_progress :
  omap (fun e => match e with
                 | Progress _ percent => Some percent
                 | Insert _ _ => None
                 end)
    (importContacts Samples.secondRequestFails Samples.rows120 (0, 0)).1.2
  = [42; 83; 100]%float.
Proof. vm_compute. reflexivity. Qed.

End WriterFacts.

(** ** Sheet discovery and selection *)

Module SheetFacts.
Import Js ImportLib ExcelImport Spec.

Local Open Scope nat_scope.
Local Open Scope list_scope.

Lemma filter_andb {A : Type} (p q : A -> bool) (l : list A) :
  List.filter p (List.filter q l) = List.filter (fun x => q x && p x) l.
Proof.
  induction l as [|x l IH]; [reflexivity|]. cbn [List.filter].
  destruct (q x); cbn [List.filter andb]; [destruct (p x)|]; now rewrite IH.
Qed.

Lemma fold_left_app_flat_map {A B : Type} (f : A -> list B) (l : list A) acc :
  fold_left (fun acc x => acc ++ f x) l acc = acc ++ flat_map f l.
Proof.
  revert acc. induction l as [|x l IH]; intros acc; cbn [fold_left flat_map].
  - now rewrite app_nil_r.
  - now rewrite IH, app_assoc.
Qed.

Lemma length_flat_map_sum {A B : Type} (f : A -> list B) (l : list A) :
  length (flat_map f l) = list_sum (map (fun x => length (f x)) l).
Proof.
  induction l as [|x l IH]; [reflexivity|].
  cbn [flat_map map list_sum]. now rewrite length_app, IH.
Qed.

Lemma map_flat_map {A B C : Type} (g : B -> C) (f : A -> list B) (l : list A) :
  map g (flat_map f l) = flat_map (fun x => map g (f x)) l.
Proof.
  induction l as [|x l IH]; [reflexivity|].
  cbn [flat_map]. now rewrite map_app, IH.
Qed.

Lemma sheetInfos_spec (workbook : Workbook) :
  sheetInfos workbook
  = map (fun name =>
           {| sheetName := name;
              rowCount := length (sheet_to_json (Sheets workbook !! name) false) |})
      (List.filter (qualifies workbook) (SheetNames workbook)).
Proof.
  unfold sheetInfos, qualifies. rewrite filter_map_swap. cbn [rowCount].
  now rewrite filter_andb.
Qed.

Section with_host.
Context `{Host}.

Section with_workbook.
Variable workbook : Workbook.

(** The two readings of a sheet have the same rows, cell values apart,
    and no sheet has an empty name. *)
Hypothesis same_rows :
  forall name,
    length (sheet_to_json (Sheets workbook !! name) true)
    = length (sheet_to_json (Sheets workbook !! name) false).
Hypothesis named_sheets :
  forall name, In name (SheetNames workbook) -> isEmpty name = false.

Lemma parseAllSheets_spec file :
  content file = Parsed workbook ->
  parseAllSheets file
  = Fulfilled
      (map (fun name => (name, sheet_to_json (Sheets workbook !! name) true))
         (List.filter (qualifies workbook) (SheetNames workbook))).
Proof.
  intros Hfile. unfold parseAllSheets, readWorkbook. rewrite Hfile. f_equal.
  rewrite filter_map_swap, filter_andb. f_equal. cbn [snd].
  apply filter_ext. intros name. unfold qualifies. now rewrite same_rows.
Qed.

Lemma parseExcelFile_named file name :
  content file = Parsed workbook ->
  isEmpty name = false ->
  parseExcelFile file (Some name)
  = Fulfilled (sheet_to_json (Sheets workbook !! name) true).
Proof.
  intros Hfile Hname. unfold parseExcelFile, readWorkbook.
  now rewrite Hfile, Hname.
Qed.

(** C8.  For an uploaded workbook, [getExcelSheets] returns, in workbook
    order and with their row counts, the sheets whose lower-cased name is
    not "definitions" and that have a row.  If there is exactly one, the
    dialog parses it and shows the preview at once; if there are several,
    it asks, with all of them selected.  On confirmation the preview is
    the rows of the selected sheets, sheet after sheet: its size is the
    sum of their row counts, and the details of every contact begin with
    the marker of the sheet the contact comes from. *)
Theorem sheet_discovery_and_selection (uploaded : File) :
  content uploaded = Parsed workbook ->
  isExcel uploaded = true ->
  let names := List.filter (qualifies workbook) (SheetNames workbook) in
  let rows name := sheet_to_json (Sheets workbook !! name) true in
  getExcelSheets uploaded
  = Fulfilled
      (map (fun name =>
              {| sheetName := name;
                 rowCount := length (sheet_to_json (Sheets workbook !! name) false) |})
         names)
  /\ (forall st only,
        names = [only] ->
        let st' := handleFileSelect (Some uploaded) st in
        step st' = preview
        /\ previewData st' = mapToContacts (rows only) None
        /\ length (previewData st')
           = length (sheet_to_json (Sheets workbook !! only) false))
  /\ (forall st,
        2 <= length names ->
        let st' := handleFileSelect (Some uploaded) st in
        step st' = select_sheets
        /\ file st' = Some uploaded
        /\ sheets st' = sheetInfos workbook
        /\ selectedSheets st' = names)
  /\ (forall st,
        file st = Some uploaded ->
        selectedSheets st <> [] ->
        let st' := handleSheetsConfirm st in
        let chosen :=
          List.filter (fun s => includes (selectedSheets st) (sheetName s))
            (sheetInfos workbook) in
        step st' = preview
        /\ previewData st'
           = flat_map (fun s => mapToContacts (rows (sheetName s)) (Some (sheetName s)))
               chosen
        /\ length (previewData st') = list_sum (map rowCount chosen)
        /\ map details (previewData st')
           = flat_map
               (fun s =>
                  map (fun row =>
                         Some (join (String "010" "")
                                 (("[" +:+ sheetName s +:+ "]") :: noteFragments row)))
                    (rows (sheetName s)))
               chosen).
Proof.
  intros Hfile Hexcel. cbv zeta.
  assert (Hsheets : getExcelSheets uploaded = Fulfilled (sheetInfos workbook)).
  { unfold getExcelSheets, readWorkbook. now rewrite Hfile. }
  split; [now rewrite Hsheets, sheetInfos_spec|].
  split; [|split].
  - intros st only Hone. unfold handleFileSelect.
    rewrite Hexcel, Hsheets, sheetInfos_spec, Hone. cbn [negb map sheetName].
    rewrite parseExcelFile_named; [|exact Hfile|].
    + cbn [step previewData setStep setPreviewData].
      repeat split. unfold mapToContacts. now rewrite length_map, same_rows.
    + apply named_sheets.
      assert (Hin : In only (List.filter (qualifies workbook) (SheetNames workbook)))
        by (rewrite Hone; now left).
      now apply filter_In in Hin.
  - intros st Hmany. unfold handleFileSelect.
    rewrite Hexcel, Hsheets. cbn [negb].
    pose proof (sheetInfos_spec workbook) as Hinfos.
    destruct (List.filter (qualifies workbook) (SheetNames workbook))
      as [|n1 [|n2 names]] eqn:Hnames; cbn [length] in Hmany; try lia.
    cbn [map] in Hinfos.
    destruct (sheetInfos workbook) as [|i1 [|i2 infos]] eqn:E; try discriminate.
    cbn [step file sheets selectedSheets setStep setSelectedSheets setSheets
         setFile setError].
    repeat split.
    rewrite Hinfos. cbn [map sheetName]. rewrite map_map. cbn [sheetName].
    now rewrite map_id.
  - intros st Hst Hsel. unfold handleSheetsConfirm. rewrite Hst.
    destruct (selectedSheets st) as [|s0 sel] eqn:Esel; [contradiction|].
    rewrite (parseAllSheets_spec uploaded Hfile).
    cbn [step previewData setStep setPreviewData setError selectedSheets].
    rewrite Esel.
    rewrite (fold_left_app_flat_map
               (fun s => mapToContacts s.2 (Some s.1))). cbn [app].
    rewrite sheetInfos_spec, !filter_map_swap. cbn [fst sheetName].
    set (picked := List.filter (fun name => includes (s0 :: sel) name)
                     (List.filter (qualifies workbook) (SheetNames workbook))).
    assert (Hpreview :
      flat_map (fun s : string * list RawRow => mapToContacts s.2 (Some s.1))
        (map (fun name => (name, sheet_to_json (Sheets workbook !! name) true)) picked)
      = flat_map
          (fun s => mapToContacts (sheet_to_json (Sheets workbook !! sheetName s) true)
                      (Some (sheetName s)))
          (map (fun name =>
                  {| sheetName := name;
                     rowCount := length (sheet_to_json (Sheets workbook !! name) false) |})
             picked)).
    { rewrite !flat_map_concat_map, !map_map. reflexivity. }
    rewrite Hpreview. split; [reflexivity|]. split; [reflexivity|]. split.
    + rewrite length_flat_map_sum, !map_map. f_equal. apply map_ext.
      intros name. cbn [sheetName rowCount]. unfold mapToContacts.
      now rewrite length_map, same_rows.
    + rewrite map_flat_map. rewrite !flat_map_concat_map, !map_map. f_equal.
      apply map_ext_in. intros name Hin. cbn [sheetName].
      unfold mapToContacts. rewrite map_map. apply map_ext. intros row.
      rewrite MapperFacts.mapRow_details.
      assert (isEmpty name = false) as ->; [|reflexivity].
      apply named_sheets. unfold picked in Hin.
      apply filter_In in Hin as [Hin _]. now apply filter_In in Hin.
Qed.
End with_workbook.
End with_host.

Lemma sheet_discovery_witness :
  let file := Samples.upload Samples.book in
  let confirmed :=
    @handleSheetsConfirm Reference.utc
      (handleSheetToggle "Banks"
         (@handleFileSelect Reference.utc (Some file) initialState)) in
  getExcelSheets file
  = Fulfilled
      [ {| sheetName := "Funds"; rowCount := 2 |};
        {| sheetName := "Banks"; rowCount := 1 |};
        {| sheetName := "Family"; rowCount := 1 |} ]
  /\ step confirmed = preview
  /\ length (previewData confirmed) = 3
  /\ map details (previewData confirmed)
     = [Some "[Funds]"; Some (join (String "010" "") ["[Funds]"; "met in May"]);
        Some "[Family]"]
  /\ step (@handleFileSelect Reference.utc
             (Some (Samples.upload Samples.singleBook)) initialState) = preview.
Proof.
  cbv zeta.
  assert (Hsame : forall name,
            length (sheet_to_json (Sheets Samples.book !! name) true)
            = length (sheet_to_json (Sheets Samples.book !! name) false)).
  { intros name. destruct (Sheets Samples.book !! name) as [sheet|] eqn:E;
      [|reflexivity].
    apply (elem_of_list_to_map_2 (M := gmap string)) in E.
    rewrite !elem_of_cons, elem_of_nil in E.
    destruct E as [E|[E|[E|[E|[E|[]]]]]]; injection E as _ ->; reflexivity. }
  assert (Hnamed : forall name,
            In name (SheetNames Samples.book) -> isEmpty name = false).
  { intros name Hin. cbn in Hin.
    repeat (destruct Hin as [<-|Hin]; [reflexivity|]). contradiction. }
  pose proof (@sheet_discovery_and_selection Reference.utc Samples.book Hsame Hnamed
                (Samples.upload Samples.book) eq_refl eq_refl)
    as (Hlist & _ & Hask & Hconfirm).
  split; [rewrite Hlist; vm_compute; reflexivity|].
  specialize (Hask initialState). cbv zeta in Hask.
  destruct Hask as (_ & Hfile & _ & _); [vm_compute; lia|].
  specialize (Hconfirm
    (handleSheetToggle "Banks"
       (@handleFileSelect Reference.utc (Some (Samples.upload Samples.book))
          initialState))).
  cbv zeta in Hconfirm.
  destruct Hconfirm as (Hstep & _ & Hlen & Hdetails);
    [exact Hfile | vm_compute; discriminate |].
  split; [exact Hstep|]. split; [rewrite Hlen; vm_compute; reflexivity|].
  split; [rewrite Hdetails; vm_compute; reflexivity|].
  vm_compute. reflexivity.
Defined.

End SheetFacts.

(** ** The archive *)

Module ExportFacts.
Import Js ExportLib ArchiveSpec.

Local Open Scope nat_scope.
Local Open Scope list_scope.

(** C2.  With three contacts of which only the third has a file, the
    percent handed to the progress callback while that file is fetched is
    [30 + (2 * 1 + 0) / 1 * 60 = 150], and the next one is 95: the sweep
    multiplies the index of the contact by the number of its own files
    instead of counting the files fetched so far. *)
Theorem exportAllData_progress_overshoots (host : Host) :
  map percentOf (exportAllData Samples.thirdHasOneFile).1
  = [5; 15; 25; 150; 95; 100]%float.
Proof. vm_compute. reflexivity. Qed.

(** *** Grouping *)

Lemma groupAttachments_lookup (attachments : list Attachment) (key : string) :
  default [] (groupAttachments attachments !! key)
  = List.filter (fun a => String.eqb (contact_id a) key) attachments.
Proof.
  unfold groupAttachments.
  enough (Hgen : forall m : gmap string (list Attachment),
            default []
              (fold_left
                 (fun m attachment =>
                    <[contact_id attachment :=
                        default [] (m !! contact_id attachment) ++ [attachment]]> m)
                 attachments m !! key)
            = default [] (m !! key)
              ++ List.filter (fun a => String.eqb (contact_id a) key) attachments).
  { rewrite Hgen, lookup_empty. reflexivity. }
  induction attachments as [|a attachments IH]; intros m; cbn [fold_left List.filter].
  - now rewrite app_nil_r.
  - rewrite IH. destruct (String.eqb (contact_id a) key) eqn:E.
    + apply String.eqb_eq in E. subst key.
      rewrite lookup_insert_eq. unfold default, from_option, Datatypes.id.
      now rewrite <- app_assoc.
    + apply String.eqb_neq in E. now rewrite lookup_insert_ne.
Qed.

Lemma withAttachments_spec (attachments : list Attachment) (contacts : list Contact) :
  withAttachments attachments contacts = map (paired attachments) contacts.
Proof.
  unfold withAttachments, paired, attachmentsOf. apply map_ext. intros contact.
  now rewrite groupAttachments_lookup.
Qed.


(** *** Writing entries *)

Lemma put_all_other (entries : list (list string * ZipEntry)) (zip : JSZip) path :
  ~ In path (map fst entries) -> fold_left put entries zip !! path = zip !! path.
Proof.
  revert zip. induction entries as [|entry entries IH]; intros zip Hnot;
    [reflexivity|].
  cbn [fold_left]. cbn [map In] in Hnot.
  rewrite IH by tauto. unfold put. rewrite lookup_insert_ne; [reflexivity|tauto].
Qed.




(** *** Folders *)

Lemma zip_folder_root (root : list string) (name : string) (zip : JSZip) :
  (zip_folder root name zip).2 = if isEmpty name then root else root ++ [name].
Proof.
  unfold zip_folder. destruct (isEmpty name); [reflexivity|].
  destruct (zip !! ((root ++ [name]) ++ [""])); reflexivity.
Qed.

Lemma zip_folder_other (root : list string) (name : string) (zip : JSZip) path :
  path <> (root ++ [name]) ++ [""] ->
  (zip_folder root name zip).1 !! path = zip !! path.
Proof.
  intros Hpath. unfold zip_folder. destruct (isEmpty name); [reflexivity|].
  destruct (zip !! ((root ++ [name]) ++ [""])); [reflexivity|]. cbn [fst].
  apply lookup_insert_ne. congruence.
Qed.

Lemma zip_folder_dir (root : list string) (name : string) (zip : JSZip) :
  isEmpty name = false ->
  (zip_folder root name zip).1 !! ((root ++ [name]) ++ [""])
  = Some (default Dir (zip !! ((root ++ [name]) ++ [""]))).
Proof.
  intros Hname. unfold zip_folder. rewrite Hname.
  destruct (zip !! ((root ++ [name]) ++ [""])) as [entry|] eqn:E; cbn [fst].
  - exact E.
  - apply lookup_insert_eq.
Qed.

Lemma zip_folder_grows (root : list string) (name : string) (zip : JSZip) path :
  is_Some (zip !! path) -> is_Some ((zip_folder root name zip).1 !! path).
Proof.
  intros Hsome. unfold zip_folder. destruct (isEmpty name); [exact Hsome|].
  destruct (zip !! ((root ++ [name]) ++ [""])); [exact Hsome|]. cbn [fst].
  apply lookup_insert_is_Some'. now right.
Qed.

(** *** The files of a folder *)








Section with_collaborator.
Context `{Host} (supabase : Supabase).

(** *** The inner loop *)

Lemma downloadLoop_zip total i contact n folder attachments :
  forall j zip trace,
    (downloadLoop supabase total i contact n folder j attachments zip trace).1
    = fold_left put (fileEntries supabase folder attachments) zip.
Proof.
  unfold fileEntries, downloaded.
  induction attachments as [|a attachments IH]; intros j zip trace;
    [reflexivity|].
  cbn [downloadLoop flat_map]. rewrite IH, map_app, fold_left_app.
  destruct (storage_download supabase (file_path a)); reflexivity.
Qed.


Lemma downloadLoop_elsewhere total i contact n folder attachments j zip trace path :
  (forall child, path <> folder ++ [child]) ->
  (downloadLoop supabase total i contact n folder j attachments zip trace).1 !! path
  = zip !! path.
Proof.
  intros Hpath. rewrite downloadLoop_zip. apply put_all_other.
  unfold fileEntries. rewrite map_map. cbn [fst].
  intros (f & Heq & _)%in_map_iff. now apply (Hpath f.1).
Qed.

Lemma downloadLoop_grows total i contact n folder attachments path :
  forall j zip trace,
    is_Some (zip !! path) ->
    is_Some
      ((downloadLoop supabase total i contact n folder j attachments zip trace).1
         !! path).
Proof.
  induction attachments as [|a attachments IH]; intros j zip trace Hsome;
    cbn [downloadLoop]; [exact Hsome|].
  apply IH. destruct (storage_download supabase (file_path a)); try exact Hsome.
  unfold zip_file. apply lookup_insert_is_Some'. now right.
Qed.



(** *** The outer loop, one contact at a time *)

Lemma contactsLoop_cons total folder i c rest zip trace :
  contactsLoop supabase total folder i (c :: rest) zip trace
  = contactsLoop supabase total folder (S i) rest
      (contactsLoop supabase total folder i [c] zip trace).1
      (contactsLoop supabase total folder i [c] zip trace).2.
Proof.
  destruct c as [contact attachments]. cbn [contactsLoop].
  destruct (0 <? length attachments); [|reflexivity].
  destruct (zip_folder folder (sanitizeName (name contact)) zip) as [zip0 root].
  destruct (downloadLoop _ _ _ _ _ _ _ _ _ _); reflexivity.
Qed.

Lemma contactsLoop_one total folder i contact attachments zip trace :
  contactsLoop supabase total folder i [(contact, attachments)] zip trace
  = if 0 <? length attachments then
      downloadLoop supabase total i contact (length attachments)
        (zip_folder folder (sanitizeName (name contact)) zip).2 0 attachments
        (zip_folder folder (sanitizeName (name contact)) zip).1 trace
    else (zip, trace).
Proof.
  cbn [contactsLoop]. destruct (0 <? length attachments); [|reflexivity].
  destruct (zip_folder folder (sanitizeName (name contact)) zip) as [zip0 root].
  cbn [fst snd]. destruct (downloadLoop _ _ _ _ _ _ _ _ _ _); reflexivity.
Qed.

(** Nothing is written above the folder of the loop. *)
Lemma contactsLoop_above total folder (rest : list ContactWithAttachments) path :
  length path <= length folder ->
  forall i zip trace,
    (contactsLoop supabase total folder i rest zip trace).1 !! path = zip !! path.
Proof.
  intros Hshort. induction rest as [|[contact attachments] rest IH];
    intros i zip trace; [reflexivity|].
  rewrite contactsLoop_cons, IH, contactsLoop_one.
  destruct (0 <? length attachments); [|reflexivity].
  rewrite downloadLoop_elsewhere.
  - apply zip_folder_other. intros ->. rewrite !length_app in Hshort.
    cbn in Hshort. lia.
  - intros child ->. rewrite zip_folder_root, length_app in Hshort.
    destruct (isEmpty _); rewrite ?length_app in Hshort; cbn in Hshort; lia.
Qed.

(** No entry is ever removed. *)
Lemma contactsLoop_grows total folder (rest : list ContactWithAttachments) path :
  forall i zip trace,
    is_Some (zip !! path) ->
    is_Some ((contactsLoop supabase total folder i rest zip trace).1 !! path).
Proof.
  induction rest as [|[contact attachments] rest IH]; intros i zip trace Hsome;
    [exact Hsome|].
  rewrite contactsLoop_cons. apply IH. rewrite contactsLoop_one.
  destruct (0 <? length attachments); [|exact Hsome].
  now apply downloadLoop_grows, zip_folder_grows.
Qed.





(** *** The run *)

(** The archive of a run that writes the workbook. *)
Lemma exportAllData_sweeps contact contacts excelBlob :
  error (contacts_select supabase) = None ->
  data (contacts_select supabase) = Some (contact :: contacts) ->
  error (attachments_select supabase) = None ->
  let attachments := default [] (data (attachments_select supabase)) in
  let cs := map (paired attachments) (contact :: contacts) in
  generateExcel cs = Fulfilled excelBlob ->
  let base := zip_file [] "Contacts.xlsx" excelBlob ∅ in
  (exportAllData supabase).2
  = Fulfilled
      ("IR_CRM_Backup_" +:+ beforeT (now_toISOString supabase) +:+ ".zip",
       if 0 <? length attachments
       then (contactsLoop supabase (length attachments) ["Attachments"] 0 cs
               (zip_folder [] "Attachments" base).1
               [ Progress "Fetching contacts..." 5;
                 Progress "Fetching attachments info..." 15;
                 Progress "Generating Excel file..." 25 ]).1
       else base).
Proof.
  intros Hok Hdata Hok'. cbv zeta. intros Hgen.
  unfold exportAllData. rewrite Hok, Hdata, Hok'.
  rewrite withAttachments_spec, Hgen.
  destruct (0 <? length (default [] (data (attachments_select supabase))));
    [|reflexivity].
  pose proof (zip_folder_root [] "Attachments"
                (zip_file [] "Contacts.xlsx" excelBlob ∅)) as Hroot.
  destruct (zip_folder [] "Attachments" (zip_file [] "Contacts.xlsx" excelBlob ∅))
    as [zip0 root].
  cbn in Hroot. subst root. cbn [fst].
  destruct (contactsLoop _ _ _ _ _ _ _) as [zip trace]. reflexivity.
Qed.

(** The archive before the sweep holds the workbook and the folder of the
    attachments, and nothing else. *)
Lemma base_lookup (excelBlob : Blob) path :
  (zip_folder [] "Attachments" (zip_file [] "Contacts.xlsx" excelBlob ∅)).1 !! path
  = if decide (path = ["Contacts.xlsx"]) then Some (FileEntry excelBlob)
    else if decide (path = ["Attachments"; ""]) then Some Dir
    else None.
Proof.
  destruct (decide (path = ["Attachments"; ""])) as [->|Hdir].
  - rewrite (zip_folder_dir [] "Attachments") by reflexivity.
    unfold zip_file. cbn [app]. rewrite lookup_insert_ne by discriminate.
    rewrite lookup_empty. destruct (decide _); [discriminate | reflexivity].
  - rewrite zip_folder_other by exact Hdir. unfold zip_file. cbn [app].
    destruct (decide (path = ["Contacts.xlsx"])) as [->|Hbook].
    + apply lookup_insert_eq.
    + rewrite lookup_insert_ne by congruence. apply lookup_empty.
Qed.

Lemma generateExcel_writable attachments contacts :
  writable (sheetRows attachments contacts) = true ->
  generateExcel (map (paired attachments) contacts)
  = Fulfilled (Xlsx "Contacts" (sheetRows attachments contacts)).
Proof.
  intros Hfits. unfold generateExcel, XLSX_write.
  fold (sheetRows attachments contacts). now rewrite Hfits.
Qed.

Lemma generateExcel_thrown attachments contacts :
  writable (sheetRows attachments contacts) = false ->
  generateExcel (map (paired attachments) contacts)
  = Rejected "Text length must not exceed 32767 characters".
Proof.
  intros Hfits. unfold generateExcel, XLSX_write.
  fold (sheetRows attachments contacts). now rewrite Hfits.
Qed.


End with_collaborator.



End ExportFacts.

(** ** Names and headers *)

Module TextFacts.
Import Js ImportLib ExportLib Spec.

Lemma trimStart_head (s : string) :
  match trimStart s with
  | String c _ => isWhiteSpace c = false
  | EmptyString => True
  end.
Proof.
  induction s as [|c s IH]; cbn; [exact I|].
  destruct (isWhiteSpace c) eqn:E; [exact IH | exact E].
Qed.

Lemma trimEnd_idem (s : string) : trimEnd (trimEnd s) = trimEnd s.
Proof.
  induction s as [|c s IH]; cbn; [reflexivity|].
  destruct (isWhiteSpace c && isEmpty (trimEnd s)) eqn:E; [reflexivity|].
  cbn. rewrite IH, E. reflexivity.
Qed.

Lemma trimStart_trimEnd (s : string) :
  match s with String c _ => isWhiteSpace c = false | EmptyString => True end ->
  trimStart (trimEnd s) = trimEnd s.
Proof.
  destruct s as [|c s]; cbn; [reflexivity|].
  intros E. rewrite E. cbn. rewrite E. reflexivity.
Qed.

Lemma trim_idem (s : string) : trim (trim s) = trim s.
Proof.
  unfold trim.
  rewrite (trimStart_trimEnd (trimStart s) (trimStart_head s)).
  apply trimEnd_idem.
Qed.

Lemma length_trimStart (s : string) :
  (String.length (trimStart s) <= String.length s)%nat.
Proof.
  induction s as [|c s IH]; cbn; [lia|].
  destruct (isWhiteSpace c); cbn; lia.
Qed.

Lemma length_trimEnd (s : string) :
  (String.length (trimEnd s) <= String.length s)%nat.
Proof.
  induction s as [|c s IH]; cbn; [lia|].
  destruct (isWhiteSpace c && isEmpty (trimEnd s)); cbn; lia.
Qed.

Lemma length_replaceClass p r (s : string) :
  String.length (replaceClass p r s) = String.length s.
Proof. induction s as [|c s IH]; cbn; [reflexivity | now rewrite IH]. Qed.

Lemma replaceClass_clean p r (s : string) :
  p r = false -> allChars (fun c => negb (p c)) (replaceClass p r s) = true.
Proof.
  intros Hr. induction s as [|c s IH]; cbn; [reflexivity|].
  rewrite IH, andb_true_r. destruct (p c) eqn:E; [now rewrite Hr | now rewrite E].
Qed.

Lemma replaceClass_id p r (s : string) :
  allChars (fun c => negb (p c)) s = true -> replaceClass p r s = s.
Proof.
  induction s as [|c s IH]; cbn; [reflexivity|].
  intros [Hc Hs]%andb_prop. rewrite (IH Hs).
  apply negb_true_iff in Hc. now rewrite Hc.
Qed.

(** X1.  A sanitized name holds none of the nine characters of the class,
    in particular no slash and no backslash, so it is a single path
    segment; it has no white space at either end; sanitizing it again
    changes nothing; and it is never longer than the name it comes
    from. *)
Theorem sanitizeName_safe (name : string) :
  allChars (fun c => negb (isIllegal c)) (sanitizeName name) = true
  /\ trim (sanitizeName name) = sanitizeName name
  /\ sanitizeName (sanitizeName name) = sanitizeName name
  /\ (String.length (sanitizeName name) <= String.length name)%nat.
Proof.
  assert (Hclean : allChars (fun c => negb (isIllegal c)) (sanitizeName name) = true).
  { unfold sanitizeName, trim.
    apply MapperFacts.allChars_trimEnd, MapperFacts.allChars_trimStart.
    now apply replaceClass_clean. }
  split; [exact Hclean|].
  split; [apply trim_idem|].
  split.
  - unfold sanitizeName at 1. rewrite (replaceClass_id _ _ _ Hclean).
    apply trim_idem.
  - unfold sanitizeName, trim.
    pose proof (length_trimEnd (trimStart (replaceClass isIllegal "_" name))).
    pose proof (length_trimStart (replaceClass isIllegal "_" name)).
    pose proof (length_replaceClass isIllegal "_"%char name). lia.
Qed.

Lemma deleteClass_trimStart p (s : string) :
  (forall c, isWhiteSpace c = true -> p c = true) ->
  deleteClass p (trimStart s) = deleteClass p s.
Proof.
  intros Hp. induction s as [|c s IH]; cbn; [reflexivity|].
  destruct (isWhiteSpace c) eqn:E; [|reflexivity].
  now rewrite (Hp c E).
Qed.

Lemma deleteClass_trimEnd p (s : string) :
  (forall c, isWhiteSpace c = true -> p c = true) ->
  deleteClass p (trimEnd s) = deleteClass p s.
Proof.
  intros Hp. induction s as [|c s IH]; cbn; [reflexivity|].
  destruct (isWhiteSpace c && isEmpty (trimEnd s)) eqn:E.
  - apply andb_prop in E as [Hc He]. rewrite (Hp c Hc), <- IH.
    destruct (trimEnd s); [reflexivity | discriminate].
  - cbn. now rewrite IH.
Qed.

Lemma deleteClass_app p (a b : string) :
  deleteClass p (a +:+ b) = deleteClass p a +:+ deleteClass p b.
Proof.
  induction a as [|c a IH]; simpl; [reflexivity|].
  destruct (p c); simpl; now rewrite IH.
Qed.

Lemma toLowerCase_app (a b : string) :
  toLowerCase (a +:+ b) = toLowerCase a +:+ toLowerCase b.
Proof. induction a as [|c a IH]; simpl; [reflexivity | now rewrite IH]. Qed.

Lemma isUnderscoreOrSpace_lowerChar (c : ascii) :
  isUnderscoreOrSpace (lowerChar c) = isUnderscoreOrSpace c.
Proof. destruct c as [[] [] [] [] [] [] [] []]; reflexivity. Qed.

Lemma normalizeColumnName_eq (header : string) :
  normalizeColumnName header = deleteClass isUnderscoreOrSpace (toLowerCase header).
Proof.
  unfold normalizeColumnName, trim.
  assert (Hp : forall c, isWhiteSpace c = true -> isUnderscoreOrSpace c = true).
  { intros c Hc. unfold isUnderscoreOrSpace. rewrite Hc. apply orb_true_r. }
  now rewrite deleteClass_trimEnd, deleteClass_trimStart.
Qed.

Lemma toLowerCase_deleteClass (s : string) :
  deleteClass isUnderscoreOrSpace (toLowerCase (deleteClass isUnderscoreOrSpace s))
  = deleteClass isUnderscoreOrSpace (toLowerCase s).
Proof.
  induction s as [|c s IH]; cbn; [reflexivity|].
  rewrite isUnderscoreOrSpace_lowerChar.
  destruct (isUnderscoreOrSpace c) eqn:E; [exact IH|].
  cbn. rewrite isUnderscoreOrSpace_lowerChar, E, IH. reflexivity.
Qed.

(** X2.  For the headers of this development, strings of code units
    below 256, on which lower-casing works character by character: the
    normalized header is the lower-cased header without its underscores
    and white space, the [trim] of the source adding nothing.  So neither
    the case of such a header nor the underscores and spaces anywhere in
    it play a part in the lookup, normalization goes through
    concatenation, and a normalized key holds no upper-case letter, no
    underscore and no white space.  (Beyond that range the third and the
    fourth law fail: the lower case of a capital sigma depends on the
    characters around it.) *)
Theorem normalizeColumnName_insensitive :
  (forall header,
     normalizeColumnName header
     = deleteClass isUnderscoreOrSpace (toLowerCase header))
  /\ (forall header,
        normalizeColumnName (toLowerCase header) = normalizeColumnName header)
  /\ (forall header,
        normalizeColumnName (deleteClass isUnderscoreOrSpace header)
        = normalizeColumnName header)
  /\ (forall a b,
        normalizeColumnName (a +:+ b)
        = normalizeColumnName a +:+ normalizeColumnName b)
  /\ (forall header,
        allChars (fun c => negb (isUnderscoreOrSpace c) && negb (isUpper c))
          (normalizeColumnName header) = true).
Proof.
  split; [exact normalizeColumnName_eq|].
  split.
  { intros header. rewrite !normalizeColumnName_eq.
    now rewrite MapperFacts.toLowerCase_idem. }
  split.
  { intros header. rewrite !normalizeColumnName_eq. apply toLowerCase_deleteClass. }
  split.
  { intros a b. rewrite !normalizeColumnName_eq, toLowerCase_app.
    apply deleteClass_app. }
  intros header. rewrite normalizeColumnName_eq.
  induction header as [|c s IH]; cbn; [reflexivity|].
  destruct (isUnderscoreOrSpace (lowerChar c)) eqn:E; [exact IH|].
  cbn. rewrite E, IH, andb_true_r. cbn.
  clear. destruct c as [[] [] [] [] [] [] [] []]; reflexivity.
Qed.

End TextFacts.

(** ** The columns of a row *)

Module ColumnFacts.
Import Js ImportLib Spec MapperSpec.

(** X3.  Every key of [columnMappings] is in normal form, so some header
    reaches it, and none of them is an extra note column as well: the two
    branches of the mapper never compete for a header. *)
Theorem columnMappings_keys_are_normalized (key : string) (f : field) :
  columnMappings !! key = Some f ->
  normalizeColumnName key = key
  /\ includes extraNotesColumns key = false.
Proof.
  unfold columnMappings. intros Hkey.
  apply elem_of_list_to_map_2 in Hkey.
  repeat (apply elem_of_cons in Hkey as [Hkey|Hkey];
          [injection Hkey as -> _; split; reflexivity|]).
  now apply elem_of_nil in Hkey.
Qed.

Lemma columnMappings_keys_witness :
  columnMappings !! "lastcontactdate" = Some Flast_interaction_date
  /\ normalizeColumnName "lastcontactdate" = "lastcontactdate"
  /\ includes extraNotesColumns "lastcontactdate" = false.
Proof.
  split; [reflexivity|].
  apply (columnMappings_keys_are_normalized "lastcontactdate" Flast_interaction_date).
  reflexivity.
Defined.

Section with_host.
Context `{Host}.

Lemma mapEntry_not_read st entry : isRead entry = false -> mapEntry st entry = st.
Proof.
  destruct st as [contact notes], entry as [key value].
  unfold isRead, mapEntry. cbn [fst snd].
  destruct (truthy value); cbn [negb andb]; [|reflexivity].
  intros [Hmap Hextra]%orb_false_elim. rewrite Hextra.
  apply bool_decide_eq_false in Hmap.
  destruct (columnMappings !! normalizeColumnName key) as [f|]; [|reflexivity].
  exfalso. apply Hmap. now exists f.
Qed.

Lemma fold_mapEntry_filter (row : RawRow) :
  forall st,
    fold_left mapEntry (List.filter isRead row) st = fold_left mapEntry row st.
Proof.
  induction row as [|entry row IH]; intros st; cbn [List.filter fold_left];
    [reflexivity|].
  destruct (isRead entry) eqn:E; cbn [fold_left].
  - apply IH.
  - rewrite (mapEntry_not_read st entry E). apply IH.
Qed.

(** X4.  Cells without a value, and cells under a header that is neither
    a known column nor an extra note column, leave no trace: dropping them
    from every row gives the same contacts. *)
Theorem mapToContacts_ignores_other_cells (rawData : list RawRow) sourceSheet :
  mapToContacts (map (List.filter isRead) rawData) sourceSheet
  = mapToContacts rawData sourceSheet.
Proof.
  unfold mapToContacts. rewrite map_map. apply map_ext. intros row.
  unfold mapRow. now rewrite fold_mapEntry_filter.
Qed.

(** The fields of the contact after one entry. *)
Lemma mapEntry_name contact notes entry :
  name (fst (mapEntry (contact, notes) entry))
  = if resolvesTo Fname entry then trim (String_ entry.2) else name contact.
Proof.
  destruct entry as [key value]. unfold mapEntry, resolvesTo. cbn [fst snd].
  destruct (truthy value); cbn [negb andb]; [|reflexivity].
  destruct (columnMappings !! normalizeColumnName key) as [[]|];
    try reflexivity;
    repeat match goal with
           | |- context [if isEmpty ?s then _ else _] => destruct (isEmpty s)
           | |- context [if includes ?l ?s then _ else _] => destruct (includes l s)
           end; reflexivity.
Qed.

Lemma mapEntry_priority contact notes entry :
  priority (fst (mapEntry (contact, notes) entry))
  = if resolvesTo Fpriority entry then parsePriority entry.2 else priority contact.
Proof.
  destruct entry as [key value]. unfold mapEntry, resolvesTo. cbn [fst snd].
  destruct (truthy value); cbn [negb andb]; [|reflexivity].
  destruct (columnMappings !! normalizeColumnName key) as [[]|];
    try reflexivity;
    repeat match goal with
           | |- context [if isEmpty ?s then _ else _] => destruct (isEmpty s)
           | |- context [if includes ?l ?s then _ else _] => destruct (includes l s)
           end; reflexivity.
Qed.

Lemma mapEntry_text f contact notes entry :
  isText f = true ->
  textField f (fst (mapEntry (contact, notes) entry))
  = if resolvesTo f entry then textValue f entry.2 else textField f contact.
Proof.
  intros Hf.
  destruct entry as [key value]. unfold mapEntry, resolvesTo. cbn [fst snd].
  destruct (truthy value); cbn [negb andb]; [|reflexivity].
  destruct (columnMappings !! normalizeColumnName key) as [g|] eqn:Hg.
  - destruct f; try discriminate Hf; destruct g;
      rewrite ?bool_decide_eq_true_2 by reflexivity;
      rewrite ?bool_decide_eq_false_2 by discriminate;
      try reflexivity;
      destruct (isEmpty (trim (String_ value))); reflexivity.
  - rewrite bool_decide_eq_false_2 by discriminate.
    destruct (includes extraNotesColumns (normalizeColumnName key)); [|reflexivity].
    destruct (isEmpty (trim (String_ value))); reflexivity.
Qed.

Lemma lastValue_cons f entry (row : RawRow) :
  lastValue f (entry :: row)
  = match lastValue f row with
    | Some v => Some v
    | None => if resolvesTo f entry then Some entry.2 else None
    end.
Proof.
  unfold lastValue. cbn [rev].
  induction (rev row) as [|e l IH]; cbn [app List.find].
  - destruct (resolvesTo f entry); reflexivity.
  - destruct (resolvesTo f e); [reflexivity | exact IH].
Qed.

(** A field read through [get], which one entry sets to [conv] of its value
    exactly when it resolves to [f], holds after the loop the value of the
    last such entry. *)
Lemma fold_mapEntry_last {A : Type} (get : ImportedContact -> A)
    (conv : value -> A) (f : field) :
  (forall contact notes entry,
     get (fst (mapEntry (contact, notes) entry))
     = if resolvesTo f entry then conv entry.2 else get contact) ->
  forall (row : RawRow) contact notes,
    get (fst (fold_left mapEntry row (contact, notes)))
    = match lastValue f row with
      | Some v => conv v
      | None => get contact
      end.
Proof.
  intros Hstep. induction row as [|entry row IH]; intros contact notes;
    [reflexivity|].
  cbn [fold_left]. rewrite lastValue_cons.
  destruct (mapEntry (contact, notes) entry) as [contact' notes'] eqn:E.
  rewrite IH. destruct (lastValue f row); [reflexivity|].
  specialize (Hstep contact notes entry). rewrite E in Hstep.
  cbn [fst] in Hstep. rewrite Hstep. destruct (resolvesTo f entry); reflexivity.
Qed.

Lemma mapRow_keeps {A : Type} (get : ImportedContact -> A) sourceSheet (row : RawRow) :
  (forall v c, get (setText Fdetails v c) = get c) ->
  get (mapRow sourceSheet row) = get (fst (fold_left mapEntry row (emptyContact, []))).
Proof.
  intros Hget. unfold mapRow.
  destruct (fold_left mapEntry row (emptyContact, [])) as [contact notes].
  cbn [fst].
  destruct (match sourceSheet with
            | Some sheet => if isEmpty sheet then notes else _ :: notes
            | None => notes
            end); [reflexivity | apply Hget].
Qed.

Lemma mapRow_name sourceSheet (row : RawRow) :
  name (mapRow sourceSheet row)
  = from_option (fun v => trim (String_ v)) "" (lastValue Fname row).
Proof.
  rewrite (mapRow_keeps name) by reflexivity.
  rewrite (fold_mapEntry_last name (fun v => trim (String_ v)) Fname)
    by apply mapEntry_name.
  destruct (lastValue Fname row); reflexivity.
Qed.

(** The name of a mapped contact is trimmed, so it is blank only if it is
    empty. *)
Lemma mapRow_name_trimmed sourceSheet (row : RawRow) :
  trim (name (mapRow sourceSheet row)) = name (mapRow sourceSheet row).
Proof.
  rewrite mapRow_name.
  destruct (lastValue Fname row); cbn; [apply TextFacts.trim_idem | reflexivity].
Qed.

(** X5.  When several columns of a row resolve to the same field, the
    last one that has a value decides, also when its text is blank or
    does not parse: the name is the trimmed text of the last name column
    (the empty string without one) and is always trimmed; a text field is
    the trimmed text of its last column, or nothing when that is blank;
    the date and the priority are what [parseExcelDate] and
    [parsePriority] make of their last column. *)
Theorem mapRow_last_column_wins sourceSheet (row : RawRow) :
  let contact := mapRow sourceSheet row in
  let text f := from_option (textValue f) None (lastValue f row) in
  name contact = from_option (fun v => trim (String_ v)) "" (lastValue Fname row)
  /\ trim (name contact) = name contact
  /\ email contact = text Femail
  /\ phone contact = text Fphone
  /\ location contact = text Flocation
  /\ institution contact = text Finstitution
  /\ last_interaction_date contact = text Flast_interaction_date
  /\ priority contact = from_option parsePriority None (lastValue Fpriority row).
Proof.
  cbn zeta.
  assert (Htext : forall f,
            isText f = true ->
            textField f (mapRow sourceSheet row)
            = from_option (textValue f) None (lastValue f row)).
  { intros f Hf.
    rewrite (mapRow_keeps (textField f)) by (destruct f; try discriminate Hf; reflexivity).
    rewrite (fold_mapEntry_last (textField f) (textValue f) f)
      by (intros; now apply mapEntry_text).
    destruct (lastValue f row); [reflexivity|].
    destruct f; try discriminate Hf; reflexivity. }
  split; [apply mapRow_name|].
  split; [apply mapRow_name_trimmed|].
  split; [exact (Htext Femail eq_refl)|].
  split; [exact (Htext Fphone eq_refl)|].
  split; [exact (Htext Flocation eq_refl)|].
  split; [exact (Htext Finstitution eq_refl)|].
  split; [exact (Htext Flast_interaction_date eq_refl)|].
  rewrite (mapRow_keeps priority) by reflexivity.
  rewrite (fold_mapEntry_last priority parsePriority Fpriority)
    by apply mapEntry_priority.
  destruct (lastValue Fpriority row); reflexivity.
Qed.

End with_host.

(** A later blank cell erases what an earlier column of the same field
    gave. *)
Example later_blank_cell_erases :
  map (fun c => (email c, priority c))
    (@mapToContacts Reference.utc
       [[("Name", VString "Jane Doe"); ("Email", VString "jane@acme.com");
         ("Priority", VNumber 2); ("Mail", VString "  ");
         ("Rank", VString "high")]]
       None)
  = [(None, None)].
Proof. vm_compute. reflexivity. Qed.

End ColumnFacts.

(** ** The run of the batch writer *)

Module RunFacts.
Import Js ImportLib Spec WriterSpec.
Local Open Scope nat_scope.
Local Open Scope list_scope.

Lemma chunksOf_members {A : Type} (fuel n : nat) (l : list A) :
  0 < n ->
  Forall (fun chunk => chunk <> [] /\ length chunk <= n /\ incl chunk l)
    (chunksOf fuel n l).
Proof.
  intros Hn. revert l. induction fuel as [|fuel IH]; intros l; cbn [chunksOf];
    [constructor|].
  destruct l as [|a l']; [constructor|]. set (l := a :: l').
  constructor.
  - split; [|split].
    + destruct n; [lia | discriminate].
    + rewrite length_take. lia.
    + intros x Hx. apply list_elem_of_In. apply list_elem_of_In in Hx.
      revert Hx. apply subseteq_take.
  - eapply Forall_impl; [apply IH|]. cbn beta.
    intros chunk (Hne & Hlen & Hin). repeat split; [exact Hne | exact Hlen|].
    intros x Hx. apply Hin in Hx.
    apply list_elem_of_In. apply list_elem_of_In in Hx.
    revert Hx. apply subseteq_drop.
Qed.

Lemma written_length (reqs : list (list NewContact * option string)) :
  length (written reqs) = rowsWritten reqs.
Proof.
  induction reqs as [|req reqs IH]; [reflexivity|].
  destruct req as [rows [message|]];
    cbn [written flat_map rowsWritten fst snd app length] in *;
    rewrite ?length_app; unfold written in IH; lia.
Qed.

Section with_backend.
Context {Store : Type} (supabase : Supabase Store).

Lemma importLoop_serve user valid fuel :
  forall k store trace result,
    (importLoop supabase user valid fuel (k * batchSize) store trace result).1
    = (let '(store', new) :=
         serve supabase user (length valid) k
           (chunksOf fuel batchSize (skipn (k * batchSize) valid)) store in
       (store', trace ++ new)).
Proof.
  induction fuel as [|fuel IH]; intros k store trace result.
  - cbn [importLoop chunksOf serve fst]. now rewrite app_nil_r.
  - cbn [importLoop]. destruct (k * batchSize <? length valid) eqn:Hi.
    + apply Nat.ltb_lt in Hi.
      assert (Hslice : slice (k * batchSize) (k * batchSize + batchSize) valid
                       = firstn batchSize (skipn (k * batchSize) valid)).
      { unfold slice. f_equal. lia. }
      assert (Hcons : exists a rest, skipn (k * batchSize) valid = a :: rest).
      { destruct (skipn (k * batchSize) valid) as [|a rest] eqn:E; [|eauto].
        apply (f_equal length) in E. rewrite length_drop in E. cbn in E. lia. }
      destruct Hcons as (a & rest & Hcons).
      rewrite Hcons. cbn [chunksOf]. rewrite <- Hcons.
      cbn [serve]. rewrite Hslice.
      destruct (contacts_insert supabase store
                  (map (toInsert user) (firstn batchSize (skipn (k * batchSize) valid))))
        as [store1 error].
      replace (k * batchSize + batchSize) with (S k * batchSize) by lia.
      rewrite IH. rewrite drop_drop.
      replace (k * batchSize + batchSize) with (S k * batchSize) by lia.
      destruct (serve supabase user (length valid) (S k)
                  (chunksOf fuel batchSize (skipn (S k * batchSize) valid)) store1)
        as [store2 new].
      rewrite <- app_assoc. reflexivity.
    + apply Nat.ltb_ge in Hi. rewrite (drop_ge valid _ Hi).
      cbn [chunksOf serve fst]. destruct fuel; cbn [chunksOf serve];
        now rewrite app_nil_r.
Qed.

Lemma importContacts_run contacts store user :
  auth_getUser supabase = Some user ->
  List.filter hasName contacts <> [] ->
  let valid := List.filter hasName contacts in
  (importContacts supabase contacts store).1
  = serve supabase user (length valid) 0 (chunksOf (length valid) batchSize valid) store.
Proof.
  intros Huser Hvalid. cbv zeta. unfold importContacts. rewrite Huser.
  destruct (length (List.filter hasName contacts) =? 0) eqn:Hlen.
  { apply Nat.eqb_eq in Hlen. destruct (List.filter hasName contacts);
      [contradiction | discriminate]. }
  pose proof (importLoop_serve user (List.filter hasName contacts)
                (length (List.filter hasName contacts)) 0 store [] initialResult)
    as Hloop.
  change (0 * batchSize) with 0 in Hloop. rewrite skipn_O in Hloop.
  destruct (importLoop supabase user (List.filter hasName contacts)
              (length (List.filter hasName contacts)) 0 store [] initialResult)
    as [[store' trace] result].
  cbn [fst] in *. rewrite Hloop.
  destruct (serve supabase user _ 0 _ store) as [store'' new]. reflexivity.
Qed.

Lemma importContacts_idle contacts store :
  (auth_getUser supabase = None
   \/ List.filter hasName contacts = []) ->
  (importContacts supabase contacts store).1 = (store, [])
  /\ imported (importContacts supabase contacts store).2 = 0.
Proof.
  unfold importContacts. intros [Hnone|Hempty].
  - rewrite Hnone. split; reflexivity.
  - destruct (auth_getUser supabase); [|split; reflexivity].
    rewrite Hempty. split; reflexivity.
Qed.

(** X6.  Whatever the collaborator answers, every insert request holds
    between 1 and 50 rows, and every row sent carries the id of the
    signed-in user and a name that is not blank, and comes from a contact
    of the input. *)
Theorem importContacts_rows_sent contacts store :
  Forall
    (fun req : list NewContact * option string =>
       req.1 <> [] /\ length req.1 <= 50
       /\ Forall
            (fun row =>
               auth_getUser supabase = Some {| id := nc_user_id row |}
               /\ isEmpty (trim (nc_name row)) = false
               /\ exists contact,
                    In contact contacts
                    /\ row = toInsert {| id := nc_user_id row |} contact)
            req.1)
    (requests (importContacts supabase contacts store).1.2).
Proof.
  destruct (auth_getUser supabase) as [user|] eqn:Huser.
  2: { rewrite (proj1 (importContacts_idle contacts store (or_introl Huser))).
       constructor. }
  destruct (List.filter hasName contacts) as [|c0 valid0] eqn:Hvalid.
  { rewrite (proj1 (importContacts_idle contacts store (or_intror Hvalid))).
    constructor. }
  assert (Hne : List.filter hasName contacts <> []) by (rewrite Hvalid; discriminate).
  destruct (WriterFacts.importContacts_requests supabase contacts store user Huser Hne)
    as (Hrows & _).
  cbv zeta in Hrows.
  pose proof (chunksOf_members (length (List.filter hasName contacts)) batchSize
                (List.filter hasName contacts) ltac:(unfold batchSize; lia)) as Hchunks.
  set (Q := fun rows : list NewContact =>
              rows <> [] /\ length rows <= 50
              /\ Forall
                   (fun row =>
                      Some user = Some {| id := nc_user_id row |}
                      /\ isEmpty (trim (nc_name row)) = false
                      /\ exists contact,
                           In contact contacts
                           /\ row = toInsert {| id := nc_user_id row |} contact)
                   rows).
  apply (proj1 (List.Forall_map fst Q _)). rewrite Hrows.
  apply List.Forall_map.
  eapply List.Forall_impl; [|exact Hchunks]. cbn beta.
  intros chunk (Hnonempty & Hlen & Hincl). unfold Q.
  split; [destruct chunk; [contradiction | discriminate]|].
  split; [rewrite length_map; exact Hlen|].
  apply List.Forall_map. apply List.Forall_forall. intros contact Hin.
  apply Hincl in Hin. apply filter_In in Hin as [Hin Hname].
  destruct user as [uid]. cbn [toInsert nc_user_id nc_name id].
  split; [reflexivity|]. split.
  - unfold hasName in Hname. now apply negb_true_iff in Hname.
  - exists contact. split; [exact Hin | reflexivity].
Qed.

End with_backend.
End RunFacts.

(** ** The run as a whole *)

Module ServeFacts.
Import Js ImportLib Spec WriterSpec.
Local Open Scope nat_scope.
Local Open Scope list_scope.

Section with_backend.
Context {Store : Type} (supabase : Supabase Store).

(** X7.  With a user and a named row, a run of [importContacts] is the
    batches of 50 served one after the other: each request goes to the
    store the previous one left, the progress call before request [k]
    announces the rows [50 k + 1] to [min (50 k + 50) n] of [n], and the
    result is read off the answers: [imported] counts the rows of the
    accepted requests, [skipped] those of the refused ones and the rows
    without a name, there is one message per refused request, and
    [success] holds when there is none. *)
Theorem importContacts_serves_the_batches contacts store user :
  auth_getUser supabase = Some user ->
  List.filter hasName contacts <> [] ->
  let valid := List.filter hasName contacts in
  let served :=
    serve supabase user (length valid) 0 (chunksOf (length valid) batchSize valid)
      store in
  let reqs := requests served.2 in
  importContacts supabase contacts store
  = (served.1, served.2,
     {| success := match batchErrors 0 reqs with [] => true | _ :: _ => false end;
        imported := rowsWritten reqs;
        skipped := rowsRejected reqs + (length contacts - length valid);
        errors := batchErrors 0 reqs |}).
Proof.
  intros Huser Hvalid. cbv zeta.
  pose proof (RunFacts.importContacts_run supabase contacts store user Huser Hvalid)
    as Hrun.
  destruct (WriterFacts.importContacts_requests supabase contacts store user
              Huser Hvalid) as (_ & Himp & Hskip & Herr & Hok).
  cbv zeta in Hrun, Himp, Hskip, Herr, Hok.
  destruct (importContacts supabase contacts store) as [[store' trace] result].
  cbn [fst snd] in *. rewrite <- Hrun. cbn [fst snd].
  destruct result as [ok imp skip errs]. cbn [success imported skipped errors] in *.
  subst imp skip errs. do 2 f_equal. rewrite Hok.
  destruct (batchErrors 0 (requests trace)); reflexivity.
Qed.

End with_backend.

Lemma importContacts_serves_witness :
  auth_getUser Samples.secondRequestFails = Some {| id := "u1" |}
  /\ (importContacts Samples.secondRequestFails Samples.rows120 (0, 0)).1.1
     = (serve Samples.secondRequestFails {| id := "u1" |} 120 0
          (chunksOf 120 batchSize (List.filter hasName Samples.rows120)) (0, 0)).1.
Proof.
  split; [reflexivity|].
  rewrite (importContacts_serves_the_batches Samples.secondRequestFails
             Samples.rows120 (0, 0) {| id := "u1" |} eq_refl);
    [reflexivity | vm_compute; discriminate].
Defined.

End ServeFacts.

(** ** The table after an import *)

Module TableFacts.
Import Js ImportLib Spec WriterSpec.
Local Open Scope nat_scope.
Local Open Scope list_scope.

Section with_table.
Context (supabase : Supabase (list NewContact)).
Hypothesis appends :
  forall table rows,
    contacts_insert supabase table rows = (table ++ rows, None)
    \/ exists message, contacts_insert supabase table rows = (table, Some message).

Lemma serve_appends user total (batches : list (list ImportedContact)) :
  forall k table,
    (serve supabase user total k batches table).1
    = table ++ written (requests (serve supabase user total k batches table).2).
Proof.
  induction batches as [|batch rest IH]; intros k table; cbn [serve].
  - cbn. now rewrite app_nil_r.
  - destruct (appends table (map (toInsert user) batch)) as [E|[message E]];
      rewrite E; specialize (IH (S k));
      [specialize (IH (table ++ map (toInsert user) batch))|specialize (IH table)];
      destruct (serve supabase user total (S k) rest _) as [table' trace];
      cbn [fst snd] in *; rewrite IH;
      cbn [requests written flat_map fst snd app];
      rewrite <- ?app_assoc; reflexivity.
Qed.

Lemma no_error_all_written (reqs : list (list NewContact * option string)) :
  forall k, batchErrors k reqs = [] -> written reqs = concat (map fst reqs).
Proof.
  induction reqs as [|req reqs IH]; intros k; [reflexivity|].
  destruct req as [rows [message|]]; cbn [batchErrors]; [discriminate|].
  intros Hrest. cbn [written flat_map map concat fst snd].
  f_equal. exact (IH _ Hrest).
Qed.

(** X8.  Against a table that appends the rows of a request it accepts
    and stays as it is when it refuses one, the table after the run is the
    table before followed by the rows of the accepted requests, in order;
    it has grown by [imported] rows; and when no request was refused it
    has grown by the named rows of the input, in input order. *)
Theorem importContacts_table_growth contacts table :
  let run := importContacts supabase contacts table in
  run.1.1 = table ++ written (requests run.1.2)
  /\ length run.1.1 = length table + imported run.2
  /\ (forall user,
        auth_getUser supabase = Some user ->
        errors run.2 = [] ->
        run.1.1 = table ++ map (toInsert user) (List.filter hasName contacts)).
Proof.
  cbv zeta.
  destruct (auth_getUser supabase) as [user|] eqn:Huser.
  2: { destruct (RunFacts.importContacts_idle supabase contacts table (or_introl Huser))
         as [Hrun Himp].
       rewrite Hrun, Himp. cbn. rewrite app_nil_r.
       split; [reflexivity|]. split; [lia|]. intros user [=]. }
  destruct (List.filter hasName contacts) as [|c0 valid0] eqn:Hvalid.
  { destruct (RunFacts.importContacts_idle supabase contacts table (or_intror Hvalid))
      as [Hrun Himp].
    rewrite Hrun, Himp. cbn. rewrite app_nil_r.
    split; [reflexivity|]. split; [lia|].
    intros user' _. unfold importContacts. rewrite Huser, Hvalid. cbn. discriminate. }
  assert (Hne : List.filter hasName contacts <> []) by (rewrite Hvalid; discriminate).
  rewrite <- Hvalid.
  destruct (WriterFacts.importContacts_requests supabase contacts table user Huser Hne)
    as (Hrows & Himp & _ & Herr & _).
  cbv zeta in Hrows, Himp, Herr.
  pose proof (RunFacts.importContacts_run supabase contacts table user Huser Hne)
    as Hrun.
  cbv zeta in Hrun.
  assert (Htable : (importContacts supabase contacts table).1.1
                   = table ++ written (requests (importContacts supabase contacts table).1.2)).
  { rewrite Hrun. apply serve_appends. }
  split; [exact Htable|]. split.
  - rewrite Htable at 1. rewrite length_app, RunFacts.written_length, Himp. reflexivity.
  - intros user' [= <-] Hnone. rewrite Htable. f_equal.
    rewrite Herr in Hnone. rewrite (no_error_all_written _ 0 Hnone), Hrows.
    rewrite <- concat_map. f_equal.
    apply WriterFacts.chunksOf_concat; [unfold batchSize; lia | lia].
Qed.

End with_table.

Lemma importContacts_table_witness :
  let run := importContacts MoreSamples.fullAtFifty Samples.rows120 [] in
  length run.1.1 = 50 /\ imported run.2 = 50
  /\ length run.1.1 = length (@nil NewContact) + imported run.2.
Proof.
  cbv zeta. split; [vm_compute; reflexivity|]. split; [vm_compute; reflexivity|].
  apply (importContacts_table_growth MoreSamples.fullAtFifty).
  intros table rows. cbn [MoreSamples.fullAtFifty contacts_insert].
  unfold MoreSamples.insertUpToFifty.
  destruct (length table =? 50); [right; eexists; reflexivity | left; reflexivity].
Defined.

End TableFacts.

(** ** The import dialog after an import *)

Module DialogFacts.
Import Js ImportLib Spec ImportDialog.
Local Open Scope nat_scope.
Local Open Scope list_scope.

Lemma no_error_none_rejected (reqs : list (list NewContact * option string)) :
  forall k, batchErrors k reqs = [] -> rowsRejected reqs = 0.
Proof.
  induction reqs as [|req reqs IH]; intros k; [reflexivity|].
  destruct req as [rows [message|]]; cbn [batchErrors rowsRejected]; [discriminate|].
  apply IH.
Qed.

Section with_backend.
Context {Store : Type} (supabase : Supabase Store).

(** X9.  [handleImport] on a preview with a named row, a user being
    signed in: the dialog ends on the [complete] step with [importing] off
    and no error, [onImportComplete] is called once, and the result shown
    accounts for every row of the preview.  [imported] is at most the
    number the button announced ([validContacts.length]) and [skipped] at
    least the number of rows announced as skipped; when no batch failed
    they are equal to them. *)
Theorem handleImport_reports (d : Dialog) (store : Store) user :
  auth_getUser supabase = Some user ->
  validContacts d <> [] ->
  let after := (handleImport supabase d store).1.1 in
  ExcelImport.step (view after) = ExcelImport.complete
  /\ importing after = false
  /\ ExcelImport.error (view after) = None
  /\ (handleImport supabase d store).2 = 1
  /\ exists imported skipped errors,
       result after = Some (imported, skipped, errors)
       /\ imported + skipped = length (ExcelImport.previewData (view d))
       /\ imported <= length (validContacts d)
       /\ invalidContacts d <= skipped
       /\ (errors = [] ->
           imported = length (validContacts d) /\ skipped = invalidContacts d).
Proof.
  intros Huser Hvalid. cbv zeta.
  change (validContacts d) with (List.filter hasName (ExcelImport.previewData (view d))) in *.
  unfold invalidContacts.
  change (validContacts d) with (List.filter hasName (ExcelImport.previewData (view d))).
  destruct (WriterFacts.importContacts_requests supabase
              (ExcelImport.previewData (view d)) store user Huser Hvalid)
    as (Hrows & Himp & Hskip & Herr & _).
  cbv zeta in Hrows, Himp, Hskip, Herr.
  pose proof (WriterFacts.rows_total
                (requests (importContacts supabase (ExcelImport.previewData (view d)) store).1.2))
    as Htotal.
  rewrite Hrows, <- concat_map, length_map in Htotal.
  rewrite WriterFacts.chunksOf_concat in Htotal by (unfold batchSize; lia).
  pose proof (List.filter_length_le hasName (ExcelImport.previewData (view d))) as Hle.
  unfold handleImport.
  destruct (ExcelImport.previewData (view d)) as [|c0 rest] eqn:Hpreview;
    [now contradiction Hvalid|].
  rewrite <- Hpreview in *.
  destruct (importContacts supabase (ExcelImport.previewData (view d)) store)
    as [[store' trace] importResult].
  cbn [fst snd view importing result ExcelImport.step ExcelImport.error
       ExcelImport.setStep ExcelImport.setError] in *.
  repeat (split; [reflexivity|]).
  exists (imported importResult), (skipped importResult), (errors importResult).
  split; [reflexivity|]. split; [lia|]. split; [lia|]. split; [lia|].
  intros Hnone. rewrite Herr in Hnone.
  pose proof (no_error_none_rejected _ 0 Hnone). lia.
Qed.

End with_backend.

Lemma handleImport_witness :
  let d :=
    {| view := ExcelImport.setPreviewData Samples.rows120 ExcelImport.initialState;
       importing := false; progress := ("", 0%float); result := None |} in
  result (handleImport Samples.secondRequestFails d (0, 0)).1.1
  = Some (70, 51, ["Batch 2 failed: connection reset"])
  /\ ExcelImport.step (view (handleImport Samples.secondRequestFails d (0, 0)).1.1)
     = ExcelImport.complete.
Proof.
  cbv zeta. split; [vm_compute; reflexivity|].
  refine (proj1 (handleImport_reports Samples.secondRequestFails _ (0, 0)
                   {| id := "u1" |} _ _)).
  - reflexivity.
  - vm_compute. discriminate.
Defined.

End DialogFacts.

(** ** From the sheet to the table *)

Module PipelineFacts.
Import Js ImportLib Spec MapperSpec RowSpec.
Local Open Scope nat_scope.
Local Open Scope list_scope.

Lemma filter_map_swap {A B : Type} (f : A -> B) (p : B -> bool) (l : list A) :
  List.filter p (map f l) = map f (List.filter (fun x => p (f x)) l).
Proof.
  induction l as [|x l IH]; [reflexivity|]. cbn [map List.filter].
  destruct (p (f x)); cbn [map]; now rewrite IH.
Qed.

Section with_host.
Context `{Host}.

Lemma hasName_mapRow sourceSheet (row : RawRow) :
  hasName (mapRow sourceSheet row) = named row.
Proof.
  unfold hasName, named. rewrite ColumnFacts.mapRow_name_trimmed, ColumnFacts.mapRow_name.
  destruct (lastValue Fname row); reflexivity.
Qed.

Section with_backend.
Context {Store : Type} (supabase : Supabase Store).

(** X10.  From the rows of a sheet to the rows written: the contacts
    that [importContacts] keeps are the contacts of the rows that have a
    name, that is, whose last name column with a value holds text that is
    not blank.  With a user, these are the rows sent, in sheet order, and
    [imported] and [skipped] add up to the number of rows of the sheet;
    when no row has a name, no request is made. *)
Theorem named_rows_are_the_rows_sent (rawData : list RawRow) sourceSheet store :
  let contacts := mapToContacts rawData sourceSheet in
  let run := importContacts supabase contacts store in
  List.filter hasName contacts = mapToContacts (List.filter named rawData) sourceSheet
  /\ length (List.filter hasName contacts) = length (List.filter named rawData)
  /\ (forall user,
        auth_getUser supabase = Some user ->
        List.filter named rawData <> [] ->
        concat (map fst (requests run.1.2))
        = map (toInsert user) (mapToContacts (List.filter named rawData) sourceSheet)
        /\ imported run.2 + skipped run.2 = length rawData)
  /\ (List.filter named rawData = [] -> requests run.1.2 = []).
Proof.
  cbv zeta.
  assert (Hvalid : List.filter hasName (mapToContacts rawData sourceSheet)
                   = mapToContacts (List.filter named rawData) sourceSheet).
  { unfold mapToContacts. rewrite filter_map_swap. f_equal.
    apply List.filter_ext. intros row. apply hasName_mapRow. }
  split; [exact Hvalid|].
  split; [rewrite Hvalid; unfold mapToContacts; apply length_map|].
  split.
  - intros user Huser Hnamed.
    assert (Hne : List.filter hasName (mapToContacts rawData sourceSheet) <> []).
    { rewrite Hvalid. unfold mapToContacts.
      destruct (List.filter named rawData); [contradiction | discriminate]. }
    destruct (WriterFacts.importContacts_requests supabase
                (mapToContacts rawData sourceSheet) store user Huser Hne)
      as (Hrows & Himp & Hskip & _).
    cbv zeta in Hrows, Himp, Hskip.
    pose proof (WriterFacts.rows_total
                  (requests (importContacts supabase
                               (mapToContacts rawData sourceSheet) store).1.2))
      as Htotal.
    rewrite Hrows, <- concat_map in Htotal |- *.
    rewrite WriterFacts.chunksOf_concat in Htotal |- * by (unfold batchSize; lia).
    rewrite Hvalid in *. split; [reflexivity|].
    rewrite length_map in Htotal.
    pose proof (List.filter_length_le hasName (mapToContacts rawData sourceSheet)) as Hle.
    rewrite Hvalid in Hle.
    assert (Hall : length (mapToContacts rawData sourceSheet) = length rawData)
      by (unfold mapToContacts; apply length_map).
    lia.
  - intros Hnone.
    rewrite (proj1 (RunFacts.importContacts_idle supabase
                      (mapToContacts rawData sourceSheet) store
                      (or_intror (eq_trans Hvalid
                                    (f_equal (fun l => mapToContacts l sourceSheet) Hnone))))).
    reflexivity.
Qed.

End with_backend.
End with_host.
End PipelineFacts.

(** ** Choosing a file and its sheets *)

Module SelectionFacts.
Import Js ImportLib ExcelImport.
Local Open Scope nat_scope.
Local Open Scope list_scope.

Lemma eqb_comm (a b : string) : String.eqb a b = String.eqb b a.
Proof.
  destruct (String.eqb_spec a b) as [->|Hne].
  - now rewrite String.eqb_refl.
  - symmetry. apply String.eqb_neq. congruence.
Qed.

Lemma includes_app (l1 l2 : list string) s :
  includes (l1 ++ l2) s = includes l1 s || includes l2 s.
Proof. apply existsb_app. Qed.

Lemma includes_remove (l : list string) n m :
  includes (List.filter (fun s => negb (String.eqb s n)) l) m
  = negb (String.eqb m n) && includes l m.
Proof.
  unfold includes. induction l as [|a l IH]; cbn [List.filter existsb].
  - now rewrite andb_false_r.
  - destruct (String.eqb_spec a n) as [->|Han]; cbn [negb existsb]; rewrite IH.
    + destruct (String.eqb m n); reflexivity.
    + destruct (String.eqb_spec m a) as [->|Hma]; cbn [orb]; [|reflexivity].
      apply String.eqb_neq in Han. now rewrite Han.
Qed.

Lemma includes_In (l : list string) s : includes l s = true <-> In s l.
Proof.
  unfold includes. rewrite existsb_exists. split.
  - intros (x & Hx & ->%String.eqb_eq). exact Hx.
  - intros Hs. exists s. split; [exact Hs | apply String.eqb_refl].
Qed.

Lemma NoDup_List_filter {A : Type} (f : A -> bool) (l : list A) :
  NoDup l -> NoDup (List.filter f l).
Proof.
  induction l as [|a l IH]; cbn [List.filter]; [intros _; constructor|].
  intros [Ha Hl]%NoDup_cons. destruct (f a); [|exact (IH Hl)].
  apply NoDup_cons. split; [|exact (IH Hl)].
  intros Hin. apply Ha. apply list_elem_of_In. apply list_elem_of_In in Hin.
  now apply filter_In in Hin.
Qed.

Lemma toggle_membership name other st :
  includes (selectedSheets (handleSheetToggle name st)) other
  = if String.eqb other name then negb (includes (selectedSheets st) name)
    else includes (selectedSheets st) other.
Proof.
  unfold handleSheetToggle. cbn [selectedSheets setSelectedSheets].
  destruct (includes (selectedSheets st) name) eqn:Hsel.
  - rewrite includes_remove.
    destruct (String.eqb other name); reflexivity.
  - rewrite includes_app. unfold includes at 2. cbn [existsb]. rewrite orb_false_r.
    destruct (String.eqb_spec other name) as [->|Hne];
      [rewrite Hsel | rewrite orb_false_r]; reflexivity.
Qed.

(** X11.  Ticking a sheet flips the membership of that sheet in the
    selection and of no other sheet; ticking it twice gives back the
    membership of every sheet; a selection without duplicates stays
    without; and nothing else of the dialog changes. *)
Theorem handleSheetToggle_flips_one_sheet name st :
  let st' := handleSheetToggle name st in
  (forall other,
     includes (selectedSheets st') other
     = if String.eqb other name then negb (includes (selectedSheets st) name)
       else includes (selectedSheets st) other)
  /\ (forall other,
        includes (selectedSheets (handleSheetToggle name st')) other
        = includes (selectedSheets st) other)
  /\ (NoDup (selectedSheets st) -> NoDup (selectedSheets st'))
  /\ (step st', file st', sheets st', previewData st', error st')
     = (step st, file st, sheets st, previewData st, error st).
Proof.
  cbv zeta. split; [intros other; apply toggle_membership|]. split.
  { intros other. rewrite !toggle_membership, String.eqb_refl.
    destruct (String.eqb_spec other name) as [->|Hne]; [|reflexivity].
    now rewrite negb_involutive. }
  split; [|reflexivity].
  intros Hnodup. unfold handleSheetToggle. cbn [selectedSheets setSelectedSheets].
  destruct (includes (selectedSheets st) name) eqn:Hsel.
  - apply NoDup_List_filter, Hnodup.
  - apply NoDup_app. split; [exact Hnodup|]. split; [|apply NoDup_singleton].
    intros x Hx ->%list_elem_of_singleton.
    apply list_elem_of_In, includes_In in Hx. congruence.
Qed.

Section with_host.
Context `{Host}.

(** X12.  Choosing a file ends without an error exactly when the file has
    an accepted name or type and [getExcelSheets] lists a sheet.  In every
    other case one of four messages is set, and the step, the sheets, the
    selection and the preview stay as they were (the file is remembered
    once its type is accepted).  Without an error the dialog is on the
    preview, or on the sheet selection with two sheets at least, all of
    them selected.  Without a file nothing happens. *)
Theorem handleFileSelect_outcomes (selected : File) (st : State) :
  let st' := handleFileSelect (Some selected) st in
  (error st' = None
   <-> isExcel selected = true
       /\ exists info infos, getExcelSheets selected = Fulfilled (info :: infos))
  /\ (error st' <> None ->
      (step st', sheets st', selectedSheets st', previewData st')
      = (step st, sheets st, selectedSheets st, previewData st)
      /\ file st' = (if isExcel selected then Some selected else file st)
      /\ In (error st')
           (map Some
              [ "Please upload an Excel file (.xlsx, .xls) or CSV file";
                "Failed to read file"; "Failed to parse Excel file";
                "No data sheets found in the file" ]))
  /\ (error st' = None ->
      file st' = Some selected
      /\ (step st' = preview
          \/ step st' = select_sheets
             /\ 2 <= length (sheets st')
             /\ selectedSheets st' = map sheetName (sheets st')))
  /\ handleFileSelect None st = st.
Proof.
  cbv zeta. unfold handleFileSelect, getExcelSheets, parseExcelFile, readWorkbook.
  destruct (isExcel selected) eqn:Hexcel; cbn [negb].
  2: { cbn [error setError step sheets selectedSheets previewData file].
       split; [split; [discriminate | intros [[=] _]]|].
       split; [intros _; split; [reflexivity|]; split; [reflexivity|]; cbn; tauto|].
       split; [discriminate | reflexivity]. }
  destruct (content selected) as [| |workbook].
  1, 2: cbn [error setError setFile step sheets selectedSheets previewData file];
    (split; [split; [discriminate | intros (_ & info & infos & [=])]|]);
    (split; [intros _; split; [reflexivity|]; split; [reflexivity|]; cbn; tauto|]);
    (split; [discriminate | reflexivity]).
  destruct (sheetInfos workbook) as [|info [|info' infos]].
  - cbn [error setError setFile step sheets selectedSheets previewData file].
    split; [split; [discriminate | intros (_ & info & infos & [=])]|].
    split; [intros _; split; [reflexivity|]; split; [reflexivity|]; cbn; tauto|].
    split; [discriminate | reflexivity].
  - cbn [error setError setFile setStep setPreviewData step sheets selectedSheets
         previewData file].
    split; [split; [intros _; split; [reflexivity | eauto] | reflexivity]|].
    split; [intros Hne; now contradiction Hne|].
    split; [intros _; split; [reflexivity | left; reflexivity] | reflexivity].
  - cbn [error setError setFile setStep setSheets setSelectedSheets step sheets
         selectedSheets previewData file].
    split; [split; [intros _; split; [reflexivity | eauto] | reflexivity]|].
    split; [intros Hne; now contradiction Hne|].
    split; [|reflexivity].
    intros _. split; [reflexivity|]. right. split; [reflexivity|].
    split; [cbn [length]; lia | reflexivity].
Qed.

End with_host.
End SelectionFacts.

(** ** The export run *)

Module RunExportFacts.
Import Js ExportLib ArchiveSpec ExportSpec.
Local Open Scope nat_scope.
Local Open Scope list_scope.

Lemma concat_imap_nil {A B : Type} (l : list A) :
  forall f : nat -> A -> list B,
    (forall i x, In x l -> f i x = []) -> concat (imap f l) = [].
Proof.
  induction l as [|x l IH]; intros f Hf; [reflexivity|].
  cbn [imap concat]. rewrite (Hf 0 x) by now left.
  apply IH. intros i y Hy. apply Hf. now right.
Qed.

Section with_collaborator.
Context `{Host} (supabase : Supabase).

(** *** The progress calls *)

Lemma downloadLoop_trace total i contact n folder (rest : list Attachment) :
  forall j zip trace,
    (downloadLoop supabase total i contact n folder j rest zip trace).2
    = trace ++ imap (fun k => downloading total i contact n (j + k)) rest.
Proof.
  induction rest as [|a rest IH]; intros j zip trace; cbn [downloadLoop imap].
  - now rewrite app_nil_r.
  - rewrite IH, <- app_assoc. cbn [app]. rewrite Nat.add_0_r.
    do 2 f_equal. apply imap_ext. intros k x _. cbn. f_equal. lia.
Qed.

Lemma contactsLoop_trace total folder (rest : list ContactWithAttachments) :
  forall i zip trace,
    (contactsLoop supabase total folder i rest zip trace).2
    = trace
      ++ concat
           (imap (fun k c => imap (downloading total (i + k) c.1 (length c.2)) c.2)
              rest).
Proof.
  induction rest as [|[contact attachments] rest IH]; intros i zip trace.
  - cbn [contactsLoop imap concat snd]. now rewrite app_nil_r.
  - rewrite ExportFacts.contactsLoop_cons, IH, ExportFacts.contactsLoop_one.
    cbn [imap concat fst snd]. rewrite Nat.add_0_r, app_assoc. f_equal.
    + destruct attachments as [|a attachments]; [cbn; now rewrite app_nil_r|].
      cbn [length Nat.ltb Nat.leb]. now rewrite downloadLoop_trace.
    + f_equal. apply imap_ext. intros k c _. cbn. do 2 f_equal. lia.
Qed.

(** An export that cannot write the workbook. *)
Lemma exportAllData_thrown contact contacts :
  error (contacts_select supabase) = None ->
  data (contacts_select supabase) = Some (contact :: contacts) ->
  error (attachments_select supabase) = None ->
  let attachments := default [] (data (attachments_select supabase)) in
  writable (sheetRows attachments (contact :: contacts)) = false ->
  exportAllData supabase
  = ([ Progress "Fetching contacts..." 5;
       Progress "Fetching attachments info..." 15;
       Progress "Generating Excel file..." 25 ],
     Rejected "Text length must not exceed 32767 characters").
Proof.
  intros Hok Hdata Hok'. cbv zeta. intros Hfits.
  unfold exportAllData. rewrite Hok, Hdata, Hok'.
  rewrite ExportFacts.withAttachments_spec.
  now rewrite (ExportFacts.generateExcel_thrown _ _ Hfits).
Qed.

Lemma exportAllData_trace contacts :
  error (contacts_select supabase) = None ->
  data (contacts_select supabase) = Some contacts ->
  contacts <> [] ->
  error (attachments_select supabase) = None ->
  let attachments := default [] (data (attachments_select supabase)) in
  (exportAllData supabase).1
  = [ Progress "Fetching contacts..." 5;
      Progress "Fetching attachments info..." 15;
      Progress "Generating Excel file..." 25 ]
    ++ (if writable (sheetRows attachments contacts)
        then sweep (length attachments) (map (paired attachments) contacts)
             ++ [ Progress "Creating zip file..." 95;
                  Progress "Download starting..." 100 ]
        else []).
Proof.
  intros Hok Hdata Hsome Hok'. cbv zeta.
  destruct contacts as [|c0 contacts']; [contradiction|].
  set (attachments := default [] (data (attachments_select supabase))).
  destruct (writable (sheetRows attachments (c0 :: contacts'))) eqn:Hfits.
  2: { now rewrite (exportAllData_thrown c0 contacts' Hok Hdata Hok' Hfits). }
  unfold exportAllData. rewrite Hok, Hdata, Hok'.
  fold attachments. rewrite ExportFacts.withAttachments_spec.
  rewrite (ExportFacts.generateExcel_writable _ _ Hfits).
  set (contacts := c0 :: contacts') in *.
  assert (Hloop :
    forall zip zip' trace,
      (if 0 <? length attachments
       then contactsLoop supabase (length attachments) ["Attachments"] 0
              (map (paired attachments) contacts) zip trace
       else (zip', trace)).2
      = trace ++ sweep (length attachments) (map (paired attachments) contacts)).
  { intros zip zip' trace. destruct (0 <? length attachments) eqn:Htotal.
    - rewrite contactsLoop_trace. reflexivity.
    - apply Nat.ltb_ge in Htotal.
      assert (Hnil : attachments = [])
        by (destruct attachments; [reflexivity | cbn in Htotal; lia]).
      cbn [snd]. unfold sweep. rewrite concat_imap_nil; [now rewrite app_nil_r|].
      intros i c (contact & <- & _)%in_map_iff. rewrite Hnil. reflexivity. }
  pose proof (ExportFacts.zip_folder_root [] "Attachments"
                (zip_file [] "Contacts.xlsx"
                   (Xlsx "Contacts" (sheetRows attachments contacts)) ∅)) as Hroot.
  destruct (zip_folder [] "Attachments" _) as [zip0 root].
  cbn in Hroot. subst root.
  destruct (if 0 <? length attachments then _ else _) as [zip trace] eqn:Hrun.
  apply (f_equal snd) in Hrun. cbn [snd fst] in *.
  rewrite Hloop in Hrun. subst trace.
  rewrite <- !app_assoc. reflexivity.
Qed.

(** X13.  The progress calls of an export whose queries succeed: 5, 15
    and 25; then, unless writing the workbook throws, one call per
    attachment row of each contact of the query, in order, also for the
    rows whose download fails, with the percent
    [round (30 + (i * n + j) / total * 60)] for row [j] of contact [i],
    which has [n] rows, and then 95 and 100.  So there are three calls
    when the workbook cannot be written, and five and one per such row
    otherwise. *)
Theorem exportAllData_progress_calls contacts :
  error (contacts_select supabase) = None ->
  data (contacts_select supabase) = Some contacts ->
  contacts <> [] ->
  error (attachments_select supabase) = None ->
  let attachments := default [] (data (attachments_select supabase)) in
  let rows := sheetRows attachments contacts in
  (exportAllData supabase).1
  = [ Progress "Fetching contacts..." 5;
      Progress "Fetching attachments info..." 15;
      Progress "Generating Excel file..." 25 ]
    ++ (if writable rows
        then sweep (length attachments) (map (paired attachments) contacts)
             ++ [ Progress "Creating zip file..." 95;
                  Progress "Download starting..." 100 ]
        else [])
  /\ length (exportAllData supabase).1
     = if writable rows
       then 5 + list_sum (map (fun c => length (attachmentsOf attachments c)) contacts)
       else 3.
Proof.
  intros Hok Hdata Hsome Hok'. cbv zeta.
  pose proof (exportAllData_trace contacts Hok Hdata Hsome Hok') as Htrace.
  cbv zeta in Htrace.
  set (attachments := default [] (data (attachments_select supabase))) in *.
  split; [exact Htrace|].
  rewrite Htrace. destruct (writable (sheetRows attachments contacts)); [|reflexivity].
  rewrite !length_app. cbn [length]. unfold sweep.
  enough (Hlen : forall (cs : list ContactWithAttachments)
                         (f : nat -> ContactWithAttachments -> list Event),
            (forall i c, length (f i c) = length c.2) ->
            length (concat (imap f cs)) = list_sum (map (fun c => length c.2) cs)).
  { rewrite Hlen by (intros i c; apply length_imap).
    rewrite map_map. cbn [snd paired]. lia. }
  clear. induction cs as [|c cs IH]; intros f Hf; [reflexivity|].
  cbn [imap concat map list_sum]. rewrite length_app, Hf.
  rewrite IH by (intros i c'; apply Hf). reflexivity.
Qed.

(** *** What the loops write *)

Lemma zip_folder_keeps (P : list string -> ZipEntry -> Prop)
    (root : list string) (name : string) (zip : JSZip) :
  (isEmpty name = false -> P ((root ++ [name]) ++ [""]) Dir) ->
  map_Forall P zip ->
  map_Forall P (zip_folder root name zip).1.
Proof.
  intros Hdir Hzip. unfold zip_folder. destruct (isEmpty name); [exact Hzip|].
  destruct (zip !! ((root ++ [name]) ++ [""])); [exact Hzip|]. cbn [fst].
  apply map_Forall_insert_2; [now apply Hdir | exact Hzip].
Qed.

Lemma downloadLoop_keeps (P : list string -> ZipEntry -> Prop)
    total i contact n folder (rest : list Attachment) :
  (forall a fileData,
     In a rest ->
     storage_download supabase (file_path a) = Downloaded fileData ->
     P (folder ++ [sanitizeName (file_name a)]) (FileEntry fileData)) ->
  forall j zip trace,
    map_Forall P zip ->
    map_Forall P (downloadLoop supabase total i contact n folder j rest zip trace).1.
Proof.
  induction rest as [|a rest IH]; intros Hwrites j zip trace Hzip;
    cbn [downloadLoop]; [exact Hzip|].
  apply IH; [intros a' fileData Hin; apply Hwrites; now right|].
  destruct (storage_download supabase (file_path a)) as [fileData| |] eqn:Hget;
    try exact Hzip.
  unfold zip_file. apply map_Forall_insert_2; [|exact Hzip].
  now apply (Hwrites a fileData (or_introl eq_refl)).
Qed.

Lemma contactsLoop_keeps (P : list string -> ZipEntry -> Prop)
    total folder (rest : list ContactWithAttachments) :
  (forall c,
     In c rest -> c.2 <> [] ->
     (isEmpty (sanitizeName (name c.1)) = false ->
      P ((folder ++ [sanitizeName (name c.1)]) ++ [""]) Dir)
     /\ forall a fileData,
          In a c.2 ->
          storage_download supabase (file_path a) = Downloaded fileData ->
          P ((if isEmpty (sanitizeName (name c.1)) then folder
              else folder ++ [sanitizeName (name c.1)])
             ++ [sanitizeName (file_name a)])
            (FileEntry fileData)) ->
  forall i zip trace,
    map_Forall P zip ->
    map_Forall P (contactsLoop supabase total folder i rest zip trace).1.
Proof.
  induction rest as [|[contact attachments] rest IH]; intros Hwrites i zip trace Hzip;
    [exact Hzip|].
  rewrite ExportFacts.contactsLoop_cons.
  apply IH; [intros c Hc; apply Hwrites; now right|].
  rewrite ExportFacts.contactsLoop_one.
  destruct attachments as [|a attachments]; [exact Hzip|].
  cbn [length Nat.ltb Nat.leb].
  destruct (Hwrites (contact, a :: attachments) (or_introl eq_refl))
    as [Hdir Hfiles]; [discriminate|].
  cbn [fst snd] in Hdir, Hfiles.
  apply downloadLoop_keeps.
  - rewrite ExportFacts.zip_folder_root. exact Hfiles.
  - now apply zip_folder_keeps.
Qed.

(** X14.  Every entry of the archive of a run is the workbook, the
    directory entry of the [Attachments] folder, the directory entry of
    the subfolder of a contact of the query that has attachment rows and
    a sanitized name that is not empty, or the data downloaded for one of
    the rows of such a contact, under its sanitized file name, in the
    subfolder of the contact, or in the [Attachments] folder itself when
    the sanitized name of the contact is empty.  Nothing is assumed on the
    names. *)
Theorem export_archive_holds_nothing_else :
  map_Forall
    (expected supabase (default [] (data (contacts_select supabase))))
    (archiveOf (exportAllData supabase)).
Proof.
  unfold archiveOf.
  destruct (error (contacts_select supabase)) as [message|] eqn:Hok.
  { unfold exportAllData. rewrite Hok. apply map_Forall_empty. }
  destruct (data (contacts_select supabase)) as [[|contact contacts]|] eqn:Hdata.
  1, 3: unfold exportAllData; rewrite Hok, Hdata; apply map_Forall_empty.
  destruct (error (attachments_select supabase)) as [message|] eqn:Hok'.
  { unfold exportAllData. rewrite Hok, Hdata, Hok'. apply map_Forall_empty. }
  cbn [default from_option Datatypes.id].
  set (attachments := default [] (data (attachments_select supabase))).
  set (cs := contact :: contacts).
  destruct (writable (sheetRows attachments cs)) eqn:Hfits.
  2: { rewrite (exportAllData_thrown contact contacts Hok Hdata Hok' Hfits).
       apply map_Forall_empty. }
  rewrite (ExportFacts.exportAllData_sweeps supabase contact contacts _ Hok Hdata Hok'
             (ExportFacts.generateExcel_writable attachments cs Hfits)).
  cbn [snd]. fold attachments cs.
  assert (Hbase : map_Forall (expected supabase cs)
                    (zip_file [] "Contacts.xlsx"
                       (Xlsx "Contacts" (sheetRows attachments cs)) ∅)).
  { unfold zip_file. apply map_Forall_insert_2; [|apply map_Forall_empty].
    left. split; reflexivity. }
  destruct (0 <? length attachments); [|exact Hbase].
  apply contactsLoop_keeps.
  - intros c (owner & <- & Hin)%in_map_iff Hfiles. cbn [paired fst snd] in *.
    split.
    + intros Hnamed. right. right. exists owner.
      split; [exact Hin|]. split; [exact Hfiles|]. left.
      split; [reflexivity|]. split; [reflexivity | exact Hnamed].
    + intros a fileData Ha Hget. right. right. exists owner.
      split; [exact Hin|]. split; [exact Hfiles|].
      right. exists a, fileData. split; [exact Ha|]. split; [exact Hget|].
      split; [reflexivity|]. unfold targetOf, folderOf.
      destruct (isEmpty (sanitizeName (name owner))); reflexivity.
  - apply zip_folder_keeps; [|exact Hbase]. intros _. right. left. split; reflexivity.
Qed.

Lemma rows_numbered (contacts : list ContactWithAttachments) :
  forall k,
    map col_number (imap (fun i => excelRow (k + i)) contacts)
    = seq (k + 1) (length contacts)
    /\ map col_Name (imap (fun i => excelRow (k + i)) contacts)
       = map (fun c => name c.1) contacts.
Proof.
  induction contacts as [|[contact attachments] contacts IH]; intros k;
    [split; reflexivity|].
  cbn [imap map length seq]. rewrite Nat.add_0_r.
  destruct (IH (S k)) as [Hnum Hname].
  assert (Hshift : imap ((fun i => excelRow (k + i)) ∘ S) contacts
                   = imap (fun i => excelRow (S k + i)) contacts).
  { apply imap_ext. intros i x _. cbn. f_equal. lia. }
  rewrite Hshift, Hnum, Hname. split; [|reflexivity].
  cbn [col_number excelRow]. replace (S k + 1) with (S (k + 1)) by lia. reflexivity.
Qed.

(** X15.  An export is fulfilled exactly when the contacts query succeeds
    with one contact at least, the attachments query succeeds and no text
    of the sheet is longer than a cell can hold, whatever the downloads
    answer.  The archive saved is named after the date; it holds
    [Contacts.xlsx], whose sheet has one row per contact, numbered from 1
    in query order; and it has an entry named [Attachments/] exactly when
    there is an attachment row.  A rejected export has made three progress
    calls at most and carries one of four messages, the fourth being the
    one of the error that [XLSX.write] throws, after exactly three
    calls. *)
Theorem exportAllData_outcome :
  let run := exportAllData supabase in
  let contacts := default [] (data (contacts_select supabase)) in
  let attachments := default [] (data (attachments_select supabase)) in
  let rows := sheetRows attachments contacts in
  ((exists saved, run.2 = Fulfilled saved)
   <-> error (contacts_select supabase) = None
       /\ contacts <> []
       /\ error (attachments_select supabase) = None
       /\ writable rows = true)
  /\ (forall saved,
        run.2 = Fulfilled saved ->
        saved.1 = "IR_CRM_Backup_" +:+ beforeT (now_toISOString supabase) +:+ ".zip"
        /\ saved.2 !! ["Contacts.xlsx"] = Some (FileEntry (Xlsx "Contacts" rows))
        /\ (is_Some (saved.2 !! ["Attachments"; ""]) <-> attachments <> []))
  /\ (forall message,
        run.2 = Rejected message ->
        length run.1 <= 3
        /\ (message = "No contacts to export"
            \/ (exists reason,
                  error (contacts_select supabase) = Some reason
                  /\ message = "Failed to fetch contacts: " +:+ reason)
            \/ (exists reason,
                  error (attachments_select supabase) = Some reason
                  /\ message = "Failed to fetch attachments: " +:+ reason)
            \/ (writable rows = false
                /\ length run.1 = 3
                /\ generateExcel (map (paired attachments) contacts)
                   = Rejected message)))
  /\ map col_number rows = seq 1 (length contacts)
  /\ map col_Name rows = map name contacts.
Proof.
  cbv zeta.
  assert (Hsheet : forall contacts attachments,
            map col_number (sheetRows attachments contacts) = seq 1 (length contacts)
            /\ map col_Name (sheetRows attachments contacts) = map name contacts).
  { intros contacts attachments. unfold sheetRows.
    destruct (rows_numbered (map (paired attachments) contacts) 0) as [Hnum Hname].
    cbn [Nat.add] in Hnum, Hname. rewrite length_map in Hnum.
    rewrite map_map in Hname. cbn [paired fst] in Hname.
    split; [exact Hnum | exact Hname]. }
  destruct (error (contacts_select supabase)) as [reason|] eqn:Hok.
  { unfold exportAllData. rewrite Hok. cbn [fst snd].
    split; [split; [intros [saved [=]] | intros [[=] _]]|].
    split; [intros saved [=]|].
    split; [|apply Hsheet].
    intros message [= <-]. split; [cbn; lia|]. right. left. now exists reason. }
  destruct (data (contacts_select supabase)) as [[|contact contacts]|] eqn:Hdata.
  1, 3: unfold exportAllData; rewrite Hok, Hdata; cbn [fst snd default from_option];
    (split; [split; [intros [saved [=]] | intros (_ & Hne & _); now contradiction Hne]|]);
    (split; [intros saved [=]|]);
    (split; [|apply Hsheet]);
    intros message [= <-]; (split; [cbn; lia | now left]).
  destruct (error (attachments_select supabase)) as [reason|] eqn:Hok'.
  { unfold exportAllData. rewrite Hok, Hdata, Hok'. cbn [fst snd].
    split; [split; [intros [saved [=]] | intros (_ & _ & [=] & _)]|].
    split; [intros saved [=]|].
    split; [|apply Hsheet].
    intros message [= <-]. split; [cbn; lia|]. right. right. left. now exists reason. }
  change (default [] (Some (contact :: contacts))) with (contact :: contacts).
  set (attachments := default [] (data (attachments_select supabase))) in *.
  destruct (writable (sheetRows attachments (contact :: contacts))) eqn:Hfits.
  2: { rewrite (exportAllData_thrown contact contacts Hok Hdata Hok' Hfits).
       cbn [fst snd length].
       split; [split; [intros [saved [=]] | intros (_ & _ & _ & [=])]|].
       split; [intros saved [=]|].
       split; [|apply Hsheet].
       intros message [= <-]. split; [lia|]. do 3 right.
       split; [reflexivity|]. split; [reflexivity|].
       now apply ExportFacts.generateExcel_thrown. }
  pose proof (ExportFacts.exportAllData_sweeps supabase contact contacts _ Hok Hdata Hok'
                (ExportFacts.generateExcel_writable attachments _ Hfits)) as Hrun.
  cbv zeta in Hrun. fold attachments in Hrun.
  set (book := Xlsx "Contacts" (sheetRows attachments (contact :: contacts))) in *.
  match type of Hrun with _ = Fulfilled (_, ?z) => set (zip := z) in * end.
  assert (Hzip :
    zip !! ["Contacts.xlsx"] = Some (FileEntry book)
    /\ (is_Some (zip !! ["Attachments"; ""]) <-> attachments <> [])).
  { subst zip. destruct (0 <? length attachments) eqn:Htotal.
    - rewrite ExportFacts.contactsLoop_above by (cbn; lia).
      rewrite ExportFacts.base_lookup. split; [reflexivity|]. split.
      + intros _ Hnil. rewrite Hnil in Htotal. discriminate.
      + intros _. apply ExportFacts.contactsLoop_grows.
        rewrite ExportFacts.base_lookup. cbn. eauto.
    - unfold zip_file. cbn [app]. rewrite lookup_insert_eq.
      split; [reflexivity|]. rewrite lookup_insert_ne by discriminate.
      rewrite lookup_empty. split; [intros [? [=]]|].
      intros Hsome. destruct attachments; [now contradiction Hsome | discriminate]. }
  clearbody zip. rewrite Hrun.
  split; [split; [intros _; repeat split; discriminate | intros _; eauto]|].
  split; [|split; [intros message [=] | apply Hsheet]].
  intros saved [= <-]. cbn [fst snd]. split; [reflexivity | exact Hzip].
Qed.

End with_collaborator.

Lemma exportAllData_progress_witness :
  length (@exportAllData Reference.utc Samples.oneDownloadFails).1 = 7.
Proof.
  refine (eq_trans
            (proj2 (@exportAllData_progress_calls Reference.utc
                      Samples.oneDownloadFails
                      [Samples.contact "Ann"; Samples.contact "Bob"] _ _ _ _)) _).
  - reflexivity.
  - reflexivity.
  - discriminate.
  - reflexivity.
  - vm_compute. reflexivity.
Defined.

End RunExportFacts.

(** ** Sorting, sets and maps *)

Module DataFacts.
Import Js JsData.
Local Open Scope nat_scope.
Local Open Scope list_scope.

Lemma insertSorted_perm {A : Type} (cmp : A -> A -> Z) x (l : list A) :
  Permutation (insertSorted cmp x l) (x :: l).
Proof.
  induction l as [|y l IH]; cbn [insertSorted]; [reflexivity|].
  destruct (cmp x y <=? 0)%Z; [reflexivity|].
  rewrite IH. apply perm_swap.
Qed.

Lemma Array_sort_perm {A : Type} (cmp : A -> A -> Z) (l : list A) :
  Permutation (Array_sort cmp l) l.
Proof.
  induction l as [|x l IH]; cbn [Array_sort fold_right]; [reflexivity|].
  rewrite insertSorted_perm. now constructor.
Qed.

Section maps.
Context {V : Type}.
Implicit Types m : list (string * V).

Lemma Map_get_set k k' v m :
  Map_get k' (Map_set k v m) = if String.eqb k k' then Some v else Map_get k' m.
Proof.
  induction m as [|[k0 v0] m IH]; cbn [Map_set Map_get]; [reflexivity|].
  destruct (String.eqb_spec k0 k) as [->|Hne]; cbn [Map_get].
  - destruct (String.eqb k k'); reflexivity.
  - rewrite IH. destruct (String.eqb_spec k0 k') as [->|Hne']; [|reflexivity].
    apply String.eqb_neq in Hne. rewrite SelectionFacts.eqb_comm in Hne.
    now rewrite Hne.
Qed.

Lemma Map_set_keys k v m :
  map fst (Map_set k v m) = Set_add k (map fst m).
Proof.
  unfold Set_add. induction m as [|[k0 v0] m IH]; cbn [Map_set map fst existsb];
    [reflexivity|].
  rewrite (SelectionFacts.eqb_comm k k0).
  destruct (String.eqb k0 k); cbn [map fst orb]; [reflexivity|].
  rewrite IH. destruct (existsb (String.eqb k) (map fst m)); reflexivity.
Qed.

Lemma Set_add_NoDup x (set : list string) : NoDup set -> NoDup (Set_add x set).
Proof.
  unfold Set_add. intros Hset. destruct (existsb (String.eqb x) set) eqn:E;
    [exact Hset|].
  apply NoDup_app. split; [exact Hset|]. split; [|apply NoDup_singleton].
  intros y Hy ->%list_elem_of_singleton.
  apply list_elem_of_In in Hy.
  assert (existsb (String.eqb x) set = true); [|congruence].
  apply existsb_exists. exists x. split; [exact Hy | apply String.eqb_refl].
Qed.

Lemma Map_get_In k v m : Map_get k m = Some v -> In (k, v) m.
Proof.
  induction m as [|[k0 v0] m IH]; cbn [Map_get]; [discriminate|].
  destruct (String.eqb_spec k0 k) as [->|Hne].
  - intros [= ->]. now left.
  - intros Hget. right. exact (IH Hget).
Qed.

Lemma In_Map_get k v m : NoDup (map fst m) -> In (k, v) m -> Map_get k m = Some v.
Proof.
  induction m as [|[k0 v0] m IH]; cbn [map fst Map_get]; [contradiction|].
  intros [Hnew Hrest]%NoDup_cons [[= -> ->]|Hin].
  - now rewrite String.eqb_refl.
  - destruct (String.eqb_spec k0 k) as [->|Hne]; [|exact (IH Hrest Hin)].
    exfalso. apply Hnew. apply list_elem_of_In, in_map_iff. now exists (k, v).
Qed.

End maps.

Lemma list_sum_cons (a : nat) (l : list nat) : list_sum (a :: l) = a + list_sum l.
Proof. reflexivity. Qed.

Lemma Map_set_sum k (m : list (string * nat)) :
  list_sum (map snd (Map_set k (default 0 (Map_get k m) + 1) m))
  = list_sum (map snd m) + 1.
Proof.
  induction m as [|[k0 v0] m IH]; [reflexivity|].
  cbn [Map_set Map_get]. destruct (String.eqb k0 k); cbn [map snd];
    rewrite !list_sum_cons.
  - unfold default, from_option, Datatypes.id. lia.
  - rewrite IH. lia.
Qed.

End DataFacts.

(** ** The dashboard: counts and lists *)

Module DashboardFacts.
Import Js JsData ExportLib Dashboard DashboardSpec DataFacts.
Local Open Scope nat_scope.
Local Open Scope list_scope.

Lemma present_equals (x : option string) value :
  equals x value = true -> present x = negb (isEmpty value).
Proof.
  destruct x as [s|]; cbn; [|discriminate]. now intros ->%String.eqb_eq.
Qed.

Section counts.
Context (field : Contact -> option string).

Lemma count_get counts c key :
  Map_get key (count counts (field c))
  = if present (field c) && equals (field c) key
    then Some (default 0 (Map_get key counts) + 1)
    else Map_get key counts.
Proof.
  unfold count, present, equals. destruct (field c) as [s|]; [|reflexivity].
  destruct (isEmpty s); cbn [negb andb]; [reflexivity|].
  rewrite Map_get_set. destruct (String.eqb_spec s key) as [->|Hne]; reflexivity.
Qed.

Lemma fold_count_get key (contacts : list Contact) :
  forall counts,
    let n := length (List.filter (fun c => present (field c) && equals (field c) key)
                       contacts) in
    Map_get key (fold_left (fun counts c => count counts (field c)) contacts counts)
    = if 0 <? n then Some (default 0 (Map_get key counts) + n)
      else Map_get key counts.
Proof.
  induction contacts as [|c contacts IH]; intros counts; cbn [fold_left List.filter];
    [reflexivity|].
  cbv zeta in IH |- *. rewrite IH, count_get.
  destruct (present (field c) && equals (field c) key); cbn [length];
    [|reflexivity].
  destruct (length _) as [|n]; cbn [Nat.ltb Nat.leb default from_option];
    unfold Datatypes.id; f_equal; lia.
Qed.

Lemma fold_count_keys (contacts : list Contact) :
  forall counts,
    map fst (fold_left (fun counts c => count counts (field c)) contacts counts)
    = fold_left (fun set x => Set_add x set)
        (omap (fun c => if present (field c) then field c else None) contacts)
        (map fst counts).
Proof.
  induction contacts as [|c contacts IH]; intros counts;
    cbn [fold_left omap list_omap]; [reflexivity|].
  rewrite IH. unfold count, present. destruct (field c) as [s|]; [|reflexivity].
  destruct (isEmpty s); cbn [negb fold_left]; [reflexivity|].
  now rewrite Map_set_keys.
Qed.

Lemma fold_Set_add_NoDup (l : list string) :
  forall set, NoDup set -> NoDup (fold_left (fun set x => Set_add x set) l set).
Proof.
  induction l as [|x l IH]; intros set Hset; [exact Hset|].
  cbn [fold_left]. apply IH. now apply Set_add_NoDup.
Qed.

Lemma fold_count_sum (contacts : list Contact) :
  forall counts,
    list_sum (map snd (fold_left (fun counts c => count counts (field c)) contacts counts))
    = list_sum (map snd counts)
      + length (List.filter (fun c => present (field c)) contacts).
Proof.
  induction contacts as [|c contacts IH]; intros counts; cbn [fold_left List.filter];
    [cbn [length]; lia|].
  rewrite IH. unfold count, present. destruct (field c) as [s|]; [|lia].
  destruct (isEmpty s); cbn [negb length]; [lia|].
  rewrite Map_set_sum. lia.
Qed.

Lemma counted_NoDup contacts : NoDup (map fst (counted field contacts)).
Proof.
  unfold counted. rewrite fold_count_keys. apply fold_Set_add_NoDup. constructor.
Qed.

(** An entry of the counts: its key is not empty, and its number is the
    number of contacts that hold the key. *)
Lemma counted_entry contacts key n :
  In (key, n) (counted field contacts) ->
  isEmpty key = false /\ 0 < n /\ n = length (holding field key contacts).
Proof.
  intros Hin. apply (In_Map_get _ _ _ (counted_NoDup contacts)) in Hin.
  unfold counted in Hin. rewrite fold_count_get in Hin. cbn [Map_get] in Hin.
  destruct (0 <? _) eqn:Hpos; [|discriminate].
  apply Nat.ltb_lt in Hpos. injection Hin as <-.
  cbn [default from_option] in *.
  destruct (List.filter _ contacts) as [|c rest] eqn:Hfilter; [cbn in Hpos; lia|].
  assert (Hc : In c (List.filter
                       (fun c => present (field c) && equals (field c) key) contacts))
    by (rewrite Hfilter; now left).
  apply filter_In in Hc as [_ [Hpresent Hequals]%andb_prop].
  rewrite (present_equals _ _ Hequals) in Hpresent.
  apply negb_true_iff in Hpresent.
  split; [exact Hpresent|]. split; [exact Hpos|].
  rewrite <- Hfilter. unfold holding. f_equal. apply List.filter_ext. intros c'.
  destruct (equals (field c') key) eqn:E; [|apply andb_false_r].
  rewrite (present_equals _ _ E), Hpresent. reflexivity.
Qed.

Lemma counted_complete contacts c key :
  In c contacts -> field c = Some key -> isEmpty key = false ->
  exists n, In (key, n) (counted field contacts).
Proof.
  intros Hc Hfield Hkey.
  pose proof (fold_count_get key contacts []) as Hget. cbv zeta in Hget.
  destruct (List.filter _ contacts) as [|c' rest] eqn:Hfilter.
  - exfalso.
    assert (Hin : In c (List.filter
                          (fun c => present (field c) && equals (field c) key)
                          contacts)).
    { apply filter_In. split; [exact Hc|]. unfold present, equals.
      rewrite Hfield, Hkey, String.eqb_refl. reflexivity. }
    rewrite Hfilter in Hin. contradiction.
  - cbn [length Nat.ltb Nat.leb] in Hget. eexists. apply Map_get_In. exact Hget.
Qed.

End counts.

Section with_host.
Context `{Host} `{Locale}.

Lemma withCounts_entry field contacts key n :
  In (key, n) (withCounts field contacts) <-> In (key, n) (counted field contacts).
Proof.
  unfold withCounts. fold (counted field contacts).
  split; apply Permutation_in; [|symmetry]; apply Array_sort_perm.
Qed.

Lemma drill_down_institution page value contacts :
  isEmpty value = false ->
  filteredContacts (handleInstitutionSelect value (handleInstitutionsClick page)) contacts
  = holding institution value contacts.
Proof.
  intros Hvalue. unfold filteredContacts, handleInstitutionSelect,
    handleInstitutionsClick, clearFilters, setViewMode, setSelectedInstitution.
  cbn. now rewrite Hvalue.
Qed.

Lemma drill_down_location page value contacts :
  isEmpty value = false ->
  filteredContacts (handleLocationSelect value (handleLocationsClick page)) contacts
  = holding location value contacts.
Proof.
  intros Hvalue. unfold filteredContacts, handleLocationSelect,
    handleLocationsClick, clearFilters, setViewMode, setSelectedLocation.
  cbn. now rewrite Hvalue.
Qed.

(** X16.  The cards of the dashboard and the lists behind them: clicking
    the total card, or clearing the filters, lists every contact and
    leaves no filter active; clicking the high priority card lists as many
    contacts as the card counts; and the locations card, which counts
    [uniqueLocations], counts the entries of the locations overview, whose
    names are the same. *)
Theorem stat_cards_match_lists (page : Page) (contacts : list Contact) :
  filteredContacts (handleTotalContactsClick page) contacts = contacts
  /\ filteredContacts (clearFilters page) contacts = contacts
  /\ hasActiveFilters (clearFilters page) = false
  /\ length (filteredContacts (handleHighPriorityClick page) contacts)
     = highPriorityCount contacts
  /\ length (uniqueLocations contacts) = length (locationsWithCounts contacts)
  /\ Permutation (map fst (locationsWithCounts contacts)) (uniqueLocations contacts).
Proof.
  split; [reflexivity|]. split; [reflexivity|]. split; [reflexivity|].
  split; [reflexivity|].
  assert (Hkeys : forall field,
            Permutation (map fst (withCounts field contacts))
              (fold_left (fun set x => Set_add x set)
                 (omap (fun c => if present (field c) then field c else None) contacts)
                 [])).
  { intros field. unfold withCounts. rewrite Array_sort_perm.
    now rewrite fold_count_keys. }
  assert (Hloc : Permutation (map fst (locationsWithCounts contacts))
                   (uniqueLocations contacts)).
  { unfold locationsWithCounts, uniqueLocations. rewrite Hkeys.
    symmetry. apply Array_sort_perm. }
  split; [|exact Hloc].
  rewrite <- (Permutation_length Hloc). now rewrite length_map.
Qed.

(** X17.  An entry of [institutionsWithCounts] or of
    [locationsWithCounts] carries a positive count, and selecting it from
    the overview lists exactly the contacts that hold the value, as many
    as the count.  Every contact with a non-empty value has its entry, no
    name comes twice, and the counts add up to the number of contacts
    that have a value. *)
Theorem counts_match_drill_down (page : Page) (contacts : list Contact) :
  (forall name n,
     In (name, n) (institutionsWithCounts contacts) ->
     0 < n
     /\ filteredContacts (handleInstitutionSelect name (handleInstitutionsClick page))
          contacts
        = holding institution name contacts
     /\ length (holding institution name contacts) = n)
  /\ (forall name n,
        In (name, n) (locationsWithCounts contacts) ->
        0 < n
        /\ filteredContacts (handleLocationSelect name (handleLocationsClick page))
             contacts
           = holding location name contacts
        /\ length (holding location name contacts) = n)
  /\ (forall c name,
        In c contacts -> isEmpty name = false ->
        (institution c = Some name ->
         exists n, In (name, n) (institutionsWithCounts contacts))
        /\ (location c = Some name ->
            exists n, In (name, n) (locationsWithCounts contacts)))
  /\ NoDup (map fst (institutionsWithCounts contacts))
  /\ NoDup (map fst (locationsWithCounts contacts))
  /\ list_sum (map snd (institutionsWithCounts contacts))
     = length (List.filter (fun c => present (institution c)) contacts)
  /\ list_sum (map snd (locationsWithCounts contacts))
     = length (List.filter (fun c => present (location c)) contacts).
Proof.
  assert (Hperm : forall field,
            Permutation (withCounts field contacts) (counted field contacts)).
  { intros field. apply Array_sort_perm. }
  split.
  { intros name n Hin. apply withCounts_entry, counted_entry in Hin
      as (Hname & Hpos & ->).
    split; [exact Hpos|]. split; [now apply drill_down_institution | reflexivity]. }
  split.
  { intros name n Hin. apply withCounts_entry, counted_entry in Hin
      as (Hname & Hpos & ->).
    split; [exact Hpos|]. split; [now apply drill_down_location | reflexivity]. }
  split.
  { intros c name Hc Hname. split; intros Hfield;
      destruct (counted_complete _ contacts c name Hc Hfield Hname) as [n Hn];
      exists n; now apply withCounts_entry. }
  unfold institutionsWithCounts, locationsWithCounts.
  split; [rewrite (Hperm institution); apply counted_NoDup|].
  split; [rewrite (Hperm location); apply counted_NoDup|].
  split; rewrite Hperm; unfold counted; rewrite fold_count_sum; reflexivity.
Qed.

End with_host.
End DashboardFacts.

(** ** The dashboard: navigation and the export dialog *)

Module PageFacts.
Import Js JsData ExportLib Dashboard.
Local Open Scope nat_scope.
Local Open Scope list_scope.

(** X18.  From the list of an institution or of a location, [Back]
    leads to the overview the list was opened from.  On the high priority
    list the button is rendered as well, but its handler leaves the page
    as it is: the priority filter stays. *)
Theorem handleBackToList_returns (page : Page) (name : string) :
  isEmpty name = false ->
  handleBackToList (handleInstitutionSelect name (handleInstitutionsClick page))
  = handleInstitutionsClick page
  /\ handleBackToList (handleLocationSelect name (handleLocationsClick page))
     = handleLocationsClick page
  /\ backShown (handleInstitutionSelect name (handleInstitutionsClick page)) = true
  /\ backShown (handleLocationSelect name (handleLocationsClick page)) = true
  /\ backShown (handleHighPriorityClick page) = true
  /\ handleBackToList (handleHighPriorityClick page) = handleHighPriorityClick page.
Proof.
  intros Hname.
  unfold handleBackToList, handleInstitutionSelect, handleLocationSelect,
    handleInstitutionsClick, handleLocationsClick, handleHighPriorityClick, backShown.
  cbn. rewrite Hname. cbn. repeat split.
Qed.

Lemma handleBackToList_witness :
  let page := clearFilters (handleHighPriorityClick (clearFilters
                {| searchQuery := "fund"; locationFilter := ""; priorityFilter := "";
                   dateFilter := ""; dateFilterType := after;
                   viewMode := view_contacts; selectedLocation := None;
                   selectedInstitution := None |})) in
  isEmpty "Acme" = false
  /\ handleBackToList (handleInstitutionSelect "Acme" (handleInstitutionsClick page))
     = handleInstitutionsClick page.
Proof.
  cbv zeta. split; [reflexivity|].
  refine (proj1 (handleBackToList_returns _ "Acme" _)). reflexivity.
Defined.

Section with_collaborator.
Context `{Host} (supabase : Supabase).

(** X19.  The export dialog when [exportAllData] has settled:
    [isExporting] is still on; success is reported exactly when the
    contacts query succeeds with a contact, the attachments query succeeds
    and no text of the sheet is longer than a cell can hold.  On success
    the progress shown is the last one, 100 percent, and closing does
    nothing until the timer has cleared [isExporting]; on failure the
    message thrown is shown and closing resets the dialog. *)
Theorem handleExport_reports (s : ExportState) :
  let s' := handleExport supabase s in
  let contacts := default [] (data (contacts_select supabase)) in
  let attachments := default [] (data (attachments_select supabase)) in
  isExporting s' = true
  /\ (exportSuccess s' = true
      <-> error (contacts_select supabase) = None
          /\ contacts <> []
          /\ error (attachments_select supabase) = None
          /\ writable (ArchiveSpec.sheetRows attachments contacts) = true)
  /\ (exportSuccess s' = true ->
      exportError s' = None
      /\ exportProgress s' = ("Download starting...", 100%float)
      /\ closeExportModal s' = s'
      /\ closeExportModal (exportTimeout s')
         = {| isExporting := false; exportProgress := exportProgress s';
              exportError := None; exportSuccess := false |})
  /\ (exportSuccess s' = false ->
      (exists message,
         (exportAllData supabase).2 = Rejected message
         /\ exportError s' = Some message)
      /\ present (exportError s') = true
      /\ closeExportModal s'
         = {| isExporting := false; exportProgress := exportProgress s';
              exportError := None; exportSuccess := false |}).
Proof.
  cbv zeta. unfold handleExport.
  destruct (error (contacts_select supabase)) as [reason|] eqn:Hok.
  { unfold exportAllData. rewrite Hok.
    cbn [isExporting exportSuccess exportError exportProgress closeExportModal
         present isEmpty append negb orb fst snd].
    split; [reflexivity|].
    split; [split; [discriminate | intros [[=] _]]|].
    split; [discriminate|]. intros _. split; [eauto | split; reflexivity]. }
  destruct (data (contacts_select supabase)) as [[|contact contacts]|] eqn:Hdata.
  1, 3: unfold exportAllData; rewrite Hok, Hdata;
    cbn [isExporting exportSuccess exportError exportProgress closeExportModal
         present isEmpty append negb orb fst snd default from_option];
    (split; [reflexivity|]);
    (split; [split; [discriminate | intros (_ & Hne & _); now contradiction Hne]|]);
    (split; [discriminate|]); intros _; (split; [eauto | split; reflexivity]).
  destruct (error (attachments_select supabase)) as [reason|] eqn:Hok'.
  { unfold exportAllData. rewrite Hok, Hdata, Hok'.
    cbn [isExporting exportSuccess exportError exportProgress closeExportModal
         present isEmpty append negb orb fst snd].
    split; [reflexivity|].
    split; [split; [discriminate | intros (_ & _ & [=] & _)]|].
    split; [discriminate|]. intros _. split; [eauto | split; reflexivity]. }
  change (default [] (Some (contact :: contacts))) with (contact :: contacts).
  set (attachments := default [] (data (attachments_select supabase))).
  destruct (writable (ArchiveSpec.sheetRows attachments (contact :: contacts)))
    eqn:Hfits.
  2: { rewrite (RunExportFacts.exportAllData_thrown supabase contact contacts
                  Hok Hdata Hok' Hfits).
       cbn [isExporting exportSuccess exportError exportProgress closeExportModal
            present isEmpty append negb orb fst snd fold_left setExportProgress].
       split; [reflexivity|].
       split; [split; [discriminate | intros (_ & _ & _ & [=])]|].
       split; [discriminate|]. intros _. split; [eauto | split; reflexivity]. }
  pose proof (RunExportFacts.exportAllData_trace supabase (contact :: contacts)
                Hok Hdata ltac:(discriminate) Hok') as Htrace.
  pose proof (ExportFacts.exportAllData_sweeps supabase contact contacts _
                Hok Hdata Hok'
                (ExportFacts.generateExcel_writable attachments _ Hfits)) as Hrun.
  cbv zeta in Htrace, Hrun. fold attachments in Htrace. rewrite Hfits in Htrace.
  destruct (exportAllData supabase) as [trace outcome].
  cbn [fst snd] in Htrace, Hrun. subst trace outcome.
  rewrite !app_assoc, fold_left_app.
  cbn [fold_left setExportProgress isExporting exportSuccess exportError
       exportProgress closeExportModal exportTimeout present negb orb].
  split; [reflexivity|].
  split; [split; [intros _; repeat split; discriminate | reflexivity]|].
  split; [intros _; repeat split | discriminate].
Qed.

End with_collaborator.
End PageFacts.

(** ** File categories and icons *)

Module CategoryFacts.
Import Js JsData ExportLib FileUpload.
Local Open Scope nat_scope.
Local Open Scope list_scope.

Lemma prefix_refl (s : string) : String.prefix s s = true.
Proof.
  induction s as [|c s IH]; cbn; [reflexivity|].
  destruct (ascii_dec c c); [exact IH | contradiction].
Qed.

Lemma prefix_trans (a b c : string) :
  String.prefix a b = true -> String.prefix b c = true -> String.prefix a c = true.
Proof.
  revert b c. induction a as [|x a IH]; intros b c; [destruct c; reflexivity|].
  destruct b as [|y b]; [discriminate|]. destruct c as [|z c]; [discriminate|].
  cbn. destruct (ascii_dec x y) as [->|]; [|discriminate].
  destruct (ascii_dec y z) as [->|]; [|discriminate].
  apply IH.
Qed.

Lemma prefix_same_head x y (a b s : string) :
  String.prefix (String x a) s = true -> String.prefix (String y b) s = true -> x = y.
Proof.
  destruct s as [|z s]; [discriminate|]. cbn.
  destruct (ascii_dec x z) as [->|]; [|discriminate].
  destruct (ascii_dec y z) as [->|]; [reflexivity | discriminate].
Qed.

Lemma matches_prefix (fileType t : string) :
  String.prefix t fileType || String.eqb fileType t = String.prefix t fileType.
Proof.
  destruct (String.eqb_spec fileType t) as [->|_]; [|apply orb_false_r].
  now rewrite prefix_refl.
Qed.

(** Two of the tests on a type cannot both succeed when the prefixes
    start with different characters, and a type that starts with one of
    the image types starts with [image/]. *)
Ltac clash :=
  match goal with
  | H1 : String.prefix (String ?x _) ?s = true,
    H2 : String.prefix (String ?y _) ?s = true |- _ =>
      pose proof (prefix_same_head _ _ _ _ _ H1 H2); discriminate
  | H1 : String.prefix ?p ?s = true, H2 : String.prefix "image/" ?s = false |- _ =>
      rewrite (prefix_trans "image/" p s eq_refl H1) in H2; discriminate
  end.

Ltac tests s :=
  repeat (match goal with
          | |- context [String.prefix ?p s] =>
              let E := fresh "E" in destruct (String.prefix p s) eqn:E
          end;
          cbn [orb andb negb]).

Lemma categoryLoop_icon (s : string) :
  Some (iconLoop FILE_ICONS s)
  = option_map icon (Map_get (categoryLoop FILE_CATEGORIES s) FILE_CATEGORIES).
Proof.
  cbn. unfold matches, startsWith. rewrite !matches_prefix.
  tests s; try reflexivity; clash.
Qed.

Lemma categoryLoop_range (s : string) :
  In (categoryLoop FILE_CATEGORIES s) ["pdf"; "excel"; "image"; "email"; "other"].
Proof.
  cbn. unfold matches, startsWith. rewrite !matches_prefix. tests s; cbn; tauto.
Qed.

Lemma categoryLoop_image (s : string) :
  String.prefix "image/" s = true -> categoryLoop FILE_CATEGORIES s = "image".
Proof.
  intros Himage. cbn. unfold matches, startsWith. rewrite !matches_prefix, Himage.
  tests s; try reflexivity; clash.
Qed.

Lemma getFileCategory_range (fileType : option string) :
  In (getFileCategory fileType) (map fst FILE_CATEGORIES).
Proof.
  destruct fileType as [[|c s]|]; cbn [getFileCategory isEmpty];
    [cbn; tauto | apply categoryLoop_range | cbn; tauto].
Qed.

(** X20.  The category of a file type is one of the five keys of
    [FILE_CATEGORIES], and the icon [getFileIcon] picks is the icon of
    that category, for every type, although the two functions go through
    different tables in a different order.  A type that begins with
    [image/] is an image; a missing or empty type is [other]. *)
Theorem getFileCategory_agrees_with_icon (fileType : option string) :
  In (getFileCategory fileType) (map fst FILE_CATEGORIES)
  /\ Some (getFileIcon fileType)
     = option_map icon (Map_get (getFileCategory fileType) FILE_CATEGORIES)
  /\ (forall t,
        fileType = Some t -> startsWith "image/" t = true ->
        getFileCategory fileType = "image" /\ getFileIcon fileType = Image)
  /\ (fileType = None \/ fileType = Some "" ->
      getFileCategory fileType = "other" /\ getFileIcon fileType = File).
Proof.
  split; [apply getFileCategory_range|].
  split.
  { destruct fileType as [[|c s]|]; cbn [getFileCategory getFileIcon isEmpty];
      [reflexivity | apply categoryLoop_icon | reflexivity]. }
  split.
  - intros t -> Himage. unfold startsWith in Himage.
    destruct t as [|c s]; [discriminate|].
    cbn [getFileCategory getFileIcon isEmpty].
    pose proof (categoryLoop_icon (String c s)) as Hicon.
    rewrite (categoryLoop_image _ Himage) in *. split; [reflexivity|].
    cbn in Hicon. now injection Hicon.
  - intros [->| ->]; split; reflexivity.
Qed.

End CategoryFacts.

(** ** The filters of the file list *)

Module FilterFacts.
Import Js JsData ExportLib FileUpload.
Local Open Scope nat_scope.
Local Open Scope list_scope.

Lemma Set_add_In x y (set : list string) : In y (Set_add x set) <-> y = x \/ In y set.
Proof.
  unfold Set_add. destruct (existsb (String.eqb x) set) eqn:E.
  - split; [tauto|]. intros [->|Hy]; [|exact Hy].
    apply existsb_exists in E as (z & Hz & ->%String.eqb_eq). exact Hz.
  - rewrite in_app_iff. cbn. intuition congruence.
Qed.

Lemma fold_Set_add_In {A : Type} (f : A -> string) (l : list A) y :
  forall set,
    In y (fold_left (fun set a => Set_add (f a) set) l set)
    <-> In y set \/ exists a, In a l /\ f a = y.
Proof.
  induction l as [|a l IH]; intros set; cbn [fold_left].
  - split; [tauto | intros [Hy|(a & [] & _)]; exact Hy].
  - rewrite IH, Set_add_In. split.
    + intros [[->|Hy]|(a' & Ha' & Hf)]; [right; exists a; split; [now left | reflexivity]
                                        | now left
                                        | right; exists a'; split; [now right | exact Hf]].
    + intros [Hy|(a' & [<-|Ha'] & Hf)]; [left; now right | left; now left
                                        | right; now exists a'].
Qed.

Lemma fold_Set_add_NoDup_by {A : Type} (f : A -> string) (l : list A) :
  forall set,
    NoDup set -> NoDup (fold_left (fun set a => Set_add (f a) set) l set).
Proof.
  induction l as [|a l IH]; intros set Hset; [exact Hset|].
  cbn [fold_left]. apply IH. now apply DataFacts.Set_add_NoDup.
Qed.

Lemma Array_sort_In {A : Type} (cmp : A -> A -> Z) (l : list A) x :
  In x (Array_sort cmp l) <-> In x l.
Proof.
  split; apply Permutation_in; [|symmetry]; apply DataFacts.Array_sort_perm.
Qed.

Lemma filterThrowing_None {A : Type} (p : A -> option bool) (l : list A) :
  filterThrowing p l = None <-> exists x, In x l /\ p x = None.
Proof.
  induction l as [|x l IH]; cbn [filterThrowing].
  - split; [discriminate | intros (x & [] & _)].
  - destruct (p x) as [keep|] eqn:Hx.
    + destruct (filterThrowing p l) as [kept|].
      * split; [discriminate|]. intros (y & [<-|Hy] & Hnone); [congruence|].
        apply proj2 in IH. discriminate IH. now exists y.
      * split; [|reflexivity]. intros _.
        destruct (proj1 IH eq_refl) as (y & Hy & Hnone). exists y. split; [now right | exact Hnone].
    + split; [|reflexivity]. intros _. exists x. split; [now left | exact Hx].
Qed.

Lemma filterThrowing_Some {A : Type} (p : A -> option bool) (l kept : list A) :
  filterThrowing p l = Some kept ->
  kept = List.filter (fun x => bool_decide (p x = Some true)) l.
Proof.
  revert kept. induction l as [|x l IH]; intros kept; cbn [filterThrowing List.filter].
  - now intros [= <-].
  - destruct (p x) as [keep|]; [|discriminate].
    destruct (filterThrowing p l) as [kept'|]; [|discriminate].
    intros [= <-]. rewrite (IH kept' eq_refl). destruct keep; reflexivity.
Qed.

Section with_host.
Context `{Host}.

(** The attachments of the type chosen. *)
Lemma typeFiltered_In typeFilter attachments a :
  In a (if negb (isEmpty typeFilter)
        then List.filter
               (fun a => String.eqb (getFileCategory (file_type a)) typeFilter)
               attachments
        else attachments)
  <-> In a attachments
      /\ (isEmpty typeFilter = true \/ getFileCategory (file_type a) = typeFilter).
Proof.
  destruct (isEmpty typeFilter); cbn [negb].
  - split; [intros Ha; split; [exact Ha | now left] | tauto].
  - rewrite filter_In, String.eqb_eq. split; [intros [Ha Hc]; split; [exact Ha | now right]|].
    intros [Ha [[=]|Hc]]. tauto.
Qed.

(** X21.  The type filter offers each category that some attachment
    has, once, and choosing an offered category alone lists one
    attachment at least; without filters the list is the attachments.
    The filtered list throws exactly when a date is chosen and an
    attachment of the chosen type has a creation date that does not
    parse; when it does not throw, it holds the attachments that pass
    both filters. *)
Theorem file_filters (attachments : list Attachment) :
  let categories := availableCategories attachments in
  NoDup categories
  /\ (forall c,
        In c categories
        <-> exists a, In a attachments /\ getFileCategory (file_type a) = c)
  /\ (forall c,
        In c categories ->
        exists first rest,
          filteredAttachments c "" attachments = Some (first :: rest))
  /\ filteredAttachments "" "" attachments = Some attachments
  /\ (forall typeFilter dateFilter,
        filteredAttachments typeFilter dateFilter attachments = None
        <-> isEmpty dateFilter = false
            /\ exists a,
                 In a attachments
                 /\ (isEmpty typeFilter = true
                     \/ getFileCategory (file_type a) = typeFilter)
                 /\ Date_parse (att_created_at a) = None)
  /\ (forall typeFilter dateFilter shown a,
        filteredAttachments typeFilter dateFilter attachments = Some shown ->
        (In a shown
         <-> In a attachments
             /\ (isEmpty typeFilter = true
                 \/ getFileCategory (file_type a) = typeFilter)
             /\ (isEmpty dateFilter = true
                 \/ dateKey (att_created_at a) = Some dateFilter))).
Proof.
  cbv zeta.
  assert (Hmember : forall c,
            In c (availableCategories attachments)
            <-> exists a, In a attachments /\ getFileCategory (file_type a) = c).
  { intros c. unfold availableCategories.
    rewrite Array_sort_In, fold_Set_add_In. cbn [In]. tauto. }
  split.
  { unfold availableCategories. rewrite DataFacts.Array_sort_perm.
    apply fold_Set_add_NoDup_by. constructor. }
  split; [exact Hmember|].
  split.
  { intros c Hc. apply Hmember in Hc as (a & Ha & Hcat).
    unfold filteredAttachments. cbn [isEmpty negb].
    assert (Hkey : isEmpty c = false).
    { pose proof (CategoryFacts.getFileCategory_range (file_type a)) as Hrange.
      rewrite Hcat in Hrange. cbn in Hrange.
      destruct Hrange as [<-|[<-|[<-|[<-|[<-|[]]]]]]; reflexivity. }
    rewrite Hkey. cbn [negb].
    destruct (List.filter _ attachments) as [|first rest] eqn:Hfilter; [|eauto].
    exfalso.
    assert (Hin : In a (List.filter
                          (fun a => String.eqb (getFileCategory (file_type a)) c)
                          attachments))
      by (apply filter_In; split; [exact Ha | now apply String.eqb_eq]).
    rewrite Hfilter in Hin. contradiction. }
  split; [reflexivity|].
  split.
  { intros typeFilter dateFilter. unfold filteredAttachments.
    destruct (isEmpty dateFilter); cbn [negb].
    - split; [discriminate | intros [[=] _]].
    - rewrite filterThrowing_None. split.
      + intros (a & Ha & Hnone). split; [reflexivity|].
        apply typeFiltered_In in Ha as [Ha Htype]. exists a.
        split; [exact Ha|]. split; [exact Htype|].
        unfold dateKey in Hnone. destruct (Date_parse (att_created_at a));
          [discriminate | reflexivity].
      + intros (_ & a & Ha & Htype & Hnone). exists a.
        split; [apply typeFiltered_In; tauto|].
        unfold dateKey. now rewrite Hnone. }
  intros typeFilter dateFilter shown a. unfold filteredAttachments.
  destruct (isEmpty dateFilter); cbn [negb].
  - intros [= <-]. rewrite typeFiltered_In. tauto.
  - intros Hshown. apply filterThrowing_Some in Hshown. subst shown.
    rewrite filter_In, typeFiltered_In, bool_decide_eq_true.
    destruct (dateKey (att_created_at a)) as [date|].
    + destruct (String.eqb_spec date dateFilter) as [->|Hne].
      * tauto.
      * split; [intros [_ [=]]|]. intros (_ & _ & [[=]|[= Hd]]). contradiction.
    + split; [intros [_ [=]]|]. intros (_ & _ & [[=]|[=]]).
Qed.

End with_host.

Section with_locale.
Context `{Host} `{Locale}.

Lemma isoDate_not_empty (t : Z) : isEmpty (isoDate t) = false.
Proof.
  unfold isoDate. destruct (civil_from_days (t / msPerDay)) as [[y m] d].
  destruct (isoYear y); reflexivity.
Qed.

Lemma datesLoop_keys (attachments : list Attachment) :
  forall dates result,
    datesLoop attachments dates = Some result ->
    (forall a, In a attachments -> is_Some (dateKey (att_created_at a)))
    /\ map fst result
       = fold_left (fun set x => Set_add x set)
           (omap (fun a => dateKey (att_created_at a)) attachments)
           (map fst dates).
Proof.
  induction attachments as [|a attachments IH]; intros dates result;
    cbn [datesLoop omap list_omap fold_left].
  - intros [= <-]. split; [intros a []|reflexivity].
  - destruct (dateKey (att_created_at a)) as [key|] eqn:Hkey; [|discriminate].
    intros Hloop. apply IH in Hloop as [Hall Hkeys].
    rewrite DataFacts.Map_set_keys in Hkeys. split; [|exact Hkeys].
    intros a' [<-|Ha']; [rewrite Hkey; eauto | now apply Hall].
Qed.

Lemma fold_Set_add_members (l : list string) y :
  forall set,
    In y (fold_left (fun set x => Set_add x set) l set) <-> In y set \/ In y l.
Proof.
  induction l as [|x l IH]; intros set; cbn [fold_left In]; [tauto|].
  rewrite IH, Set_add_In. intuition congruence.
Qed.

(** X22.  When the dates offered by the date filter can be computed (no
    creation date fails to parse), each day on which an attachment was
    made is offered once, choosing an offered day alone lists one
    attachment at least, and the filtered list never throws, whatever the
    two filters are. *)
Theorem date_filter_options (attachments : list Attachment)
    (dates : list (string * string)) :
  availableDates attachments = Some dates ->
  NoDup (map fst dates)
  /\ (forall key,
        In key (map fst dates)
        <-> exists a, In a attachments /\ dateKey (att_created_at a) = Some key)
  /\ (forall key,
        In key (map fst dates) ->
        exists first rest,
          filteredAttachments "" key attachments = Some (first :: rest))
  /\ (forall typeFilter dateFilter,
        is_Some (filteredAttachments typeFilter dateFilter attachments)).
Proof.
  unfold availableDates. intros Hdates.
  destruct (datesLoop attachments []) as [unsorted|] eqn:Hloop; [|discriminate].
  injection Hdates as <-.
  apply datesLoop_keys in Hloop as [Hall Hkeys]. cbn [map] in Hkeys.
  assert (Hperm : Permutation
                    (map fst (Array_sort (fun a b => localeCompare b.1 a.1) unsorted))
                    (map fst unsorted))
    by (apply Permutation_map, DataFacts.Array_sort_perm).
  assert (Hmember : forall key,
            In key (map fst (Array_sort (fun a b => localeCompare b.1 a.1) unsorted))
            <-> exists a, In a attachments /\ dateKey (att_created_at a) = Some key).
  { intros key. split.
    - intros Hin. apply (Permutation_in _ Hperm) in Hin.
      rewrite Hkeys in Hin. apply fold_Set_add_members in Hin as [[]|Hin].
      apply list_elem_of_In, list_elem_of_omap in Hin as (a & Ha & Hkey).
      exists a. split; [now apply list_elem_of_In | exact Hkey].
    - intros (a & Ha & Hkey). apply (Permutation_in _ (Permutation_sym Hperm)).
      rewrite Hkeys. apply fold_Set_add_members. right.
      apply list_elem_of_In, list_elem_of_omap. exists a.
      split; [now apply list_elem_of_In | exact Hkey]. }
  assert (Hreturns : forall typeFilter dateFilter,
            is_Some (filteredAttachments typeFilter dateFilter attachments)).
  { intros typeFilter dateFilter.
    destruct (filteredAttachments typeFilter dateFilter attachments) as [shown|] eqn:E;
      [eauto|].
    exfalso. unfold filteredAttachments in E.
    destruct (isEmpty dateFilter); cbn [negb] in E; [discriminate|].
    apply filterThrowing_None in E as (a & Ha & Hnone).
    apply typeFiltered_In in Ha as [Ha _]. destruct (Hall a Ha) as [key Hkey].
    rewrite Hkey in Hnone. discriminate. }
  split.
  { rewrite Hperm, Hkeys. apply DashboardFacts.fold_Set_add_NoDup. constructor. }
  split; [exact Hmember|]. split; [|exact Hreturns].
  intros key Hin. apply Hmember in Hin as (a & Ha & Hkey).
  destruct (Hreturns "" key) as [shown Hshown]. rewrite Hshown.
  assert (Hnonempty : isEmpty key = false).
  { unfold dateKey in Hkey. destruct (Date_parse (att_created_at a)) as [t|];
      [|discriminate]. injection Hkey as <-. apply isoDate_not_empty. }
  unfold filteredAttachments in Hshown. cbn [isEmpty negb] in Hshown.
  rewrite Hnonempty in Hshown. cbn [negb] in Hshown.
  apply filterThrowing_Some in Hshown. subst shown.
  destruct (List.filter _ attachments) as [|first rest] eqn:Hfilter; [|eauto].
  exfalso.
  assert (Hin : In a (List.filter
                        (fun x => bool_decide
                                    (match dateKey (att_created_at x) with
                                     | Some date => Some (String.eqb date key)
                                     | None => None
                                     end = Some true))
                        attachments)).
  { apply filter_In. split; [exact Ha|]. apply bool_decide_eq_true.
    now rewrite Hkey, String.eqb_refl. }
  rewrite Hfilter in Hin. contradiction.
Qed.

End with_locale.

Lemma date_filter_witness :
  @availableDates Reference.utc FileSamples.codeUnits FileSamples.threeFiles
  = Some [("2024-03-15", "Mar 15, 2024"); ("2024-01-02", "Jan 2, 2024")]
  /\ NoDup ["2024-03-15"; "2024-01-02"].
Proof.
  assert (Hdates :
    @availableDates Reference.utc FileSamples.codeUnits FileSamples.threeFiles
    = Some [("2024-03-15", "Mar 15, 2024"); ("2024-01-02", "Jan 2, 2024")])
    by (vm_compute; reflexivity).
  split; [exact Hdates|].
  exact (proj1 (@date_filter_options Reference.utc FileSamples.codeUnits
                  FileSamples.threeFiles _ Hdates)).
Defined.

End FilterFacts.

(** ** Uploading files *)

Module UploadFacts.
Import Js JsData ExportLib FileUpload UploadSpec.
Local Open Scope nat_scope.
Local Open Scope list_scope.

Lemma existsb_removelast {A : Type} (f : A -> bool) (l : list A) :
  existsb f l = false -> existsb f (removelast l) = false.
Proof.
  induction l as [|x l IH]; [reflexivity|]. cbn [existsb removelast].
  intros [Hx Hl]%orb_false_elim. destruct l as [|y l]; [reflexivity|].
  cbn [existsb] in *. rewrite Hx. exact (IH Hl).
Qed.

Lemma last_not_thrown (trace : list Event) :
  existsb failed trace = false -> from_option thrownBy None (last trace) = None.
Proof.
  induction trace as [|e trace IH]; [reflexivity|]. cbn [existsb].
  intros [He Hrest]%orb_false_elim. destruct trace as [|e' trace].
  - cbn. destruct e as [path file [thrown|]|row [attachment|thrown]];
      try discriminate He; reflexivity.
  - exact (IH Hrest).
Qed.

Section with_backend.
Context {Store : Type} (backend : Backend Store).

(** The loop makes the planned requests in order, stops at the first one
    that fails, and otherwise hands back the rows received. *)
Lemma uploadLoop_trace userId contactId (files : list LocalFile) :
  forall k store received,
    let run := uploadLoop backend userId contactId k files store received in
    let trace := run.1.2 in
    exists good bad,
      trace = good ++ bad
      /\ existsb failed good = false
      /\ map requestOf trace
         = firstn (length trace) (planned (stamp backend) userId contactId k files)
      /\ match run.2 with
         | inl rows =>
             bad = [] /\ rows = received ++ stored trace
             /\ length trace = 2 * length files
         | inr thrown =>
             exists e, bad = [e] /\ failed e = true /\ thrownBy e = Some thrown
         end.
Proof.
  induction files as [|file rest IH]; intros k store received; cbv zeta.
  - cbn. exists [], []. repeat split. now rewrite app_nil_r.
  - cbn [uploadLoop].
    destruct (storage_upload backend store _ file) as [store1 [thrown|]] eqn:Hup.
    + cbn [fst snd]. eexists [], [_]. cbn. repeat split.
      eexists. repeat split.
    + destruct (attachments_insert backend store1 _) as [store2 [attachment|thrown]]
        eqn:Hins.
      * specialize (IH (S k) store2 (received ++ [attachment])). cbv zeta in IH.
        destruct (uploadLoop backend userId contactId (S k) rest store2
                    (received ++ [attachment]))
          as [[store3 trace] result].
        cbn [fst snd] in IH |- *.
        destruct IH as (good & bad & -> & Hgood & Hplan & Hresult).
        eexists (_ :: _ :: good), bad. split; [reflexivity|].
        split; [cbn; exact Hgood|]. split.
        { cbn [map requestOf length planned firstn app]. do 2 f_equal. exact Hplan. }
        destruct result as [rows|thrown].
        -- destruct Hresult as (-> & -> & Hlen). split; [reflexivity|].
           rewrite app_nil_r in *. cbn [stored omap list_omap length].
           split; [now rewrite <- app_assoc | lia].
        -- destruct Hresult as (e & -> & Hfailed & Hthrown).
           exists e. repeat split; assumption.
      * cbn [fst snd]. eexists [_], [_]. cbn. repeat split.
        eexists. repeat split.
Qed.

(** X23.  Uploading files, a user being signed in: the requests made are
    a prefix of the plan (for each file an upload under a name in the
    folder of the user and the contact, then the row pointing to it), and
    only the last one can have failed.  If it failed, the list on screen
    is not updated, although the rows of the files before it are stored,
    and the message thrown is shown; otherwise the list is the former one
    followed by the rows received, two requests per file. *)
Theorem upload_stops_at_first_failure contactId (attachments : list Attachment)
    (files : list LocalFile) (store : Store) previousError userId :
  auth_getUser backend = Some userId ->
  files <> [] ->
  let run := handleFileSelect backend contactId attachments files store previousError in
  let trace := requests run in
  map requestOf trace
  = firstn (length trace) (planned (stamp backend) userId contactId 0 files)
  /\ existsb failed (removelast trace) = false
  /\ match from_option thrownBy None (last trace) with
     | Some thrown =>
         changed run = None
         /\ uploadError run
            = Some (if instanceofError thrown then message thrown
                    else "Failed to upload")
     | None =>
         changed run = Some (attachments ++ stored trace)
         /\ uploadError run = None
         /\ length trace = 2 * length files
     end.
Proof.
  intros Huser Hfiles. cbv zeta. unfold handleFileSelect. rewrite Huser.
  destruct files as [|file0 files0]; [contradiction|].
  set (files := file0 :: files0) in *.
  destruct (uploadLoop_trace userId contactId files 0 store [])
    as (good & bad & Htrace & Hgood & Hplan & Hresult).
  destruct (uploadLoop backend userId contactId 0 files store [])
    as [[store' trace] result].
  cbn [fst snd] in Htrace, Hplan, Hresult.
  destruct result as [rows|thrown]; cbn [requests changed uploadError].
  - destruct Hresult as (-> & -> & Hlen). rewrite app_nil_r in Htrace. subst trace.
    split; [exact Hplan|]. split; [now apply existsb_removelast|].
    rewrite (last_not_thrown _ Hgood). repeat split. exact Hlen.
  - destruct Hresult as (e & -> & Hfailed & Hthrown). subst trace.
    split; [exact Hplan|]. rewrite removelast_last, last_snoc.
    split; [exact Hgood|]. cbn [from_option]. rewrite Hthrown. split; reflexivity.
Qed.

End with_backend.

Lemma upload_witness :
  let run :=
    handleFileSelect UploadSamples.oneObjectOnly "c1" []
      UploadSamples.twoFiles [] None in
  changed run = None
  /\ uploadError run = Some "quota exceeded"
  /\ length (stored (requests run)) = 1
  /\ map requestOf (requests run)
     = firstn 3
         (planned (stamp UploadSamples.oneObjectOnly)
            "u1" "c1" 0 UploadSamples.twoFiles).
Proof.
  cbv zeta. split; [vm_compute; reflexivity|]. split; [vm_compute; reflexivity|].
  split; [vm_compute; reflexivity|].
  refine (proj1 (upload_stops_at_first_failure UploadSamples.oneObjectOnly
                   "c1" [] UploadSamples.twoFiles [] None "u1" _ _)).
  - reflexivity.
  - discriminate.
Defined.

End UploadFacts.

(** ** The options of the priority filter *)

Module BandFacts.
Import Js JsData ExportLib Dashboard PrioritySpec.
Local Open Scope nat_scope.
Local Open Scope list_scope.

Lemma filter_or_In {A : Type} (p q r : A -> bool) (l : list A) :
  (forall x, In x l -> p x = q x || r x) ->
  forall x, In x (List.filter p l) <-> In x (List.filter q l) \/ In x (List.filter r l).
Proof.
  intros Hp x. rewrite !filter_In. split.
  - intros [Hx Hpx]. rewrite (Hp x Hx) in Hpx.
    apply orb_prop in Hpx as [Hq|Hr]; [left | right]; tauto.
  - intros [[Hx Hq]|[Hx Hr]]; (split; [exact Hx|]); rewrite (Hp x Hx);
      [rewrite Hq | rewrite Hr, orb_true_r]; reflexivity.
Qed.

Lemma length_filter_split {A : Type} (p q r s : A -> bool) (l : list A) :
  (forall x, In x l ->
     (if p x then 1 else 0) + (if q x then 1 else 0)
     + (if r x then 1 else 0) + (if s x then 1 else 0) = 1) ->
  length (List.filter p l) + length (List.filter q l)
  + length (List.filter r l) + length (List.filter s l) = length l.
Proof.
  induction l as [|x l IH]; intros Hone; [reflexivity|].
  cbn [List.filter]. specialize (IH (fun y Hy => Hone y (or_intror Hy))).
  pose proof (Hone x (or_introl eq_refl)) as Hx.
  destruct (p x), (q x), (r x), (s x); cbn [length] in *; lia.
Qed.

(** A number equal to a positive finite number is that number. *)
Lemma eqb_positive (x y : float) :
  match Prim2SF y with S754_finite false _ _ => true | _ => false end = true ->
  (x =? y)%float = true -> x = y.
Proof.
  intros Hy Hxy. apply Prim2SF_inj. rewrite FloatAxioms.eqb_spec in Hxy.
  unfold SFeqb, SFcompare in Hxy.
  destruct (Prim2SF y) as [| | |[|] m e]; try discriminate Hy.
  destruct (Prim2SF x) as [s|s| |[|] m1 e1]; try discriminate Hxy;
    try (destruct s; discriminate Hxy).
  destruct (e1 ?= e)%Z eqn:He; try discriminate Hxy.
  apply Z.compare_eq in He. subst e1.
  destruct (PosDef.Pos.compare_cont Eq m1 m) eqn:Hm; try discriminate Hxy.
  change (Pos.compare m1 m = Eq) in Hm. apply Pos.compare_eq in Hm. now subst m1.
Qed.

(** What the tests on the priority give for the values the schema
    admits. *)
Lemma bands (c : Contact) :
  inSchema (priority c) = true ->
  isHigh c = hasPriority 1 c || hasPriority 2 c
  /\ isLow c = hasPriority 4 c || hasPriority 5 c
  /\ (if isHigh c then 1 else 0) + (if hasPriority 3 c then 1 else 0)
     + (if isLow c then 1 else 0)
     + (if match priority c with None => true | Some _ => false end then 1 else 0)
     = 1.
Proof.
  unfold inSchema, isHigh, isLow, hasPriority.
  destruct (priority c) as [x|]; [|intros _; repeat split].
  cbn [existsb]. rewrite orb_false_r.
  intros Hx.
  repeat (apply orb_prop in Hx as [Hx|Hx]);
    apply eqb_positive in Hx; try reflexivity; subst x;
    vm_compute; repeat split.
Qed.

Section with_host.
Context `{Host}.

Lemma listed_high page contacts : listed page "high" contacts = List.filter isHigh contacts.
Proof. reflexivity. Qed.

Lemma listed_medium page contacts :
  listed page "medium" contacts = List.filter (hasPriority 3) contacts.
Proof. reflexivity. Qed.

Lemma listed_low page contacts : listed page "low" contacts = List.filter isLow contacts.
Proof. reflexivity. Qed.

Lemma listed_number page contacts :
  listed page "1" contacts = List.filter (hasPriority 1) contacts
  /\ listed page "2" contacts = List.filter (hasPriority 2) contacts
  /\ listed page "3" contacts = List.filter (hasPriority 3) contacts
  /\ listed page "4" contacts = List.filter (hasPriority 4) contacts
  /\ listed page "5" contacts = List.filter (hasPriority 5) contacts.
Proof.
  unfold listed, filteredContacts, setPriorityFilter, clearFilters.
  cbn [searchQuery locationFilter priorityFilter dateFilter selectedLocation
       selectedInstitution isEmpty negb].
  repeat split;
    match goal with
    | |- context [parseInt ?s] =>
        let v := eval vm_compute in (parseInt s) in
        change (parseInt s) with v
    end; reflexivity.
Qed.

(** X24.  On contacts whose priority the schema admits (none, or an
    integer from 1 to 5), the options of the priority filter agree with
    their labels: [high] lists the contacts of [1] and of [2], [medium]
    those of [3], [low] those of [4] and of [5]; and the three bands and
    the contacts without a priority count up to all contacts. *)
Theorem priority_options_partition (page : Page) (contacts : list Contact) :
  Forall (fun c => inSchema (priority c) = true) contacts ->
  (forall c,
     In c (listed page "high" contacts)
     <-> In c (listed page "1" contacts) \/ In c (listed page "2" contacts))
  /\ listed page "medium" contacts = listed page "3" contacts
  /\ (forall c,
        In c (listed page "low" contacts)
        <-> In c (listed page "4" contacts) \/ In c (listed page "5" contacts))
  /\ length (listed page "high" contacts) + length (listed page "medium" contacts)
     + length (listed page "low" contacts)
     + length (List.filter
                 (fun c => match priority c with None => true | Some _ => false end)
                 contacts)
     = length contacts.
Proof.
  intros Hschema. rewrite List.Forall_forall in Hschema.
  destruct (listed_number page contacts) as (-> & -> & -> & -> & ->).
  rewrite listed_high, listed_medium, listed_low.
  split.
  { apply filter_or_In. intros c Hc. exact (proj1 (bands c (Hschema c Hc))). }
  split; [reflexivity|]. split.
  { apply filter_or_In. intros c Hc. exact (proj1 (proj2 (bands c (Hschema c Hc)))). }
  apply length_filter_split. intros c Hc.
  exact (proj2 (proj2 (bands c (Hschema c Hc)))).
Qed.

End with_host.

Lemma priority_options_witness :
  Forall (fun c => inSchema (priority c) = true) BandSamples.ranks
  /\ map name (@listed Reference.utc
                 {| searchQuery := "x"; locationFilter := ""; priorityFilter := "low";
                    dateFilter := ""; dateFilterType := before;
                    viewMode := view_contacts; selectedLocation := None;
                    selectedInstitution := None |}
                 "high" BandSamples.ranks)
     = ["Ann"; "Dov"]
  /\ @listed Reference.utc
       {| searchQuery := "x"; locationFilter := ""; priorityFilter := "low";
          dateFilter := ""; dateFilterType := before;
          viewMode := view_contacts; selectedLocation := None;
          selectedInstitution := None |}
       "medium" BandSamples.ranks
     = @listed Reference.utc
         {| searchQuery := "x"; locationFilter := ""; priorityFilter := "low";
            dateFilter := ""; dateFilterType := before;
            viewMode := view_contacts; selectedLocation := None;
            selectedInstitution := None |}
         "3" BandSamples.ranks.
Proof.
  assert (Hschema : Forall (fun c => inSchema (priority c) = true) BandSamples.ranks)
    by (repeat constructor).
  split; [exact Hschema|]. split; [vm_compute; reflexivity|].
  exact (proj1 (proj2 (@priority_options_partition Reference.utc _ _ Hschema))).
Defined.

End BandFacts.
